(** * Proy-1/back: the admin backend, its handlers and what the specification says of them

    The repository holds several near-duplicate revisions of one HTTP/JSON
    backend over a document database:

    - [MainPure]: [backend/main-pure.go], the hand-rolled [net/http] router;
    - [GinApp]: the first gin port ([ProductInput] with [binding:"required"],
      uploads stored on disk under the original file name);
    - [Draft]: the early gin revision that stores and compares raw passwords;
    - [Main]: [backend/main.go], gin with bcrypt, PASETO tokens, Cloudinary and
      uploads stored in the database;
    - [Controllers]: the modular revision ([controllers] package, [config.Load]).

    Every handler is embedded as a computation in the state monad over a
    [World]: the two collections, the local disk, the clock, and the outcomes
    the environment has in store for the calls that leave the process
    (database driver, file system, random source). *)

From Stdlib Require Import String Ascii List ZArith NArith Bool Lia Floats Uint63.
From Stdlib Require Import DecimalString DecimalZ.
From ExtLib Require Import Structures.Monad Structures.MonadState Data.Monads.StateMonad.
Import ListNotations MonadNotation.
Local Open Scope monad_scope.
Local Open Scope string_scope.
Local Open Scope Z_scope.

Set Implicit Arguments.
Local Set Warnings "-register-all".

(** ** Go values *)

(** Go's [error] values, as far as the handlers tell them apart: the driver's
    sentinel [mongo.ErrNoDocuments] is compared with [==], every other error
    is only printed. *)
Inductive error :=
| ErrNoDocuments
| ErrDriver (msg : string)
| ErrDuplicateKey
| ErrIO (msg : string)
| ErrOther (msg : string).

Definition Error (e : error) : string :=
  match e with
  | ErrNoDocuments => "mongo: no documents in result"
  | ErrDriver msg => msg
  | ErrDuplicateKey => "E11000 duplicate key error"
  | ErrIO msg => msg
  | ErrOther msg => msg
  end.

Definition is_ErrNoDocuments (e : error) : bool :=
  match e with ErrNoDocuments => true | _ => false end.

(** A Go call returning [(T, error)]. *)
Inductive result (T : Type) :=
| Ok (v : T)
| Err (e : error).
Arguments Ok {T} v.
Arguments Err {T} e.

(** [time.Time] as nanoseconds since the epoch, [time.Duration] as nanoseconds. *)
Definition Time := Z.
Definition Hour : Z := 3600 * 1000000000.
Definition Add (t : Time) (d : Z) : Time := t + d.

(** [float64] is the kernel's binary64. *)
Definition float64 := float.

(** An integer as a double: the nearest one, ties to even, as a conversion
    of an [int64] gives it ([math.MinInt64] is the double [-2^63]). *)
Definition float_of_Z (z : Z) : float64 :=
  SF2Prim (SpecFloat.binary_normalize prec emax z 0 false).

(** [t.Unix()]: the whole seconds since the epoch. *)
Definition Unix (t : Time) : Z := t / 1000000000.

(** [fmt.Sprintf("%d", n)]: the decimal digits, after a minus sign for a
    negative number. *)
Definition Sprintf_d (n : Z) : string := NilZero.string_of_int (Z.to_int n).

(** ** Package [strings] *)
Module strings.

Fixpoint HasPrefix (s prefix : string) {struct prefix} : bool :=
  match prefix, s with
  | EmptyString, _ => true
  | String a prefix', String b s' => Ascii.eqb a b && HasPrefix s' prefix'
  | String _ _, EmptyString => false
  end.

Fixpoint drop (n : nat) (s : string) : string :=
  match n, s with
  | O, _ => s
  | S n', String _ s' => drop n' s'
  | S _, EmptyString => EmptyString
  end.

Definition TrimPrefix (s prefix : string) : string :=
  if HasPrefix s prefix then drop (String.length prefix) s else s.

(** [Contains s substr]: [substr] occurs somewhere within [s]. *)
Fixpoint Contains (s substr : string) : bool :=
  HasPrefix s substr ||
  match s with
  | EmptyString => false
  | String _ s' => Contains s' substr
  end.

(** [Split s sep] for a one-byte separator: the pieces between the
    occurrences of [sep], one more than there are occurrences. *)
Fixpoint Split (s : string) (sep : ascii) : list string :=
  match s with
  | EmptyString => [EmptyString]
  | String c s' =>
      if Ascii.eqb c sep then EmptyString :: Split s' sep
      else match Split s' sep with
           | p :: ps => String c p :: ps
           | [] => [String c EmptyString]
           end
  end.

(** Lower-casing of the ASCII letters; the handlers take [ToLower] as a
    parameter, this is the instance the examples run with. *)
Definition lower_ascii (c : ascii) : ascii :=
  let n := nat_of_ascii c in
  if (Nat.leb 65 n && Nat.leb n 90)%bool then ascii_of_nat (n + 32) else c.

Fixpoint ToLowerASCII (s : string) : string :=
  match s with
  | EmptyString => EmptyString
  | String c s' => String (lower_ascii c) (ToLowerASCII s')
  end.

End strings.

(** [parts[len(parts)-1]] on a slice known to be non-empty. *)
Definition last_part (parts : list string) : string := List.last parts EmptyString.

(** ** Package [paseto] *)

(** A [v2.local] token is kept symbolic: it is the record of what [Encrypt]
    sealed, under which key and with which footer.  No handler ever looks
    inside a token.  [Encrypt] refuses a key that is not 32 bytes long (the
    XChaCha20-Poly1305 key size). *)
Module paseto.
Record JSONToken := mkJSONToken {
  Subject : string;
  IssuedAt : Time;
  Expiration : Time
}.

Record Token := mkToken {
  sealed_key : string;
  sealed_payload : JSONToken;
  sealed_footer : string
}.

Definition Encrypt (key : string) (payload : JSONToken) (footer : string) : result Token :=
  if (String.length key =? 32)%nat then Ok (mkToken key payload footer)
  else Err (ErrOther "chacha20poly1305: bad key length").
End paseto.

(** ** JSON values, as [encoding/json] writes a response body *)
Inductive JSON :=
| JNull
| JBool (b : bool)
| JInt (n : Z)
| JFloat (x : float64)
| JStr (s : string)
| JTime (t : Time)
| JToken (t : paseto.Token)
| JArr (items : list JSON)
| JObj (fields : list (string * JSON)).

Fixpoint lookup (key : string) (fields : list (string * JSON)) : option JSON :=
  match fields with
  | [] => None
  | (k, v) :: rest => if String.eqb k key then Some v else lookup key rest
  end.

Definition field (key : string) (j : JSON) : option JSON :=
  match j with
  | JObj fields => lookup key fields
  | _ => None
  end.

Definition keys (j : JSON) : list string :=
  match j with
  | JObj fields => map fst fields
  | _ => []
  end.

(** A field tagged [omitempty] is left out when the string is empty. *)
Definition omitempty (key : string) (s : string) : list (string * JSON) :=
  if String.eqb s "" then [] else [(key, JStr s)].

(** ** Package [net/http] *)
Module http.
Definition StatusOK := 200.
Definition StatusCreated := 201.
Definition StatusBadRequest := 400.
Definition StatusUnauthorized := 401.
Definition StatusNotFound := 404.
Definition StatusMethodNotAllowed := 405.
Definition StatusConflict := 409.
Definition StatusInternalServerError := 500.
End http.

(** [encoding/json] refuses a [float64] that is infinite or not a number
    ([UnsupportedValueError]); every other value here has an encoding. *)
Fixpoint encodable (j : JSON) : bool :=
  match j with
  | JFloat x => PrimFloat.is_finite x
  | JArr items => forallb encodable items
  | JObj fields => forallb (fun kv => encodable (snd kv)) fields
  | _ => true
  end.

(** What a handler writes: a JSON document with a status, the content of a
    file handed to [http.ServeFile], or a status and nothing after it. *)
Inductive Payload :=
| JSONBody (j : JSON)
| FileBody (path : string)
| NoBody.

Record Response := mkResponse { Status : Z; Body : Payload }.

Definition JSONResponse (status : Z) (j : JSON) : Response :=
  mkResponse status (JSONBody j).

Definition body_json (r : Response) : JSON :=
  match Body r with
  | JSONBody j => j
  | FileBody _ => JNull
  | NoBody => JNull
  end.

Definition serves_file (r : Response) : bool :=
  match Body r with
  | FileBody _ => true
  | JSONBody _ => false
  | NoBody => false
  end.

(** The request body after [json.Decoder.Decode]: the decoded struct (absent
    fields at their zero value), or a decoding error. *)
Inductive Decoded (T : Type) :=
| Malformed
| Parsed (v : T).
Arguments Malformed {T}.
Arguments Parsed {T} v.

(** gin's [ShouldBindJSON]: decode, then check the [binding] tags. *)
Definition ShouldBindJSON {T} (valid : T -> bool) (body : Decoded T) : result T :=
  match body with
  | Malformed => Err (ErrOther "invalid character")
  | Parsed v => if valid v then Ok v else Err (ErrOther "Field validation failed on the 'required' tag")
  end.

(** [binding:"required"]: the field is not at its zero value. *)
Definition required (s : string) : bool := negb (String.eqb s "").
Definition required_float (x : float64) : bool := negb (PrimFloat.eqb x 0).

(** ** Identifiers *)

(** [primitive.ObjectID]: twelve bytes, read as a number; the zero value is
    [primitive.NilObjectID]. *)
Definition ObjectID := N.
Definition NilObjectID : ObjectID := 0%N.

Definition hex_digit (d : N) : ascii :=
  if (d <? 10)%N then ascii_of_N (48 + d) else ascii_of_N (87 + d).

Fixpoint hex_digits (k : nat) (n : N) (acc : string) : string :=
  match k with
  | O => acc
  | S k' => hex_digits k' (n / 16)%N (String (hex_digit (n mod 16)%N) acc)
  end.

(** [id.Hex()]: the 24 hexadecimal digits of the twelve bytes. *)
Definition Hex (id : ObjectID) : string := hex_digits 24 id "".

(** The value of one hexadecimal digit, in either case. *)
Definition hex_value (c : ascii) : option N :=
  let n := N_of_ascii c in
  if ((48 <=? n) && (n <=? 57))%N then Some (n - 48)%N
  else if ((97 <=? n) && (n <=? 102))%N then Some (n - 87)%N
  else if ((65 <=? n) && (n <=? 70))%N then Some (n - 55)%N
  else None.

Fixpoint hex_number (s : string) (acc : N) : option N :=
  match s with
  | EmptyString => Some acc
  | String c s' =>
      match hex_value c with
      | Some d => hex_number s' (16 * acc + d)%N
      | None => None
      end
  end.

(** [primitive.ObjectIDFromHex(s)]: exactly 24 hexadecimal digits decode to
    an identifier, anything else is an error. *)
Definition ObjectIDFromHex (s : string) : result ObjectID :=
  if negb (String.length s =? 24)%nat then
    Err (ErrOther "the provided hex string is not a valid ObjectID")
  else
    match hex_number s 0%N with
    | Some id => Ok id
    | None => Err (ErrOther "encoding/hex: invalid byte")
    end.

(** A struct stored in a collection: its [_id] field, and the same document
    under another [_id]. *)
Class Document (D : Type) := {
  doc_id : D -> ObjectID;
  with_id : ObjectID -> D -> D
}.

(** ** BSON values returned by an aggregation *)
Inductive bson :=
| BNull
| BDouble (x : float64)
| BInt32 (n : Z)
| BString (s : string).

Definition bsonM := list (string * bson).

Fixpoint bson_lookup (key : string) (m : bsonM) : option bson :=
  match m with
  | [] => None
  | (k, v) :: rest => if String.eqb k key then Some v else bson_lookup key rest
  end.

(** ** The arithmetic of the database server

    The pipeline of the statistics handlers is evaluated by the server.
    [$multiply] of a double and an integer is their product in doubles, the
    integer converted first ([float_of_Z]).  [$sum] adds the doubles of a
    group by a compensated summation of the server's own: it stays a
    parameter, and every theorem holds whatever it computes. *)
Class Server := {
  Sum : list float64 -> float64
}.

(** ** [context.Context] *)

(** [context.WithTimeout(context.Background(), n*time.Second)] is [Some n],
    [context.Background()] is [None]. *)
Definition Context := option Z.
Definition WithTimeout (seconds : Z) : Context := Some seconds.
Definition Background : Context := None.

(** ** The database driver and the rest of the world *)

Inductive Op :=
| OpFind | OpFindOne | OpInsertOne | OpCountDocuments | OpAggregate
| OpCursorNext | OpCursorAll
| OpDeleteOne | OpUpdateOne | OpPing.

(** One call into the driver: the operation, the collection it goes to and
    the context it runs under. *)
Record Call := mkCall { call_op : Op; call_coll : string; call_ctx : Context }.

Section World.
Variables P A : Type.

Record World := mkWorld {
  products : list P;                     (* collection "products" *)
  admins : list A;                       (* collection "admins" *)
  db_faults : list (option string);      (* what the driver answers to the next calls: [Some msg] is an error *)
  db_calls : list Call;                  (* the calls issued so far, latest first *)
  clock : Time;                          (* [time.Now()] *)
  salts : list string;                   (* what [crypto/rand] yields next *)
  disk : list (string * string);         (* local files: path and content *)
  fs_faults : list (option string)       (* what the file system answers to the next calls *)
}.

Definition set_products (l : list P) (w : World) : World :=
  mkWorld l (admins w) (db_faults w) (db_calls w) (clock w) (salts w) (disk w) (fs_faults w).
Definition set_admins (l : list A) (w : World) : World :=
  mkWorld (products w) l (db_faults w) (db_calls w) (clock w) (salts w) (disk w) (fs_faults w).
Definition set_db (faults : list (option string)) (calls : list Call) (w : World) : World :=
  mkWorld (products w) (admins w) faults calls (clock w) (salts w) (disk w) (fs_faults w).
Definition set_clock (t : Time) (w : World) : World :=
  mkWorld (products w) (admins w) (db_faults w) (db_calls w) t (salts w) (disk w) (fs_faults w).
Definition set_salts (l : list string) (w : World) : World :=
  mkWorld (products w) (admins w) (db_faults w) (db_calls w) (clock w) l (disk w) (fs_faults w).
Definition set_fs (files : list (string * string)) (faults : list (option string)) (w : World) : World :=
  mkWorld (products w) (admins w) (db_faults w) (db_calls w) (clock w) (salts w) files faults.

Definition M := state World.

(** [time.Now()]: the clock is read and moves on (by one tick: two readings
    never agree). *)
Definition Now : M Time :=
  w <- get ;;
  put (set_clock (clock w + 1) w) ;;
  ret (clock w).

(** A handle on one collection, as [db.Collection(name)] gives. *)
Record Collection (D : Type) := mkCollection {
  coll_name : string;
  coll_docs : World -> list D;
  coll_put : list D -> World -> World
}.

Definition products_collection : Collection P := mkCollection "products" products set_products.
Definition admins_collection : Collection A := mkCollection "admins" admins set_admins.

(** Every driver call is logged and draws the next scheduled outcome. *)
Definition driver (op : Op) (coll : string) (ctx : Context) : M (option string) :=
  w <- get ;;
  put (set_db (tl (db_faults w)) (mkCall op coll ctx :: db_calls w) w) ;;
  ret (match db_faults w with f :: _ => f | [] => None end).

Section Operations.
Context {D : Type} `{Document D} {S : Server}.

Definition fresh (docs : list D) : ObjectID :=
  N.succ (fold_right N.max 0%N (map doc_id docs)).

Definition has_id (id : ObjectID) (docs : list D) : bool :=
  existsb (fun d => N.eqb (doc_id d) id) docs.

(** [collection.InsertOne(ctx, doc)]: a document without [_id] gets a new
    one; an [_id] already present is a duplicate-key error. *)
Definition InsertOne (c : Collection D) (ctx : Context) (doc : D) : M (result ObjectID) :=
  failure <- driver OpInsertOne (coll_name c) ctx ;;
  match failure with
  | Some msg => ret (Err (ErrDriver msg))
  | None =>
      w <- get ;;
      let id := if N.eqb (doc_id doc) NilObjectID then fresh (coll_docs c w) else doc_id doc in
      if has_id id (coll_docs c w) then ret (Err ErrDuplicateKey)
      else put (coll_put c (coll_docs c w ++ [with_id id doc])%list w) ;; ret (Ok id)
  end.

(** [collection.FindOne(ctx, filter).Decode(&doc)]: the first match. *)
Definition FindOne (c : Collection D) (ctx : Context) (filter : D -> bool) : M (result D) :=
  failure <- driver OpFindOne (coll_name c) ctx ;;
  match failure with
  | Some msg => ret (Err (ErrDriver msg))
  | None =>
      w <- get ;;
      ret (match find filter (coll_docs c w) with
           | Some d => Ok d
           | None => Err ErrNoDocuments
           end)
  end.

(** [collection.Find(ctx, bson.M{}, projection)]: a cursor over all the
    documents, as the projection shows them. *)
Definition Find (c : Collection D) (ctx : Context) (projection : D -> D) : M (result (list D)) :=
  failure <- driver OpFind (coll_name c) ctx ;;
  match failure with
  | Some msg => ret (Err (ErrDriver msg))
  | None => w <- get ;; ret (Ok (map projection (coll_docs c w)))
  end.

(** [collection.CountDocuments(ctx, bson.M{})]. *)
Definition CountDocuments (c : Collection D) (ctx : Context) : M (result Z) :=
  failure <- driver OpCountDocuments (coll_name c) ctx ;;
  match failure with
  | Some msg => ret (Err (ErrDriver msg))
  | None => w <- get ;; ret (Ok (Z.of_nat (length (coll_docs c w))))
  end.

(** What the server computes for [{"$sum": e}] over the documents of a
    group, [e] evaluated on each from the first to the last. *)
Definition sum_of (e : D -> float64) (docs : list D) : float64 :=
  Sum (map e docs).

(** The stage [{"$group": {"_id": nil, "total": {"$sum": e}}}]: no group
    for an empty collection, else one document with the sum. *)
Definition group_total (e : D -> float64) (docs : list D) : list bsonM :=
  match docs with
  | [] => []
  | _ :: _ => [[("_id", BNull); ("total", BDouble (sum_of e docs))]]
  end.

(** [collection.Aggregate(ctx, pipeline)] for that one-stage pipeline. *)
Definition Aggregate (c : Collection D) (ctx : Context) (e : D -> float64) : M (result (list bsonM)) :=
  failure <- driver OpAggregate (coll_name c) ctx ;;
  match failure with
  | Some msg => ret (Err (ErrDriver msg))
  | None => w <- get ;; ret (Ok (group_total e (coll_docs c w)))
  end.
(** The collection without the first document that has the given [_id]. *)
Fixpoint remove_id (id : ObjectID) (docs : list D) : list D :=
  match docs with
  | [] => []
  | d :: rest => if N.eqb (doc_id d) id then rest else d :: remove_id id rest
  end.

(** [collection.DeleteOne(ctx, bson.M{"_id": id})]: [DeletedCount]. *)
Definition DeleteOne (c : Collection D) (ctx : Context) (id : ObjectID) : M (result Z) :=
  failure <- driver OpDeleteOne (coll_name c) ctx ;;
  match failure with
  | Some msg => ret (Err (ErrDriver msg))
  | None =>
      w <- get ;;
      if has_id id (coll_docs c w)
      then put (coll_put c (remove_id id (coll_docs c w)) w) ;; ret (Ok 1)
      else ret (Ok 0)
  end.

(** The collection with [set] applied to the first document that has the
    given [_id]. *)
Fixpoint update_id (id : ObjectID) (set : D -> D) (docs : list D) : list D :=
  match docs with
  | [] => []
  | d :: rest => if N.eqb (doc_id d) id then set d :: rest else d :: update_id id set rest
  end.

(** [collection.UpdateOne(ctx, bson.M{"_id": id}, bson.M{"$set": fields})]:
    [MatchedCount].  [set] is what the [$set] does to a stored document; the
    server refuses an update that would change the [_id] of the document it
    matched. *)
Definition UpdateOne (c : Collection D) (ctx : Context) (id : ObjectID) (set : D -> D) : M (result Z) :=
  failure <- driver OpUpdateOne (coll_name c) ctx ;;
  match failure with
  | Some msg => ret (Err (ErrDriver msg))
  | None =>
      w <- get ;;
      match find (fun d => N.eqb (doc_id d) id) (coll_docs c w) with
      | None => ret (Ok 0)
      | Some d =>
          if N.eqb (doc_id (set d)) id
          then put (coll_put c (update_id id set (coll_docs c w)) w) ;; ret (Ok 1)
          else ret (Err (ErrDriver "Performing an update on the path '_id' would modify the immutable field '_id'"))
      end
  end.
End Operations.

(** A cursor is the list of documents not yet iterated.  [cursor.All]
    decodes them all; [cursor.Next] moves past one.  (The driver documents
    of [All]: documents already iterated are not included.) *)
Definition All {T} (coll : string) (ctx : Context) (cursor : list T) : M (result (list T)) :=
  failure <- driver OpCursorAll coll ctx ;;
  match failure with
  | Some msg => ret (Err (ErrDriver msg))
  | None => ret (Ok cursor)
  end.

Definition Next {T} (coll : string) (ctx : Context) (cursor : list T) : M (bool * list T) :=
  failure <- driver OpCursorNext coll ctx ;;
  match failure, cursor with
  | None, _ :: rest => ret (true, rest)
  | _, _ => ret (false, cursor)
  end.

(** [client.Ping(ctx, nil)] and [db.RunCommand(ctx, ping).Err()]: a round
    trip to the server that touches no collection. *)
Definition Ping (ctx : Context) : M (option error) :=
  failure <- driver OpPing "" ctx ;;
  ret (option_map ErrDriver failure).

(** *** Local files *)

Fixpoint write_file (path content : string) (files : list (string * string)) : list (string * string) :=
  match files with
  | [] => [(path, content)]
  | (p, c) :: rest =>
      if String.eqb p path then (path, content) :: rest
      else (p, c) :: write_file path content rest
  end.

Fixpoint read_file (path : string) (files : list (string * string)) : option string :=
  match files with
  | [] => None
  | (p, c) :: rest => if String.eqb p path then Some c else read_file path rest
  end.

Definition fs_call : M (option string) :=
  w <- get ;;
  put (set_fs (disk w) (tl (fs_faults w)) w) ;;
  ret (match fs_faults w with f :: _ => f | [] => None end).

(** [os.Create(path)]: the file exists and is empty afterwards. *)
Definition Create (path : string) : M (option error) :=
  failure <- fs_call ;;
  match failure with
  | Some msg => ret (Some (ErrIO msg))
  | None => w <- get ;; put (set_fs (write_file path "" (disk w)) (fs_faults w) w) ;; ret None
  end.

(** [io.Copy(dst, file)] into the file created at [path]. *)
Definition Copy (path content : string) : M (option error) :=
  failure <- fs_call ;;
  match failure with
  | Some msg => ret (Some (ErrIO msg))
  | None => w <- get ;; put (set_fs (write_file path content (disk w)) (fs_faults w) w) ;; ret None
  end.

(** gin's [c.SaveUploadedFile(file, dst)]. *)
Definition SaveUploadedFile (content path : string) : M (option error) :=
  failure <- fs_call ;;
  match failure with
  | Some msg => ret (Some (ErrIO msg))
  | None => w <- get ;; put (set_fs (write_file path content (disk w)) (fs_faults w) w) ;; ret None
  end.

(** [file.Open()] on an uploaded file, and [io.ReadAll(src)] of its bytes. *)
Definition Open : M (option error) :=
  failure <- fs_call ;;
  ret (option_map ErrIO failure).

Definition ReadAll (content : string) : M (result string) :=
  failure <- fs_call ;;
  match failure with
  | Some msg => ret (Err (ErrIO msg))
  | None => ret (Ok content)
  end.

(** [os.Stat(path)] followed by [os.IsNotExist(err)]. *)
Definition IsNotExist (path : string) : M bool :=
  w <- get ;;
  ret (match read_file path (disk w) with Some _ => false | None => true end).

(** *** Randomness *)
Definition draw_salt : M (option string) :=
  w <- get ;;
  put (set_salts (tl (salts w)) w) ;;
  ret (hd_error (salts w)).

End World.

Arguments products {P A} w.
Arguments admins {P A} w.
Arguments db_faults {P A} w.
Arguments db_calls {P A} w.
Arguments clock {P A} w.
Arguments salts {P A} w.
Arguments disk {P A} w.
Arguments fs_faults {P A} w.
Arguments products_collection {P A}.
Arguments admins_collection {P A}.
Arguments Now {P A}.
Arguments draw_salt {P A}.
Arguments Create {P A} path.
Arguments Copy {P A} path content.
Arguments SaveUploadedFile {P A} content path.
Arguments IsNotExist {P A} path.
Arguments Open {P A}.
Arguments ReadAll {P A} content.
Arguments All {P A T} coll ctx cursor.
Arguments Next {P A T} coll ctx cursor.
Arguments Ping {P A} ctx.

(** A handler run on a world: the response and the world it leaves. *)
Definition run {P A T} (h : M P A T) (w : World P A) : T * World P A := runState h w.

(** ** Package [bcrypt] *)

(** The hashing primitive is the library's.  [GenerateFromPassword] is a
    function of the salt it draws, the password and the cost;
    [CompareHashAndPassword] is [true] where the library returns [nil]. *)
Class Bcrypt := {
  GenerateFromPassword : string -> string -> Z -> result string;
  CompareHashAndPassword : string -> string -> bool
}.

(** What the library promises of the two: a generated hash compares equal to
    its password. *)
Definition bcrypt_law (B : Bcrypt) : Prop :=
  forall salt password cost hash,
    GenerateFromPassword salt password cost = Ok hash ->
    CompareHashAndPassword hash password = true.

Definition DefaultCost := 10.

(** [bcrypt.GenerateFromPassword(password, cost)] with its salt drawn from
    the random source. *)
Definition bcrypt_Generate {P A} {B : Bcrypt} (password : string) (cost : Z) : M P A (result string) :=
  salt <- draw_salt ;;
  match salt with
  | None => ret (Err (ErrOther "crypto/rand: no entropy"))
  | Some s => ret (GenerateFromPassword s password cost)
  end.

(** ** Library functions the handlers call and this development does not open

    [strings.ToLower], the [%.1fMB] rendering of a size by [fmt.Sprintf],
    [filepath.Join], [strconv.ParseInt], [base64.StdEncoding.EncodeToString]
    and [cloudinary.NewFromURL] stay parameters: every theorem holds whatever
    they compute. *)
(** The image host: a handle uploads one data URI and answers with the
    secure URL and the public id, or fails. *)
Record UploadResult := mkUploadResult { SecureURL : string; PublicID : string }.
Definition Cloudinary := string -> result UploadResult.

Class GoLibrary := {
  ToLower : string -> string;
  Sprintf_MB : Z -> string;
  Join : string -> string -> string;
  ParseInt : string -> option Z;
  EncodeToString : string -> string;
  NewFromURL : string -> result Cloudinary
}.

(** A request with a JSON body, as [net/http] hands it to a handler. *)
Record Request (T : Type) := mkRequest {
  Method : string;
  URLPath : string;
  RequestBody : Decoded T
}.

(** gin: [c.JSON(code, obj)] and the map literal [gin.H{...}]. *)
Module gin.
Definition H (fields : list (string * JSON)) : JSON := JObj fields.

(** [c.JSON(code, obj)] is [c.Render(code, render.JSON{obj})].  [Render] sets
    the status, then has [obj] encoded and written; where the encoder
    refuses [obj], gin 1.9.1 pushes the error to the context and aborts:
    the status stays and no body is written.  The handlers that put a
    float of the database's into [obj] are embedded with [Render]. *)
Definition Render (code : Z) (obj : JSON) : Response :=
  if encodable obj then JSONResponse code obj else mkResponse code NoBody.

(** [c.JSON(code, obj)] for an [obj] the encoder accepts. *)
Definition JSON (code : Z) (obj : JSON) : Response := JSONResponse code obj.
End gin.

(** An uploaded file: its multipart header and its bytes. *)
Record FileHeader := mkFileHeader { Filename : string; Size : Z }.
Record File := mkFile { Header : FileHeader; Content : string }.

(** ** [backend/main-pure.go] *)
Module MainPure.

Module Product.
Record t := mk {
  ID : ObjectID;
  Name : string;
  Price : float64;
  Description : string;
  ImageURL : string
}.
End Product.

Module Admin.
Record t := mk {
  ID : ObjectID;
  Username : string;
  Password : string
}.
End Admin.

Module ProductInput.
Record t := mk {
  Name : string;
  Price : float64;
  Description : string;
  ImageURL : string
}.
End ProductInput.

Module AdminInput.
Record t := mk { Username : string; Password : string }.
End AdminInput.

Module LoginInput.
Record t := mk { Username : string; Password : string }.
End LoginInput.

#[global] Instance Product_Document : Document Product.t := {
  doc_id := Product.ID;
  with_id id p := Product.mk id (Product.Name p) (Product.Price p) (Product.Description p) (Product.ImageURL p)
}.

#[global] Instance Admin_Document : Document Admin.t := {
  doc_id := Admin.ID;
  with_id id a := Admin.mk id (Admin.Username a) (Admin.Password a)
}.

Definition World := World Product.t Admin.t.
Definition Handler := M Product.t Admin.t Response.

(** The structs as [encoding/json] writes them, tag by tag. *)
Definition Product_json (p : Product.t) : JSON :=
  JObj [("_id", JStr (Hex (Product.ID p)));
        ("name", JStr (Product.Name p));
        ("price", JFloat (Product.Price p));
        ("description", JStr (Product.Description p));
        ("image_url", JStr (Product.ImageURL p))].

Definition Admin_json (a : Admin.t) : JSON :=
  JObj ([("_id", JStr (Hex (Admin.ID a)));
         ("username", JStr (Admin.Username a))]
        ++ omitempty "password" (Admin.Password a))%list.

(** A nil slice is written as [null]. *)
Definition slice_json {T} (f : T -> JSON) (l : list T) : JSON :=
  match l with
  | [] => JNull
  | _ :: _ => JArr (map f l)
  end.

(** Constants *)
Definition MaxFileSize := 10 * 1024 * 1024.
Definition UploadDir := "static/uploads".

Definition allowedExtensions (ext : string) : bool :=
  existsb (String.eqb ext) ["png"; "jpg"; "jpeg"; "gif"].

Definition writeJSON (statusCode : Z) (data : JSON) : Response :=
  JSONResponse statusCode data.

Definition writeError (statusCode : Z) (message : string) : Response :=
  writeJSON statusCode (JObj [("error", JStr message)]).

Definition createProduct (r : Request ProductInput.t) : Handler :=
  let ctx := WithTimeout 10 in
  match RequestBody r with
  | Malformed => ret (writeError http.StatusBadRequest "Invalid JSON")
  | Parsed input =>
      if String.eqb (ProductInput.Name input) "" || (ProductInput.Price input <=? 0)%float then
        ret (writeError http.StatusBadRequest "Nama dan harga produk wajib diisi")
      else
        let product := Product.mk NilObjectID (ProductInput.Name input) (ProductInput.Price input)
                         (ProductInput.Description input) (ProductInput.ImageURL input) in
        let collection := products_collection in
        result <- InsertOne collection ctx product ;;
        match result with
        | Err err => ret (writeError http.StatusInternalServerError ("Error creating product: " ++ Error err))
        | Ok id => ret (writeJSON http.StatusCreated (Product_json (with_id id product)))
        end
  end.

Definition getAdmins : Handler :=
  let ctx := WithTimeout 10 in
  let collection := admins_collection in
  found <- Find collection ctx (fun a => Admin.mk (Admin.ID a) (Admin.Username a) "") ;;
  match found with
  | Err err => ret (writeError http.StatusInternalServerError ("Error fetching admins: " ++ Error err))
  | Ok cursor =>
      decoded <- All (coll_name collection) ctx cursor ;;
      match decoded with
      | Err err => ret (writeError http.StatusInternalServerError ("Error parsing admins: " ++ Error err))
      | Ok admins => ret (writeJSON http.StatusOK (slice_json Admin_json admins))
      end
  end.

Section WithBcrypt.
Context {B : Bcrypt}.

Definition createAdmin (r : Request AdminInput.t) : Handler :=
  let ctx := WithTimeout 10 in
  match RequestBody r with
  | Malformed => ret (writeError http.StatusBadRequest "Invalid JSON")
  | Parsed input =>
      if String.eqb (AdminInput.Username input) "" || String.eqb (AdminInput.Password input) "" then
        ret (writeError http.StatusBadRequest "Username dan password wajib diisi")
      else
        let collection := admins_collection in
        (* Check if username already exists *)
        existing <- FindOne collection ctx (fun a => String.eqb (Admin.Username a) (AdminInput.Username input)) ;;
        match existing with
        | Ok _ => ret (writeError http.StatusBadRequest "Username sudah ada")
        | Err _ =>
            (* Hash password *)
            hashed <- bcrypt_Generate (AdminInput.Password input) DefaultCost ;;
            match hashed with
            | Err _ => ret (writeError http.StatusInternalServerError "Error hashing password")
            | Ok hashedPassword =>
                let admin := Admin.mk NilObjectID (AdminInput.Username input) hashedPassword in
                result <- InsertOne collection ctx admin ;;
                match result with
                | Err err => ret (writeError http.StatusInternalServerError ("Error creating admin: " ++ Error err))
                | Ok id =>
                    ret (writeJSON http.StatusCreated
                           (JObj [("_id", JStr (Hex id));
                                  ("message", JStr "Admin created successfully");
                                  ("username", JStr (Admin.Username admin))]))
                end
            end
        end
  end.

Definition registerHandler (r : Request AdminInput.t) : Handler :=
  if negb (String.eqb (Method r) "POST") then
    ret (writeError http.StatusMethodNotAllowed "Method not allowed")
  else createAdmin r.

Definition loginAdmin (r : Request LoginInput.t) : Handler :=
  let ctx := WithTimeout 10 in
  match RequestBody r with
  | Malformed => ret (writeError http.StatusBadRequest "Invalid JSON")
  | Parsed input =>
      if String.eqb (LoginInput.Username input) "" || String.eqb (LoginInput.Password input) "" then
        ret (writeError http.StatusBadRequest "Username dan password wajib diisi")
      else
        let collection := admins_collection in
        found <- FindOne collection ctx (fun a => String.eqb (Admin.Username a) (LoginInput.Username input)) ;;
        match found with
        | Err _ => ret (writeError http.StatusUnauthorized "Username/password salah")
        | Ok admin =>
            (* Check password *)
            if negb (CompareHashAndPassword (Admin.Password admin) (LoginInput.Password input)) then
              ret (writeError http.StatusUnauthorized "Username/password salah")
            else
              ret (writeJSON http.StatusOK
                     (JObj [("admin", JObj [("username", JStr (Admin.Username admin))]);
                            ("message", JStr "Login berhasil")]))
        end
  end.
End WithBcrypt.

(** The multipart request of the upload route: what [ParseMultipartForm]
    returns, and the file [FormFile] finds under a field name. *)
Record UploadRequest := mkUploadRequest {
  UploadMethod : string;
  ParseMultipartForm : option error;
  FormFile : string -> result File
}.

Section WithLibrary.
Context {L : GoLibrary}.

Definition uploadHandler (r : UploadRequest) : Handler :=
  if negb (String.eqb (UploadMethod r) "POST") then
    ret (writeError http.StatusMethodNotAllowed "Method not allowed")
  else
    (* Parse multipart form *)
    match ParseMultipartForm r with
    | Some _ => ret (writeError http.StatusBadRequest "File terlalu besar. Maksimal 10MB")
    | None =>
        match FormFile r "image" with
        | Err _ => ret (writeError http.StatusBadRequest "No file part")
        | Ok file =>
            let header := Header file in
            (* Check file size *)
            if Size header >? MaxFileSize then
              ret (writeError http.StatusBadRequest
                     ("File terlalu besar. Maksimal 10MB (ukuran file: " ++ Sprintf_MB (Size header) ++ ")"))
            else
              (* Check file extension *)
              let filename := Filename header in
              let parts := strings.Split filename "." in
              if (length parts <? 2)%nat then
                ret (writeError http.StatusBadRequest "File not allowed")
              else
                let ext := ToLower (last_part parts) in
                if negb (allowedExtensions ext) then
                  ret (writeError http.StatusBadRequest "File not allowed")
                else
                  (* Save file *)
                  let filepath := UploadDir ++ "/" ++ filename in
                  created <- Create filepath ;;
                  match created with
                  | Some err => ret (writeError http.StatusInternalServerError ("Error saving file: " ++ Error err))
                  | None =>
                      copied <- Copy filepath (Content file) ;;
                      match copied with
                      | Some err => ret (writeError http.StatusInternalServerError ("Error saving file: " ++ Error err))
                      | None =>
                          ret (writeJSON http.StatusCreated
                                 (JObj [("file_size", JStr (Sprintf_MB (Size header)));
                                        ("image_url", JStr ("/static/uploads/" ++ filename))]))
                      end
                  end
        end
    end.

Definition staticHandler (method path : string) : Handler :=
  if negb (String.eqb method "GET") then
    ret (writeError http.StatusMethodNotAllowed "Method not allowed")
  else
    (* Extract filename from URL *)
    let path := strings.TrimPrefix path "/static/" in
    if String.eqb path "" then
      ret (writeError http.StatusBadRequest "File not found")
    else
      (* Security: prevent directory traversal *)
      if strings.Contains path ".." then
        ret (writeError http.StatusBadRequest "Invalid file path")
      else
        let fullPath := Join "static" path in
        (* Check if file exists *)
        missing <- IsNotExist fullPath ;;
        if missing then ret (writeError http.StatusNotFound "File not found")
        else (* Serve file *) ret (mkResponse http.StatusOK (FileBody fullPath)).
End WithLibrary.

Definition statsHandler (method : string) : Handler :=
  if negb (String.eqb method "GET") then
    ret (writeError http.StatusMethodNotAllowed "Method not allowed")
  else
    let ctx := WithTimeout 10 in
    counted <- CountDocuments products_collection ctx ;;
    match counted with
    | Err err => ret (writeError http.StatusInternalServerError ("Stats error: " ++ Error err))
    | Ok productsCount =>
        counted <- CountDocuments admins_collection ctx ;;
        match counted with
        | Err err => ret (writeError http.StatusInternalServerError ("Stats error: " ++ Error err))
        | Ok adminsCount =>
            ret (writeJSON http.StatusOK
                   (JObj [("status", JStr "ok");
                          ("total_admins", JInt adminsCount);
                          ("total_products", JInt productsCount)]))
        end
    end.

(** [Response], the struct [healthCheck] answers with; every field is tagged
    [omitempty] ([Data] is never set). *)
Definition Response_json (status message error database : string) : JSON :=
  JObj (omitempty "status" status ++ omitempty "message" message
        ++ omitempty "error" error ++ omitempty "database" database)%list.

(** Health Check *)
Definition healthCheck (method : string) : Handler :=
  if negb (String.eqb method "GET") then
    ret (writeError http.StatusMethodNotAllowed "Method not allowed")
  else
    let ctx := WithTimeout 5 in
    pinged <- Ping ctx ;;
    match pinged with
    | Some err =>
        ret (writeJSON http.StatusInternalServerError
               (Response_json "error" "Database connection failed" (Error err) ""))
    | None =>
        ret (writeJSON http.StatusOK (Response_json "ok" "Backend is running" "" "connected"))
    end.

Definition getProducts : Handler :=
  let ctx := WithTimeout 10 in
  let collection := products_collection in
  found <- Find collection ctx (fun p => p) ;;
  match found with
  | Err err => ret (writeError http.StatusInternalServerError ("Error fetching products: " ++ Error err))
  | Ok cursor =>
      decoded <- All (coll_name collection) ctx cursor ;;
      match decoded with
      | Err err => ret (writeError http.StatusInternalServerError ("Error parsing products: " ++ Error err))
      | Ok products => ret (writeJSON http.StatusOK (slice_json Product_json products))
      end
  end.

Definition getProduct (id : string) : Handler :=
  let ctx := WithTimeout 10 in
  match ObjectIDFromHex id with
  | Err _ => ret (writeError http.StatusBadRequest "Invalid product ID")
  | Ok objID =>
      let collection := products_collection in
      found <- FindOne collection ctx (fun p => N.eqb (Product.ID p) objID) ;;
      match found with
      | Err err =>
          if is_ErrNoDocuments err then ret (writeError http.StatusNotFound "Produk tidak ditemukan")
          else ret (writeError http.StatusInternalServerError ("Error fetching product: " ++ Error err))
      | Ok product => ret (writeJSON http.StatusOK (Product_json product))
      end
  end.

Definition deleteProduct (id : string) : Handler :=
  let ctx := WithTimeout 10 in
  match ObjectIDFromHex id with
  | Err _ => ret (writeError http.StatusBadRequest "Invalid product ID")
  | Ok objID =>
      let collection := products_collection in
      result <- DeleteOne collection ctx objID ;;
      match result with
      | Err err => ret (writeError http.StatusInternalServerError ("Error deleting product: " ++ Error err))
      | Ok DeletedCount =>
          if DeletedCount =? 0 then ret (writeError http.StatusNotFound "Produk tidak ditemukan")
          else ret (writeJSON http.StatusOK (JObj [("message", JStr "Produk berhasil dihapus")]))
      end
  end.

Definition deleteAdmin (id : string) : Handler :=
  let ctx := WithTimeout 10 in
  match ObjectIDFromHex id with
  | Err _ => ret (writeError http.StatusBadRequest "Invalid admin ID")
  | Ok objID =>
      let collection := admins_collection in
      result <- DeleteOne collection ctx objID ;;
      match result with
      | Err err => ret (writeError http.StatusInternalServerError ("Error deleting admin: " ++ Error err))
      | Ok DeletedCount =>
          if DeletedCount =? 0 then ret (writeError http.StatusNotFound "Admin tidak ditemukan")
          else ret (writeJSON http.StatusOK (JObj [("message", JStr "Admin berhasil dihapus")]))
      end
  end.

(** Products handler *)
Definition productsHandler (r : Request ProductInput.t) : Handler :=
  if String.eqb (Method r) "GET" then getProducts
  else if String.eqb (Method r) "POST" then createProduct r
  else ret (writeError http.StatusMethodNotAllowed "Method not allowed").

(** Product handler (with ID).  [updateProduct] sets whatever fields the
    decoded map names, of whatever type; it has no counterpart on typed
    documents and stays a parameter of the dispatcher. *)
Definition productHandler (updateProduct : string -> Handler) (method URLPath : string) : Handler :=
  (* Extract ID from URL path *)
  let path := strings.TrimPrefix URLPath "/api/products/" in
  if String.eqb path "" then ret (writeError http.StatusBadRequest "Product ID required")
  else if String.eqb method "GET" then getProduct path
  else if String.eqb method "PUT" then updateProduct path
  else if String.eqb method "DELETE" then deleteProduct path
  else ret (writeError http.StatusMethodNotAllowed "Method not allowed").

(** Admin handler (with ID) *)
Definition adminHandler (method URLPath : string) : Handler :=
  if negb (String.eqb method "DELETE") then
    ret (writeError http.StatusMethodNotAllowed "Method not allowed")
  else
    (* Extract ID from URL path *)
    let path := strings.TrimPrefix URLPath "/api/admins/" in
    if String.eqb path "" then ret (writeError http.StatusBadRequest "Admin ID required")
    else deleteAdmin path.

Section Routes.
Context {B : Bcrypt}.

(** Admins handler *)
Definition adminsHandler (r : Request AdminInput.t) : Handler :=
  if String.eqb (Method r) "GET" then getAdmins
  else if String.eqb (Method r) "POST" then createAdmin r
  else ret (writeError http.StatusMethodNotAllowed "Method not allowed").

(** Login handler *)
Definition loginHandler (r : Request LoginInput.t) : Handler :=
  if String.eqb (Method r) "GET" then
    ret (writeJSON http.StatusOK
           (JObj [("message", JStr "Login endpoint ready");
                  ("methods", JArr [JStr "POST"])]))
  else if String.eqb (Method r) "POST" then loginAdmin r
  else ret (writeError http.StatusMethodNotAllowed "Method not allowed").
End Routes.

End MainPure.

(** ** The first gin port *)
Module GinApp.

(** [Product] and [Admin] are the structs of [main-pure.go], tag for tag. *)
Module Product := MainPure.Product.
Module Admin := MainPure.Admin.

Module ProductInput.
Record t := mk {
  Name : string;          (* binding:"required" *)
  Price : float64;        (* binding:"required" *)
  Description : string;
  ImageURL : string
}.
Definition binding (input : t) : bool := required (Name input) && required_float (Price input).
End ProductInput.

Definition World := World Product.t Admin.t.
Definition Handler := M Product.t Admin.t Response.

Definition MaxFileSize := 10 * 1024 * 1024.
Definition UploadDir := "static/uploads".
Definition allowedExtensions := MainPure.allowedExtensions.


Definition createProduct (body : Decoded ProductInput.t) : Handler :=
  let ctx := WithTimeout 10 in
  match ShouldBindJSON ProductInput.binding body with
  | Err _ => ret (gin.JSON http.StatusBadRequest (gin.H [("error", JStr "Nama dan harga produk wajib diisi")]))
  | Ok input =>
      let product := Product.mk NilObjectID (ProductInput.Name input) (ProductInput.Price input)
                       (ProductInput.Description input) (ProductInput.ImageURL input) in
      let collection := products_collection in
      result <- InsertOne collection ctx product ;;
      match result with
      | Err err => ret (gin.JSON http.StatusInternalServerError (gin.H [("error", JStr ("Error creating product: " ++ Error err))]))
      | Ok id => ret (gin.JSON http.StatusCreated (MainPure.Product_json (with_id id product)))
      end
  end.

Section WithLibrary.
Context {L : GoLibrary}.

(** [FormFile] is what [c.FormFile] finds under a field name. *)
Definition uploadImage (FormFile : string -> result File) : Handler :=
  (* Check if file exists *)
  match FormFile "image" with
  | Err _ => ret (gin.JSON http.StatusBadRequest (gin.H [("error", JStr "No file part")]))
  | Ok upload =>
      let file := Header upload in
      (* Check file size *)
      if Size file >? MaxFileSize then
        ret (gin.JSON http.StatusBadRequest
               (gin.H [("error", JStr ("File terlalu besar. Maksimal 10MB (ukuran file: " ++ Sprintf_MB (Size file) ++ ")"))]))
      else
        (* Check file extension *)
        let filename := Filename file in
        let parts := strings.Split filename "." in
        if (length parts <? 2)%nat then
          ret (gin.JSON http.StatusBadRequest (gin.H [("error", JStr "File not allowed")]))
        else
          let ext := ToLower (last_part parts) in
          if negb (allowedExtensions ext) then
            ret (gin.JSON http.StatusBadRequest (gin.H [("error", JStr "File not allowed")]))
          else
            (* Save file *)
            let filepath := UploadDir ++ "/" ++ filename in
            saved <- SaveUploadedFile (Content upload) filepath ;;
            match saved with
            | Some err => ret (gin.JSON http.StatusInternalServerError (gin.H [("error", JStr ("Error saving file: " ++ Error err))]))
            | None =>
                ret (gin.JSON http.StatusCreated
                       (JObj [("file_size", JStr (Sprintf_MB (Size file)));
                              ("image_url", JStr ("/static/uploads/" ++ filename))]))
            end
  end.
End WithLibrary.

End GinApp.

(** ** [backend/main.go], the gin server that stores uploads under unique names

    The structs, the constants and the product and admin handlers are those
    of the first gin port. *)
Module SimpleGin.

Definition World := GinApp.World.
Definition Handler := GinApp.Handler.

Definition MaxFileSize := 10 * 1024 * 1024.
Definition UploadDir := "static/uploads".
Definition allowedExtensions := MainPure.allowedExtensions.

(** Generate unique filename to prevent conflicts *)
Definition uniqueFilename (now : Time) (filename : string) : string :=
  Sprintf_d (Unix now) ++ "_" ++ filename.

Section WithLibrary.
Context {L : GoLibrary}.

Definition uploadImage (FormFile : string -> result File) : Handler :=
  (* Check if file exists *)
  match FormFile "image" with
  | Err _ =>
      ret (gin.JSON http.StatusBadRequest
             (gin.H [("error", JStr "No file uploaded. Please select an image file.")]))
  | Ok upload =>
      let file := Header upload in
      (* Check file size *)
      if Size file >? MaxFileSize then
        ret (gin.JSON http.StatusBadRequest
               (gin.H [("error", JStr ("File terlalu besar. Maksimal 10MB (ukuran file: " ++ Sprintf_MB (Size file) ++ ")"))]))
      else
        (* Check file extension *)
        let filename := Filename file in
        let parts := strings.Split filename "." in
        if (length parts <? 2)%nat then
          ret (gin.JSON http.StatusBadRequest
                 (gin.H [("error", JStr "File format not supported. Please use JPG, PNG, or GIF.")]))
        else
          let ext := ToLower (last_part parts) in
          if negb (allowedExtensions ext) then
            ret (gin.JSON http.StatusBadRequest
                   (gin.H [("error", JStr "File format not supported. Allowed formats: [jpg jpeg png gif]")]))
          else
            (* Generate unique filename to prevent conflicts *)
            now <- Now ;;
            let uniqueFilename := uniqueFilename now filename in
            let filepath := UploadDir ++ "/" ++ uniqueFilename in
            (* Save file *)
            saved <- SaveUploadedFile (Content upload) filepath ;;
            match saved with
            | Some err =>
                ret (gin.JSON http.StatusInternalServerError
                       (gin.H [("error", JStr ("Error saving file: " ++ Error err))]))
            | None =>
                ret (gin.JSON http.StatusCreated
                       (gin.H [("file_size", JStr (Sprintf_MB (Size file)));
                               ("filename", JStr uniqueFilename);
                               ("image_url", JStr ("/static/uploads/" ++ uniqueFilename));
                               ("message", JStr "File uploaded successfully")]))
            end
  end.
End WithLibrary.

End SimpleGin.

(** ** The [Admin] struct and the request structs of the later revisions

    [backend/main.go], the draft before it and the [models] package declare
    them field for field alike. *)
Module models.

Module Admin.
Record t := mk {
  ID : ObjectID;
  Username : string;
  Email : string;
  Password : string;
  CreatedAt : Time
}.
Definition with_Password (password : string) (a : t) : t :=
  mk (ID a) (Username a) (Email a) password (CreatedAt a).
Definition with_CreatedAt (now : Time) (a : t) : t :=
  mk (ID a) (Username a) (Email a) (Password a) now.
End Admin.

#[global] Instance Admin_Document : Document Admin.t := {
  doc_id := Admin.ID;
  with_id id a := Admin.mk id (Admin.Username a) (Admin.Email a) (Admin.Password a) (Admin.CreatedAt a)
}.

Module LoginRequest.
Record t := mk {
  Username : string;      (* binding:"required" *)
  Password : string       (* binding:"required" *)
}.
Definition binding (req : t) : bool := required (Username req) && required (Password req).
End LoginRequest.

Module RegisterRequest.
Record t := mk {
  Username : string;      (* binding:"required" *)
  Email : string;         (* binding:"required" *)
  Password : string       (* binding:"required" *)
}.
Definition binding (req : t) : bool :=
  required (Username req) && required (Email req) && required (Password req).
End RegisterRequest.

(** [Admin] has no [binding] tag: whatever decodes is bound. *)
Definition Admin_binding (a : Admin.t) : bool := true.

Definition Admin_json (a : Admin.t) : JSON :=
  JObj [("id", JStr (Hex (Admin.ID a)));
        ("username", JStr (Admin.Username a));
        ("email", JStr (Admin.Email a));
        ("password", JStr (Admin.Password a));
        ("created_at", JTime (Admin.CreatedAt a))].

Module Stats.
Record t := mk {
  TotalProducts : Z;
  TotalAdmins : Z;
  TotalValue : float64
}.
End Stats.

Definition Stats_json (s : Stats.t) : JSON :=
  JObj [("total_products", JInt (Stats.TotalProducts s));
        ("total_admins", JInt (Stats.TotalAdmins s));
        ("total_value", JFloat (Stats.TotalValue s))].

(** A slice is written as an array, a nil slice as [null]. *)
Definition slice_json {T} (f : T -> JSON) (l : list T) : JSON :=
  match l with
  | [] => JNull
  | _ :: _ => JArr (map f l)
  end.

(** [result[0]["total"].(float64)] where there is a first group, else the
    zero the variable was declared with. *)
Definition total_of (result : list bsonM) : float64 :=
  match result with
  | group :: _ =>
      match bson_lookup "total" group with
      | Some (BDouble val) => val
      | _ => 0%float
      end
  | [] => 0%float
  end.

End models.

(** ** [backend/main.go]: gin, bcrypt, PASETO, Cloudinary *)
Module Main.

Module Admin := models.Admin.
Module LoginRequest := models.LoginRequest.
Module RegisterRequest := models.RegisterRequest.
Module Stats := models.Stats.

Module Product.
Record t := mk {
  ID : ObjectID;
  Name : string;
  Price : float64;
  Description : string;
  Category : string;
  Image : string;
  ImageURL : string;
  Stock : Z;
  CreatedAt : Time;
  UpdatedAt : Time;
  ImageData : string;
  ImageBase64 : string      (* bson:"-" *)
}.
End Product.

#[global] Instance Product_Document : Document Product.t := {
  doc_id := Product.ID;
  with_id id p :=
    Product.mk id (Product.Name p) (Product.Price p) (Product.Description p) (Product.Category p)
      (Product.Image p) (Product.ImageURL p) (Product.Stock p) (Product.CreatedAt p)
      (Product.UpdatedAt p) (Product.ImageData p) (Product.ImageBase64 p)
}.

(** [Product] has no [binding] tag. *)
Definition Product_binding (p : Product.t) : bool := true.

Definition World := World Product.t Admin.t.
Definition Handler := M Product.t Admin.t Response.

(** The package-level variables [init] sets. *)
Record Globals := mkGlobals {
  port : string;
  uploadDir : string;
  maxFileSize : Z;
  pasetoSecretKey : string;
  cld : option Cloudinary
}.

Definition getEnv (env : string -> string) (key defaultValue : string) : string :=
  if negb (String.eqb (env key) "") then env key else defaultValue.


Section WithLibrary.
Context {L : GoLibrary}.

(** [init()], as a function of the environment: the package variables it
    sets, or [None] where it ends the process with [log.Fatal].  (Reading
    the [.env] file and creating the upload directory are left out.) *)
Definition init (env : string -> string) : option Globals :=
  let port := getEnv env "PORT" "5000" in
  let uploadDir := getEnv env "UPLOAD_DIR" "static/uploads" in
  let maxFileSizeStr := getEnv env "MAX_FILE_SIZE" "10485760" in
  let maxFileSize := match ParseInt maxFileSizeStr with
                     | Some n => n
                     | None => 10485760
                     end in
  (* Set Paseto secret key from environment variable *)
  let key := getEnv env "PASETO_SECRET_KEY" "" in
  if negb (String.length key =? 32)%nat then None
  else
    let cloudinaryURL := getEnv env "CLOUDINARY_URL" "" in
    if String.eqb cloudinaryURL "" then Some (mkGlobals port uploadDir maxFileSize key None)
    else match NewFromURL cloudinaryURL with
         | Err _ => None
         | Ok handle => Some (mkGlobals port uploadDir maxFileSize key (Some handle))
         end.

Definition Product_json (p : Product.t) : JSON :=
  JObj ([("id", JStr (Hex (Product.ID p)));
         ("name", JStr (Product.Name p));
         ("price", JFloat (Product.Price p));
         ("description", JStr (Product.Description p));
         ("category", JStr (Product.Category p));
         ("image", JStr (Product.Image p))]
        ++ omitempty "image_url" (Product.ImageURL p)
        ++ [("stock", JInt (Product.Stock p));
            ("created_at", JTime (Product.CreatedAt p));
            ("updated_at", JTime (Product.UpdatedAt p))]
        ++ (if String.eqb (Product.ImageData p) "" then []
            else [("image_data", JStr (EncodeToString (Product.ImageData p)))])
        ++ omitempty "image_base64" (Product.ImageBase64 p))%list.

Variable g : Globals.

Definition jpeg_prefix := "data:image/jpeg;base64,".

Definition createProduct (body : Decoded Product.t) : Handler :=
  let ctx := WithTimeout 10 in
  match ShouldBindJSON Product_binding body with
  | Err err => ret (gin.JSON http.StatusBadRequest (gin.H [("error", JStr (Error err))]))
  | Ok product =>
      (* the insert, once the image fields are settled *)
      let persist (imageURL image : string) : Handler :=
        createdAt <- Now ;;
        updatedAt <- Now ;;
        (* Jangan simpan image_base64 di database *)
        let product :=
          Product.mk (Product.ID product) (Product.Name product) (Product.Price product)
            (Product.Description product) (Product.Category product) image imageURL
            (Product.Stock product) createdAt updatedAt "" "" in
        result <- InsertOne products_collection ctx product ;;
        match result with
        | Err err => ret (gin.JSON http.StatusInternalServerError (gin.H [("error", JStr (Error err))]))
        | Ok id => ret (gin.JSON http.StatusCreated (JObj [("product", Product_json (with_id id product))]))
        end in
      (* Jika ada image_base64 dan Cloudinary aktif, upload ke Cloudinary *)
      match negb (String.eqb (Product.ImageBase64 product) ""), cld g with
      | true, Some upload =>
          let base64Data := Product.ImageBase64 product in
          let idx := String.length jpeg_prefix in
          let base64Data :=
            if (idx <? String.length base64Data)%nat && String.eqb (substring 0 idx base64Data) jpeg_prefix
            then strings.drop idx base64Data else base64Data in
          match upload (jpeg_prefix ++ base64Data) with
          | Err _ => ret (gin.JSON http.StatusInternalServerError (gin.H [("error", JStr "Gagal upload gambar ke Cloudinary")]))
          | Ok uploadResult => persist (SecureURL uploadResult) (PublicID uploadResult)
          end
      | _, _ => persist (Product.ImageURL product) (Product.Image product)
      end
  end.

Definition getAdmins : Handler :=
  let ctx := WithTimeout 10 in
  found <- Find admins_collection ctx (fun a => a) ;;
  match found with
  | Err err => ret (gin.JSON http.StatusInternalServerError (gin.H [("error", JStr (Error err))]))
  | Ok cursor =>
      decoded <- All "admins" ctx cursor ;;
      match decoded with
      | Err err => ret (gin.JSON http.StatusInternalServerError (gin.H [("error", JStr (Error err))]))
      | Ok adminList =>
          (* Remove passwords from response *)
          let adminList := map (Admin.with_Password "") adminList in
          ret (gin.JSON http.StatusOK (JObj [("admins", models.slice_json models.Admin_json adminList)]))
      end
  end.

Definition createAdmin (body : Decoded Admin.t) : Handler :=
  let ctx := WithTimeout 10 in
  match ShouldBindJSON models.Admin_binding body with
  | Err err => ret (gin.JSON http.StatusBadRequest (gin.H [("error", JStr (Error err))]))
  | Ok admin =>
      now <- Now ;;
      let admin := Admin.with_CreatedAt now admin in
      result <- InsertOne admins_collection ctx admin ;;
      match result with
      | Err err => ret (gin.JSON http.StatusInternalServerError (gin.H [("error", JStr (Error err))]))
      | Ok id =>
          let admin := Admin.with_Password "" (with_id id admin) in (* Don't return password *)
          ret (gin.JSON http.StatusCreated (JObj [("admin", models.Admin_json admin)]))
      end
  end.

Definition uploadFile (FormFile : string -> result File) : Handler :=
  match FormFile "file" with
  | Err _ => ret (gin.JSON http.StatusBadRequest (gin.H [("error", JStr "No file uploaded")]))
  | Ok file =>
      (* Check file size *)
      if Size (Header file) >? maxFileSize g then
        ret (gin.JSON http.StatusBadRequest (gin.H [("error", JStr "File too large")]))
      else
        (* Baca file sebagai []byte *)
        opened <- Open ;;
        match opened with
        | Some err => ret (gin.JSON http.StatusInternalServerError (gin.H [("error", JStr (Error err))]))
        | None =>
            read <- ReadAll (Content file) ;;
            match read with
            | Err err => ret (gin.JSON http.StatusInternalServerError (gin.H [("error", JStr (Error err))]))
            | Ok fileBytes =>
                createdAt <- Now ;;
                updatedAt <- Now ;;
                let product :=
                  Product.mk NilObjectID (Filename (Header file)) 0%float "" "" (Filename (Header file)) ""
                    0 createdAt updatedAt fileBytes "" in
                result <- InsertOne products_collection Background product ;;
                match result with
                | Err err => ret (gin.JSON http.StatusInternalServerError (gin.H [("error", JStr (Error err))]))
                | Ok id =>
                    ret (gin.JSON http.StatusOK
                           (JObj [("filename", JStr (Filename (Header file)));
                                  ("id", JStr (Hex id));
                                  ("message", JStr "File uploaded and saved to database successfully")]))
                end
            end
        end
  end.

Section Statistics.
Context {S : Server}.

Definition getStats : Handler :=
  let ctx := WithTimeout 10 in
  (* Get total products *)
  counted <- CountDocuments products_collection ctx ;;
  let totalProducts := match counted with Ok n => n | Err _ => 0 end in
  (* Get total admins *)
  counted <- CountDocuments admins_collection ctx ;;
  let totalAdmins := match counted with Ok n => n | Err _ => 0 end in
  (* Calculate total value *)
  aggregated <- Aggregate products_collection ctx
                  (fun p => (Product.Price p * float_of_Z (Product.Stock p))%float) ;;
  match aggregated with
  | Err err => ret (gin.JSON http.StatusInternalServerError (gin.H [("error", JStr (Error err))]))
  | Ok cursor =>
      decoded <- All "products" ctx cursor ;;
      let totalValue := match decoded with
                        | Ok result => models.total_of result
                        | Err _ => 0%float
                        end in
      let stats := Stats.mk totalProducts totalAdmins totalValue in
      ret (gin.Render http.StatusOK (JObj [("stats", models.Stats_json stats)]))
  end.
End Statistics.

Section WithBcrypt.
Context {B : Bcrypt}.

Definition login (body : Decoded LoginRequest.t) : Handler :=
  let ctx := WithTimeout 10 in
  match ShouldBindJSON LoginRequest.binding body with
  | Err err => ret (gin.JSON http.StatusBadRequest (gin.H [("error", JStr (Error err))]))
  | Ok req =>
      found <- FindOne admins_collection ctx
                 (fun a => String.eqb (Admin.Username a) (LoginRequest.Username req)) ;;
      match found with
      | Err err =>
          if is_ErrNoDocuments err then
            ret (gin.JSON http.StatusUnauthorized (gin.H [("error", JStr "Invalid credentials")]))
          else ret (gin.JSON http.StatusInternalServerError (gin.H [("error", JStr (Error err))]))
      | Ok admin =>
          (* Compare password with bcrypt *)
          if negb (CompareHashAndPassword (Admin.Password admin) (LoginRequest.Password req)) then
            ret (gin.JSON http.StatusUnauthorized (gin.H [("error", JStr "Invalid credentials")]))
          else
            (* Generate Paseto token *)
            now <- Now ;;
            let exp := Add now (24 * Hour) in
            let jsonToken := paseto.mkJSONToken (Hex (Admin.ID admin)) now exp in
            let footer := "pitipaw-admin" in
            match paseto.Encrypt (pasetoSecretKey g) jsonToken footer with
            | Err _ => ret (gin.JSON http.StatusInternalServerError (gin.H [("error", JStr "Failed to generate token")]))
            | Ok token =>
                let admin := Admin.with_Password "" admin in (* Don't return password *)
                ret (gin.JSON http.StatusOK
                       (JObj [("admin", models.Admin_json admin);
                              ("message", JStr "Login successful");
                              ("token", JToken token)]))
            end
      end
  end.

Definition register (body : Decoded RegisterRequest.t) : Handler :=
  let ctx := WithTimeout 10 in
  match ShouldBindJSON RegisterRequest.binding body with
  | Err err => ret (gin.JSON http.StatusBadRequest (gin.H [("error", JStr (Error err))]))
  | Ok req =>
      (* Check if username already exists *)
      existing <- FindOne admins_collection ctx
                    (fun a => String.eqb (Admin.Username a) (RegisterRequest.Username req)) ;;
      match existing with
      | Ok _ => ret (gin.JSON http.StatusConflict (gin.H [("error", JStr "Username already exists")]))
      | Err _ =>
          (* Hash password with bcrypt *)
          hashed <- bcrypt_Generate (RegisterRequest.Password req) DefaultCost ;;
          match hashed with
          | Err _ => ret (gin.JSON http.StatusInternalServerError (gin.H [("error", JStr "Failed to hash password")]))
          | Ok hashedPassword =>
              now <- Now ;;
              let admin := Admin.mk NilObjectID (RegisterRequest.Username req)
                             (RegisterRequest.Email req) hashedPassword now in
              result <- InsertOne admins_collection ctx admin ;;
              match result with
              | Err err => ret (gin.JSON http.StatusInternalServerError (gin.H [("error", JStr (Error err))]))
              | Ok id =>
                  let admin := Admin.with_Password "" (with_id id admin) in (* Don't return password *)
                  ret (gin.JSON http.StatusCreated
                         (JObj [("admin", models.Admin_json admin);
                                ("message", JStr "Registration successful")]))
              end
          end
      end
  end.
End WithBcrypt.

(** Health check handler *)
Definition healthCheck : Handler :=
  let ctx := WithTimeout 5 in
  (* Test database connection *)
  pinged <- Ping ctx ;;
  let status := match pinged with Some _ => "error" | None => "ok" end in
  let dbStatus := match pinged with Some _ => "disconnected" | None => "connected" end in
  now <- Now ;;
  ret (gin.JSON http.StatusOK
         (gin.H [("database", JStr dbStatus);
                 ("status", JStr status);
                 ("timestamp", JInt (Unix now));
                 ("version", JStr "1.0.0")])).

(** Decoding a stored document into [Product]: [ImageBase64] is tagged
    [bson:"-"] and is never read from the database. *)
Definition Product_decoded (p : Product.t) : Product.t :=
  Product.mk (Product.ID p) (Product.Name p) (Product.Price p) (Product.Description p)
    (Product.Category p) (Product.Image p) (Product.ImageURL p) (Product.Stock p)
    (Product.CreatedAt p) (Product.UpdatedAt p) (Product.ImageData p) "".

(** Helper to encode []byte to base64 string *)
Definition encodeToBase64 (data : string) : string := EncodeToString data.

(** The body of the loop of [getProducts], for one product of the list. *)
Definition for_display (p : Product.t) : Product.t :=
  (* Convert image data to base64 for each product (for frontend display) *)
  let imageBase64 :=
    if (0 <? String.length (Product.ImageData p))%nat
    then jpeg_prefix ++ encodeToBase64 (Product.ImageData p)
    else Product.ImageBase64 p in
  (* If ImageURL is empty, try to fill from Image field (for backward compatibility) *)
  let imageURL :=
    if String.eqb (Product.ImageURL p) "" && negb (String.eqb (Product.Image p) "")
    then Product.Image p
    else Product.ImageURL p in
  Product.mk (Product.ID p) (Product.Name p) (Product.Price p) (Product.Description p)
    (Product.Category p) (Product.Image p) imageURL (Product.Stock p)
    (Product.CreatedAt p) (Product.UpdatedAt p) "" imageBase64.

Definition getProducts : Handler :=
  let ctx := WithTimeout 10 in
  found <- Find products_collection ctx Product_decoded ;;
  match found with
  | Err err => ret (gin.JSON http.StatusInternalServerError (gin.H [("error", JStr (Error err))]))
  | Ok cursor =>
      decoded <- All "products" ctx cursor ;;
      match decoded with
      | Err err => ret (gin.JSON http.StatusInternalServerError (gin.H [("error", JStr (Error err))]))
      | Ok productList =>
          let productList := map for_display productList in
          ret (gin.JSON http.StatusOK (gin.H [("products", models.slice_json Product_json productList)]))
      end
  end.

Definition getProduct (id : string) : Handler :=
  let ctx := WithTimeout 10 in
  match ObjectIDFromHex id with
  | Err _ => ret (gin.JSON http.StatusBadRequest (gin.H [("error", JStr "Invalid product ID")]))
  | Ok objectID =>
      found <- FindOne products_collection ctx (fun p => N.eqb (Product.ID p) objectID) ;;
      match found with
      | Err err =>
          if is_ErrNoDocuments err then
            ret (gin.JSON http.StatusNotFound (gin.H [("error", JStr "Product not found")]))
          else ret (gin.JSON http.StatusInternalServerError (gin.H [("error", JStr (Error err))]))
      | Ok product =>
          ret (gin.JSON http.StatusOK (gin.H [("product", Product_json (Product_decoded product))]))
      end
  end.

(** What [bson.M{"$set": updateData}] does to a stored product: the fields
    tagged [omitempty] ([_id], [image_url], [image_data]) are set only where
    [updateData] has them, every other stored field is replaced. *)
Definition set_Product (updateData stored : Product.t) : Product.t :=
  Product.mk
    (if N.eqb (Product.ID updateData) NilObjectID then Product.ID stored else Product.ID updateData)
    (Product.Name updateData) (Product.Price updateData) (Product.Description updateData)
    (Product.Category updateData) (Product.Image updateData)
    (if String.eqb (Product.ImageURL updateData) "" then Product.ImageURL stored
     else Product.ImageURL updateData)
    (Product.Stock updateData) (Product.CreatedAt updateData) (Product.UpdatedAt updateData)
    (if String.eqb (Product.ImageData updateData) "" then Product.ImageData stored
     else Product.ImageData updateData)
    (Product.ImageBase64 stored).

Definition updateProduct (id : string) (body : Decoded Product.t) : Handler :=
  let ctx := WithTimeout 10 in
  match ObjectIDFromHex id with
  | Err _ => ret (gin.JSON http.StatusBadRequest (gin.H [("error", JStr "Invalid product ID")]))
  | Ok objectID =>
      match ShouldBindJSON Product_binding body with
      | Err err => ret (gin.JSON http.StatusBadRequest (gin.H [("error", JStr (Error err))]))
      | Ok updateData =>
          (* the update, once the image fields are settled *)
          let persist (imageURL image : string) : Handler :=
            updatedAt <- Now ;;
            (* Jangan simpan image_base64 di database *)
            let updateData :=
              Product.mk (Product.ID updateData) (Product.Name updateData) (Product.Price updateData)
                (Product.Description updateData) (Product.Category updateData) image imageURL
                (Product.Stock updateData) (Product.CreatedAt updateData) updatedAt "" "" in
            result <- UpdateOne products_collection ctx objectID (set_Product updateData) ;;
            match result with
            | Err err => ret (gin.JSON http.StatusInternalServerError (gin.H [("error", JStr (Error err))]))
            | Ok MatchedCount =>
                if MatchedCount =? 0 then
                  ret (gin.JSON http.StatusNotFound (gin.H [("error", JStr "Product not found")]))
                else
                  ret (gin.JSON http.StatusOK (gin.H [("message", JStr "Product updated successfully")]))
            end in
          (* Jika ada image_base64 dan Cloudinary aktif, upload ke Cloudinary *)
          match negb (String.eqb (Product.ImageBase64 updateData) ""), cld g with
          | true, Some upload =>
              let base64Data := Product.ImageBase64 updateData in
              let idx := String.length jpeg_prefix in
              let base64Data :=
                if (idx <? String.length base64Data)%nat && String.eqb (substring 0 idx base64Data) jpeg_prefix
                then strings.drop idx base64Data else base64Data in
              match upload (jpeg_prefix ++ base64Data) with
              | Err _ => ret (gin.JSON http.StatusInternalServerError (gin.H [("error", JStr "Gagal upload gambar ke Cloudinary")]))
              | Ok uploadResult => persist (SecureURL uploadResult) (PublicID uploadResult)
              end
          | _, _ => persist (Product.ImageURL updateData) (Product.Image updateData)
          end
      end
  end.

Definition deleteProduct (id : string) : Handler :=
  let ctx := WithTimeout 10 in
  match ObjectIDFromHex id with
  | Err _ => ret (gin.JSON http.StatusBadRequest (gin.H [("error", JStr "Invalid product ID")]))
  | Ok objectID =>
      result <- DeleteOne products_collection ctx objectID ;;
      match result with
      | Err err => ret (gin.JSON http.StatusInternalServerError (gin.H [("error", JStr (Error err))]))
      | Ok DeletedCount =>
          if DeletedCount =? 0 then
            ret (gin.JSON http.StatusNotFound (gin.H [("error", JStr "Product not found")]))
          else ret (gin.JSON http.StatusOK (gin.H [("message", JStr "Product deleted successfully")]))
      end
  end.

Definition deleteAdmin (id : string) : Handler :=
  let ctx := WithTimeout 10 in
  match ObjectIDFromHex id with
  | Err _ => ret (gin.JSON http.StatusBadRequest (gin.H [("error", JStr "Invalid admin ID")]))
  | Ok objectID =>
      result <- DeleteOne admins_collection ctx objectID ;;
      match result with
      | Err err => ret (gin.JSON http.StatusInternalServerError (gin.H [("error", JStr (Error err))]))
      | Ok DeletedCount =>
          if DeletedCount =? 0 then
            ret (gin.JSON http.StatusNotFound (gin.H [("error", JStr "Admin not found")]))
          else ret (gin.JSON http.StatusOK (gin.H [("message", JStr "Admin deleted successfully")]))
      end
  end.

(** What [getImageFromDB] writes: a JSON answer, or the stored bytes under a
    content type (with the status left at its default, OK). *)
Inductive ImageResponse :=
| ImageJSON (r : Response)
| ImageBytes (contentType data : string).

(** Handler untuk mengambil gambar dari database dan menampilkannya langsung *)
Definition getImageFromDB (id : string) : M Product.t Admin.t ImageResponse :=
  match ObjectIDFromHex id with
  | Err _ => ret (ImageJSON (gin.JSON http.StatusBadRequest (gin.H [("error", JStr "Invalid image ID")])))
  | Ok objectID =>
      found <- FindOne products_collection Background (fun p => N.eqb (Product.ID p) objectID) ;;
      match found with
      | Err _ => ret (ImageJSON (gin.JSON http.StatusNotFound (gin.H [("error", JStr "Image not found")])))
      | Ok product =>
          if (String.length (Product.ImageData product) =? 0)%nat then
            ret (ImageJSON (gin.JSON http.StatusNotFound (gin.H [("error", JStr "No image data found")])))
          else
            (* Set Content-Type (bisa dideteksi dari nama file, di sini default ke image/jpeg) *)
            ret (ImageBytes "image/jpeg" (Product.ImageData product))
      end
  end.
End WithLibrary.

End Main.

(** ** Package [config] of the modular revision *)
Module config.

Record AppConfig := mkAppConfig {
  Port : string;
  Env : string;
  MongoMode : string;
  MongoURI : string;
  PasetoSecretKey : string;
  CloudinaryURL : string
}.

(** [os.LookupEnv] is the environment: [None] where the variable is unset. *)
Definition getEnv (env : string -> option string) (key defaultValue : string) : string :=
  match env key with
  | Some value => value
  | None => defaultValue
  end.

(** [Load()]: [None] where it ends the process with [log.Fatal]. *)
Definition Load (env : string -> option string) : option AppConfig :=
  let port := getEnv env "PORT" "5000" in
  let environment := getEnv env "ENVIRONMENT" "development" in
  let mongoMode := getEnv env "MONGO_MODE" "local" in
  let cloudinaryURL := getEnv env "CLOUDINARY_URL" "" in
  (* Atur URI MongoDB berdasarkan mode *)
  let mongoURI :=
    if String.eqb mongoMode "atlas" then
      let uri := getEnv env "MONGO_URI_ATLAS" "" in
      if String.eqb uri "" then None else Some uri
    else Some (getEnv env "MONGO_URI_LOCAL" "mongodb://localhost:27017/pitipaw") in
  match mongoURI with
  | None => None
  | Some uri =>
      (* Atur Kunci Paseto *)
      let key := getEnv env "PASETO_SECRET_KEY" "" in
      if negb (String.length key =? 32)%nat then None
      else Some (mkAppConfig port environment mongoMode uri key cloudinaryURL)
  end.

End config.

(** ** Package [controllers] of the modular revision *)
Module Controllers.

Module Admin := models.Admin.
Module LoginRequest := models.LoginRequest.
Module RegisterRequest := models.RegisterRequest.
Module Stats := models.Stats.

Module Product.
Record t := mk {
  ID : ObjectID;
  Name : string;
  Price : float64;
  Description : string;
  Category : string;
  Image : string;
  ImageURL : string;
  Stock : Z;
  CreatedAt : Time;
  UpdatedAt : Time;
  ImageBase64 : string      (* bson:"-" *)
}.
End Product.

#[global] Instance Product_Document : Document Product.t := {
  doc_id := Product.ID;
  with_id id p :=
    Product.mk id (Product.Name p) (Product.Price p) (Product.Description p) (Product.Category p)
      (Product.Image p) (Product.ImageURL p) (Product.Stock p) (Product.CreatedAt p)
      (Product.UpdatedAt p) (Product.ImageBase64 p)
}.

Definition World := World Product.t Admin.t.
Definition Handler := M Product.t Admin.t Response.

(** [Controller]: the dependencies of every handler; [DB] is the world's
    two collections. *)
Record Controller := mkController {
  Cld : option Cloudinary;
  PasetoSecretKey : string
}.

(** The controller [main] builds from the loaded configuration; [None]
    where it ends with [log.Fatalf]. *)
Definition main_controller {L : GoLibrary} (cfg : config.AppConfig) : option Controller :=
  if negb (String.eqb (config.CloudinaryURL cfg) "") then
    match NewFromURL (config.CloudinaryURL cfg) with
    | Err _ => None
    | Ok handle => Some (mkController (Some handle) (config.PasetoSecretKey cfg))
    end
  else Some (mkController None (config.PasetoSecretKey cfg)).


Section Handlers.
Variable ctrl : Controller.
Context {B : Bcrypt}.

(** Login menangani proses login admin. *)
Definition Login (body : Decoded LoginRequest.t) : Handler :=
  let ctx := WithTimeout 10 in
  match ShouldBindJSON LoginRequest.binding body with
  | Err err => ret (gin.JSON http.StatusBadRequest (gin.H [("error", JStr (Error err))]))
  | Ok req =>
      let collection := admins_collection in
      found <- FindOne collection ctx
                 (fun a => String.eqb (Admin.Username a) (LoginRequest.Username req)) ;;
      match found with
      | Err _ => ret (gin.JSON http.StatusUnauthorized (gin.H [("error", JStr "Invalid credentials")]))
      | Ok admin =>
          if negb (CompareHashAndPassword (Admin.Password admin) (LoginRequest.Password req)) then
            ret (gin.JSON http.StatusUnauthorized (gin.H [("error", JStr "Invalid credentials")]))
          else
            now <- Now ;;
            let exp := Add now (24 * Hour) in
            let jsonToken := paseto.mkJSONToken (Hex (Admin.ID admin)) now exp in
            match paseto.Encrypt (PasetoSecretKey ctrl) jsonToken "pitipaw-admin" with
            | Err _ => ret (gin.JSON http.StatusInternalServerError (gin.H [("error", JStr "Failed to generate token")]))
            | Ok token =>
                let admin := Admin.with_Password "" admin in
                ret (gin.JSON http.StatusOK
                       (JObj [("admin", models.Admin_json admin);
                              ("message", JStr "Login successful");
                              ("token", JToken token)]))
            end
      end
  end.

(** Register menangani registrasi admin baru. *)
Definition Register (body : Decoded RegisterRequest.t) : Handler :=
  let ctx := WithTimeout 10 in
  match ShouldBindJSON RegisterRequest.binding body with
  | Err err => ret (gin.JSON http.StatusBadRequest (gin.H [("error", JStr (Error err))]))
  | Ok req =>
      let collection := admins_collection in
      existing <- FindOne collection ctx
                    (fun a => String.eqb (Admin.Username a) (RegisterRequest.Username req)) ;;
      match existing with
      | Ok _ => ret (gin.JSON http.StatusConflict (gin.H [("error", JStr "Username already exists")]))
      | Err _ =>
          hashed <- bcrypt_Generate (RegisterRequest.Password req) DefaultCost ;;
          match hashed with
          | Err _ => ret (gin.JSON http.StatusInternalServerError (gin.H [("error", JStr "Failed to hash password")]))
          | Ok hashedPassword =>
              now <- Now ;;
              let admin := Admin.mk NilObjectID (RegisterRequest.Username req)
                             (RegisterRequest.Email req) hashedPassword now in
              result <- InsertOne collection ctx admin ;;
              match result with
              | Err err => ret (gin.JSON http.StatusInternalServerError (gin.H [("error", JStr (Error err))]))
              | Ok id =>
                  let admin := Admin.with_Password "" (with_id id admin) in
                  ret (gin.JSON http.StatusCreated
                         (JObj [("admin", models.Admin_json admin);
                                ("message", JStr "Registration successful")]))
              end
          end
      end
  end.

(** GetAdmins menangani pengambilan semua data admin. *)
Definition GetAdmins : Handler :=
  let ctx := WithTimeout 10 in
  let collection := admins_collection in
  found <- Find collection ctx (fun a => a) ;;
  match found with
  | Err err => ret (gin.JSON http.StatusInternalServerError (gin.H [("error", JStr (Error err))]))
  | Ok cursor =>
      decoded <- All (coll_name collection) ctx cursor ;;
      match decoded with
      | Err err => ret (gin.JSON http.StatusInternalServerError (gin.H [("error", JStr (Error err))]))
      | Ok adminList =>
          let adminList := map (Admin.with_Password "") adminList in
          ret (gin.JSON http.StatusOK (JObj [("admins", models.slice_json models.Admin_json adminList)]))
      end
  end.

(** CreateAdmin menangani pembuatan admin baru. *)
Definition CreateAdmin (body : Decoded Admin.t) : Handler :=
  let ctx := WithTimeout 10 in
  match ShouldBindJSON models.Admin_binding body with
  | Err err => ret (gin.JSON http.StatusBadRequest (gin.H [("error", JStr (Error err))]))
  | Ok admin =>
      (* Anda harus menambahkan hashing password di sini seperti pada fungsi Register *)
      hashed <- bcrypt_Generate (Admin.Password admin) DefaultCost ;;
      let hashedPassword := match hashed with Ok h => h | Err _ => "" end in
      let admin := Admin.with_Password hashedPassword admin in
      now <- Now ;;
      let admin := Admin.with_CreatedAt now admin in
      let collection := admins_collection in
      result <- InsertOne collection ctx admin ;;
      match result with
      | Err err => ret (gin.JSON http.StatusInternalServerError (gin.H [("error", JStr (Error err))]))
      | Ok id =>
          let admin := Admin.with_Password "" (with_id id admin) in
          ret (gin.JSON http.StatusCreated (JObj [("admin", models.Admin_json admin)]))
      end
  end.

Section Statistics.
Context {S : Server}.

(** GetStats mengambil data statistik dari aplikasi. *)
Definition GetStats : Handler :=
  let ctx := WithTimeout 10 in
  let productsCollection := products_collection in
  let adminsCollection := admins_collection in
  counted <- CountDocuments productsCollection ctx ;;
  let totalProducts := match counted with Ok n => n | Err _ => 0 end in
  counted <- CountDocuments adminsCollection ctx ;;
  let totalAdmins := match counted with Ok n => n | Err _ => 0 end in
  aggregated <- Aggregate productsCollection ctx
                  (fun p => (Product.Price p * float_of_Z (Product.Stock p))%float) ;;
  match aggregated with
  | Err err => ret (gin.JSON http.StatusInternalServerError (gin.H [("error", JStr (Error err))]))
  | Ok cursor =>
      advanced <- Next (coll_name productsCollection) ctx cursor ;;
      let '(more, cursor) := advanced in
      totalValue <-
        (if more : bool then
           decoded <- All (coll_name productsCollection) ctx cursor ;;
           ret (match decoded with
                | Ok result => models.total_of result
                | Err _ => 0%float
                end)
         else ret 0%float) ;;
      let stats := Stats.mk totalProducts totalAdmins totalValue in
      ret (gin.Render http.StatusOK (JObj [("stats", models.Stats_json stats)]))
  end.
End Statistics.
End Handlers.

(** HealthCheck memeriksa status koneksi database. *)
Definition HealthCheck : Handler :=
  let ctx := WithTimeout 5 in
  pinged <- Ping ctx ;;
  let dbStatus := match pinged with Some _ => "disconnected" | None => "connected" end in
  now <- Now ;;
  ret (gin.JSON http.StatusOK
         (gin.H [("database", JStr dbStatus);
                 ("status", JStr "ok");
                 ("timestamp", JInt (Unix now))])).

(** [models.Product] has no [binding] tag. *)
Definition Product_binding (p : Product.t) : bool := true.

Definition Product_json (p : Product.t) : JSON :=
  JObj ([("id", JStr (Hex (Product.ID p)));
         ("name", JStr (Product.Name p));
         ("price", JFloat (Product.Price p));
         ("description", JStr (Product.Description p));
         ("category", JStr (Product.Category p));
         ("image", JStr (Product.Image p))]
        ++ omitempty "image_url" (Product.ImageURL p)
        ++ [("stock", JInt (Product.Stock p));
            ("created_at", JTime (Product.CreatedAt p));
            ("updated_at", JTime (Product.UpdatedAt p))]
        ++ omitempty "image_base64" (Product.ImageBase64 p))%list.

(** What [bson.M{"$set": updateData}] does to a stored product: [_id] and
    [image_url] are tagged [omitempty], every other stored field is replaced. *)
Definition set_Product (updateData stored : Product.t) : Product.t :=
  Product.mk
    (if N.eqb (Product.ID updateData) NilObjectID then Product.ID stored else Product.ID updateData)
    (Product.Name updateData) (Product.Price updateData) (Product.Description updateData)
    (Product.Category updateData) (Product.Image updateData)
    (if String.eqb (Product.ImageURL updateData) "" then Product.ImageURL stored
     else Product.ImageURL updateData)
    (Product.Stock updateData) (Product.CreatedAt updateData) (Product.UpdatedAt updateData)
    (Product.ImageBase64 stored).

Section ProductHandlers.
Variable ctrl : Controller.

(** CreateProduct menangani pembuatan produk baru. *)
Definition CreateProduct (body : Decoded Product.t) : Handler :=
  let ctx := WithTimeout 10 in
  match ShouldBindJSON Product_binding body with
  | Err err => ret (gin.JSON http.StatusBadRequest (gin.H [("error", JStr (Error err))]))
  | Ok product =>
      let persist (imageURL image : string) : Handler :=
        createdAt <- Now ;;
        updatedAt <- Now ;;
        let product :=
          Product.mk (Product.ID product) (Product.Name product) (Product.Price product)
            (Product.Description product) (Product.Category product) image imageURL
            (Product.Stock product) createdAt updatedAt "" in
        let collection := products_collection in
        result <- InsertOne collection ctx product ;;
        match result with
        | Err err => ret (gin.JSON http.StatusInternalServerError (gin.H [("error", JStr (Error err))]))
        | Ok id => ret (gin.JSON http.StatusCreated (gin.H [("product", Product_json (with_id id product))]))
        end in
      match negb (String.eqb (Product.ImageBase64 product) ""), Cld ctrl with
      | true, Some upload =>
          match upload (Product.ImageBase64 product) with
          | Err _ => ret (gin.JSON http.StatusInternalServerError (gin.H [("error", JStr "Failed to upload image")]))
          | Ok uploadResult => persist (SecureURL uploadResult) (PublicID uploadResult)
          end
      | _, _ => persist (Product.ImageURL product) (Product.Image product)
      end
  end.

(** UpdateProduct menangani pembaruan data produk. *)
Definition UpdateProduct (id : string) (body : Decoded Product.t) : Handler :=
  let ctx := WithTimeout 10 in
  match ObjectIDFromHex id with
  | Err _ => ret (gin.JSON http.StatusBadRequest (gin.H [("error", JStr "Invalid product ID")]))
  | Ok objectID =>
      match ShouldBindJSON Product_binding body with
      | Err err => ret (gin.JSON http.StatusBadRequest (gin.H [("error", JStr (Error err))]))
      | Ok updateData =>
          let persist (imageURL image : string) : Handler :=
            updatedAt <- Now ;;
            let updateData :=
              Product.mk (Product.ID updateData) (Product.Name updateData) (Product.Price updateData)
                (Product.Description updateData) (Product.Category updateData) image imageURL
                (Product.Stock updateData) (Product.CreatedAt updateData) updatedAt "" in
            let collection := products_collection in
            result <- UpdateOne collection ctx objectID (set_Product updateData) ;;
            match result with
            | Err err => ret (gin.JSON http.StatusInternalServerError (gin.H [("error", JStr (Error err))]))
            | Ok MatchedCount =>
                if MatchedCount =? 0 then
                  ret (gin.JSON http.StatusNotFound (gin.H [("error", JStr "Product not found")]))
                else
                  ret (gin.JSON http.StatusOK (gin.H [("message", JStr "Product updated successfully")]))
            end in
          (* Jika ada gambar baru (imageBase64), upload ke Cloudinary *)
          match negb (String.eqb (Product.ImageBase64 updateData) ""), Cld ctrl with
          | true, Some upload =>
              match upload (Product.ImageBase64 updateData) with
              | Err _ => ret (gin.JSON http.StatusInternalServerError (gin.H [("error", JStr "Failed to upload image")]))
              | Ok uploadResult => persist (SecureURL uploadResult) (PublicID uploadResult)
              end
          | _, _ => persist (Product.ImageURL updateData) (Product.Image updateData)
          end
      end
  end.
End ProductHandlers.

End Controllers.

(** ** The draft that stores raw passwords *)
Module Draft.

Module Admin := models.Admin.
Module LoginRequest := models.LoginRequest.
Module RegisterRequest := models.RegisterRequest.

Module Product.
Record t := mk {
  ID : ObjectID;
  Name : string;
  Price : float64;
  Description : string;
  Category : string;
  Image : string;
  Stock : Z;
  CreatedAt : Time;
  UpdatedAt : Time
}.
End Product.

Definition World := World Product.t Admin.t.
Definition Handler := M Product.t Admin.t Response.


Definition getAdmins : Handler :=
  let ctx := WithTimeout 10 in
  found <- Find admins_collection ctx (fun a => a) ;;
  match found with
  | Err err => ret (gin.JSON http.StatusInternalServerError (gin.H [("error", JStr (Error err))]))
  | Ok cursor =>
      decoded <- All "admins" ctx cursor ;;
      match decoded with
      | Err err => ret (gin.JSON http.StatusInternalServerError (gin.H [("error", JStr (Error err))]))
      | Ok adminList =>
          (* Remove passwords from response *)
          let adminList := map (Admin.with_Password "") adminList in
          ret (gin.JSON http.StatusOK (JObj [("admins", models.slice_json models.Admin_json adminList)]))
      end
  end.

Definition createAdmin (body : Decoded Admin.t) : Handler :=
  let ctx := WithTimeout 10 in
  match ShouldBindJSON models.Admin_binding body with
  | Err err => ret (gin.JSON http.StatusBadRequest (gin.H [("error", JStr (Error err))]))
  | Ok admin =>
      now <- Now ;;
      let admin := Admin.with_CreatedAt now admin in
      result <- InsertOne admins_collection ctx admin ;;
      match result with
      | Err err => ret (gin.JSON http.StatusInternalServerError (gin.H [("error", JStr (Error err))]))
      | Ok id =>
          let admin := Admin.with_Password "" (with_id id admin) in (* Don't return password *)
          ret (gin.JSON http.StatusCreated (JObj [("admin", models.Admin_json admin)]))
      end
  end.

Definition register (body : Decoded RegisterRequest.t) : Handler :=
  let ctx := WithTimeout 10 in
  match ShouldBindJSON RegisterRequest.binding body with
  | Err err => ret (gin.JSON http.StatusBadRequest (gin.H [("error", JStr (Error err))]))
  | Ok req =>
      (* Check if username already exists *)
      existing <- FindOne admins_collection ctx
                    (fun a => String.eqb (Admin.Username a) (RegisterRequest.Username req)) ;;
      match existing with
      | Ok _ => ret (gin.JSON http.StatusConflict (gin.H [("error", JStr "Username already exists")]))
      | Err _ =>
          now <- Now ;;
          let admin := Admin.mk NilObjectID (RegisterRequest.Username req) (RegisterRequest.Email req)
                         (RegisterRequest.Password req) (* In production, hash the password *) now in
          result <- InsertOne admins_collection ctx admin ;;
          match result with
          | Err err => ret (gin.JSON http.StatusInternalServerError (gin.H [("error", JStr (Error err))]))
          | Ok id =>
              let admin := Admin.with_Password "" (with_id id admin) in (* Don't return password *)
              ret (gin.JSON http.StatusCreated
                     (JObj [("admin", models.Admin_json admin);
                            ("message", JStr "Registration successful")]))
          end
      end
  end.

Section WithLibrary.
Context {L : GoLibrary}.

(** The package-level variables [init] sets from the environment. *)
Variables (uploadDir : string) (maxFileSize : Z).

Definition login (body : Decoded LoginRequest.t) : Handler :=
  let ctx := WithTimeout 10 in
  match ShouldBindJSON LoginRequest.binding body with
  | Err err => ret (gin.JSON http.StatusBadRequest (gin.H [("error", JStr (Error err))]))
  | Ok req =>
      found <- FindOne admins_collection ctx
                 (fun a => String.eqb (Admin.Username a) (LoginRequest.Username req)
                           && String.eqb (Admin.Password a) (LoginRequest.Password req)) ;;
      match found with
      | Err err =>
          if is_ErrNoDocuments err then
            ret (gin.JSON http.StatusUnauthorized (gin.H [("error", JStr "Invalid credentials")]))
          else ret (gin.JSON http.StatusInternalServerError (gin.H [("error", JStr (Error err))]))
      | Ok admin =>
          let admin := Admin.with_Password "" admin in (* Don't return password *)
          ret (gin.JSON http.StatusOK
                 (gin.H [("admin", models.Admin_json admin);
                         ("message", JStr "Login successful");
                         ("token", JStr "dummy_token")])) (* In production, use JWT *)
      end
  end.

Definition uploadFile (FormFile : string -> result File) : Handler :=
  match FormFile "file" with
  | Err _ => ret (gin.JSON http.StatusBadRequest (gin.H [("error", JStr "No file uploaded")]))
  | Ok file =>
      (* Check file size *)
      if Size (Header file) >? maxFileSize then
        ret (gin.JSON http.StatusBadRequest (gin.H [("error", JStr "File too large")]))
      else
        (* Generate unique filename *)
        now <- Now ;;
        let filename := Sprintf_d (Unix now) ++ "_" ++ Filename (Header file) in
        let filepath := Join uploadDir filename in
        (* Save file *)
        saved <- SaveUploadedFile (Content file) filepath ;;
        match saved with
        | Some err => ret (gin.JSON http.StatusInternalServerError (gin.H [("error", JStr (Error err))]))
        | None =>
            (* Return file URL *)
            let fileURL := "/static/uploads/" ++ filename in
            ret (gin.JSON http.StatusOK
                   (gin.H [("filename", JStr filename);
                           ("message", JStr "File uploaded successfully");
                           ("url", JStr fileURL)]))
        end
  end.
End WithLibrary.

End Draft.

Unset Implicit Arguments.

(** * Vocabulary of the statements *)

(** ** Stand-ins to run the handlers on concrete requests *)
Module Example.

(** A stand-in with bcrypt's interface (it hides nothing). *)
Definition generate (salt password : string) (cost : Z) : result string :=
  if (72 <? String.length password)%nat then Err (ErrOther "bcrypt: password length exceeds 72 bytes")
  else Ok ("$2a$" ++ password ++ "$" ++ salt).

Definition compare (hash password : string) : bool :=
  strings.HasPrefix hash ("$2a$" ++ password ++ "$").

Definition bcrypt : Bcrypt := Build_Bcrypt generate compare.

Definition library : GoLibrary := {|
  ToLower := strings.ToLowerASCII;
  Sprintf_MB size := "0.0MB";
  Join dir name := dir ++ "/" ++ name;
  ParseInt s := if String.eqb s "10485760" then Some 10485760 else None;
  EncodeToString data := data;
  NewFromURL url := Err (ErrOther "cloudinary: no account")
|}.

Definition empty {P A} : World P A := mkWorld [] [] [] [] 1700000000000000000 ["salt1"; "salt2"] [] [].

(** A stand-in for the server's [$sum]: plain addition, from left to right. *)
Definition server : Server := {| Sum values := fold_left PrimFloat.add values 0%float |}.

End Example.

(** ** Requests, documents and replies *)

(** What [main.go]'s [createProduct] stores for a body without an inline
    image: the bound struct, stamped, under a new identifier. *)
Definition Main_stored (product : Main.Product.t) (w : Main.World) : Main.Product.t :=
  Main.Product.mk (fresh (products w)) (Main.Product.Name product) (Main.Product.Price product)
    (Main.Product.Description product) (Main.Product.Category product) (Main.Product.Image product)
    (Main.Product.ImageURL product) (Main.Product.Stock product) (clock w) (clock w + 1) "" "".

Definition widget_request : Request MainPure.ProductInput.t :=
  mkRequest "POST" "/api/products" (Parsed (MainPure.ProductInput.mk "" 25000%float "" "")).

Definition nameless : Main.Product.t :=
  Main.Product.mk NilObjectID "" 0%float "" "" "" "" 0 0 0 "" "".

Definition some_globals : Main.Globals :=
  Main.mkGlobals "5000" "static/uploads" 10485760 "12345678901234567890123456789012" None.

(** The file name has no extension, or the extension (what follows its last
    dot), lower-cased, is not one of the four allowed. *)
Definition rejected_name {L : GoLibrary} (filename : string) : Prop :=
  strings.Contains filename "." = false \/
  exists pre ext,
    filename = pre ++ "." ++ ext /\ strings.Contains ext "." = false /\
    MainPure.allowedExtensions (ToLower ext) = false.

(** The two checks of the handlers that store on disk, as they compute them. *)
Definition passes_checks {L : GoLibrary} (header : FileHeader) : Prop :=
  Size header <= MainPure.MaxFileSize /\
  (2 <= length (strings.Split (Filename header) "."))%nat /\
  MainPure.allowedExtensions (ToLower (last_part (strings.Split (Filename header) "."))) = true.

Definition upload_of (name : string) (size : Z) (content : string) : File :=
  mkFile (mkFileHeader name size) content.

Definition post_upload (file : File) : MainPure.UploadRequest :=
  MainPure.mkUploadRequest "POST" None (fun _ => Ok file).

Definition climbing : File := upload_of "../../evil.png" 4 "PNG-bytes".
Definition climbing_again : File := upload_of "../../evil.png" 3 "GIF".

(** The filter [bson.M{"username": username}] on either [Admin] struct. *)
Definition named (username : string) (a : models.Admin.t) : bool :=
  String.eqb (models.Admin.Username a) username.

Definition pure_named (username : string) (a : MainPure.Admin.t) : bool :=
  String.eqb (MainPure.Admin.Username a) username.

Definition register_a : models.RegisterRequest.t := models.RegisterRequest.mk "a" "a@x.com" "p".
Definition register_a_again : models.RegisterRequest.t := models.RegisterRequest.mk "a" "other@x.com" "q".

(** The body of a POST /api/admins for the username "a" again, with the
    password "q". *)
Definition second_a : models.Admin.t := models.Admin.mk NilObjectID "a" "other@x.com" "q" 0.

(** A controller without image host, under a key of 32 bytes. *)
Definition keyed : Controllers.Controller :=
  Controllers.mkController None "12345678901234567890123456789012".
Definition post_admin (username password : string) : Request MainPure.AdminInput.t :=
  mkRequest "POST" "/api/register" (Parsed (MainPure.AdminInput.mk username password)).

(** The token [login] issues at time [now] for the admin with identifier [id]. *)
Definition issued_token (key : string) (id : ObjectID) (now : Time) : paseto.Token :=
  paseto.mkToken key (paseto.mkJSONToken (Hex id) now (now + 24 * Hour)) "pitipaw-admin".

(** What [login] of [main.go] and [Controller.Login] answer on success, for
    the admin found: its identifier, username, e-mail and creation time, an
    empty [password], and the token.  Neither the stored hash nor the
    password of the request occurs in it. *)
Definition login_answer (key : string) (id : ObjectID) (username email : string)
    (created now : Time) : JSON :=
  JObj [("admin", JObj [("id", JStr (Hex id));
                        ("username", JStr username);
                        ("email", JStr email);
                        ("password", JStr "");
                        ("created_at", JTime created)]);
        ("message", JStr "Login successful");
        ("token", JToken (issued_token key id now))].

Definition pitipaw : models.Admin.t := models.Admin.mk 7%N "a" "a@x.com" "$2a$p$salt0" 1600000000000000000.

Definition with_pitipaw {P} : World P models.Admin.t :=
  mkWorld [] [pitipaw] [] [] 1700000000000000000 ["salt1"; "salt2"] [] [].

Definition pure_admin : MainPure.Admin.t := MainPure.Admin.mk 7%N "a" "$2a$p$salt0".

Definition with_pure_admin : MainPure.World :=
  mkWorld [] [pure_admin] [] [] 1700000000000000000 ["salt1"; "salt2"] [] [].

Definition post_login (username password : string) : Request MainPure.LoginInput.t :=
  mkRequest "POST" "/api/login" (Parsed (MainPure.LoginInput.mk username password)).

Definition some_env (key : string) : string :=
  if String.eqb key "PASETO_SECRET_KEY" then "12345678901234567890123456789012" else "".

Definition budi : models.Admin.t :=
  models.Admin.mk NilObjectID "budi" "budi@example.com" "rahasia" 0.

(** [$multiply: ["$price", "$stock"]] on the two [Product] structs that have
    a stock. *)
Definition Main_value (p : Main.Product.t) : float64 :=
  (Main.Product.Price p * float_of_Z (Main.Product.Stock p))%float.

Definition count {T} (docs : list T) : Z := Z.of_nat (length docs).

(** The total the aggregation of [getStats] yields: the server's [$sum] of
    price times stock over the products, and 0 where there is no product
    (the pipeline then yields no group). *)
Definition Main_total {S : Server} (docs : list Main.Product.t) : float64 :=
  match docs with
  | [] => 0%float
  | _ :: _ => Sum (map Main_value docs)
  end.

Definition two_products : list Main.Product.t :=
  [Main.Product.mk 1%N "Widget" 25000%float "" "" "" "" 3 0 0 "" "";
   Main.Product.mk 2%N "Gadget" 1.5%float "" "" "" "" 4 0 0 "" ""].

Definition shop : Main.World :=
  mkWorld two_products [pitipaw] [] [] 1700000000000000000 [] [] [].

Definition pure_shop : MainPure.World :=
  mkWorld [MainPure.Product.mk 1%N "Widget" 25000%float "" ""] [pure_admin] [] []
    1700000000000000000 [] [] [].

(** The outcome scheduled for the [n]-th database call of a request
    (counting from 0): [Some msg] is a failure. *)
Definition outcome {P A} (n : nat) (w : World P A) : option string :=
  nth n (db_faults w) None.

(** Where a call goes: the operation and the collection. *)
Definition site (c : Call) : Op * string := (call_op c, call_coll c).

(** The calls a request added to the log are pairwise different (none is
    issued a second time) and all run under the 10-second context. *)
Definition issued_once_under_timeout {P A} (w w' : World P A) : Prop :=
  exists new,
    db_calls w' = (new ++ db_calls w)%list /\
    NoDup (map site new) /\
    Forall (fun c => call_ctx c = WithTimeout 10) new.

(** The count [getStats] and [GetStats] report for a collection: 0 where the
    count query failed. *)
Definition count_or_zero {T} (failure : option string) (docs : list T) : Z :=
  match failure with
  | Some _ => 0
  | None => count docs
  end.

(** The total [getStats] of [main.go] has at hand when it answers: 0 where
    reading the cursor (the fourth call) failed. *)
Definition Main_reported_total {S : Server} (w : Main.World) : float64 :=
  match outcome 3 w with
  | Some _ => 0%float
  | None => Main_total (products w)
  end.

(** A shop whose stock is worth more than a double holds. *)
Definition priceless : list Main.Product.t :=
  [Main.Product.mk 1%N "Crown" 0x1p1023%float "" "" "" "" 2 0 0 "" ""].

Definition jeweller : Main.World :=
  mkWorld priceless [pitipaw] [] [] 1700000000000000000 [] [] [].

Definition jeweller_timeout : Main.World :=
  mkWorld priceless [pitipaw] [Some "context deadline exceeded"] [] 1700000000000000000 [] [] [].

(** The same shop on a day the first count query times out. *)
Definition shop_timeout : Main.World :=
  mkWorld two_products [pitipaw] [Some "context deadline exceeded"] [] 1700000000000000000 [] [] [].

Definition shop_aggregate_down : Main.World :=
  mkWorld two_products [pitipaw] [None; None; Some "context deadline exceeded"] []
    1700000000000000000 [] [] [].

(** ** Identifiers and collections *)

(** The identifier fits the twelve bytes of an [ObjectID]. *)
Definition twelve_bytes (id : ObjectID) : Prop := (id < 2 ^ 96)%N.

(** A well-formed product creation request of [main-pure.go]. *)
Definition gadget : MainPure.ProductInput.t :=
  MainPure.ProductInput.mk "Gadget" 1.5%float "a gadget" "".

Definition gadget_request : Request MainPure.ProductInput.t :=
  mkRequest "POST" "/api/products" (Parsed gadget).

Definition cat_picture : File := upload_of "cat.png" 9 "PNG-bytes".

Definition installer : File := upload_of "setup.exe" 8 "MZ-bytes".

(** The body [{"price": 30000}], bound to [Product]. *)
Definition price_only : Main.Product.t :=
  Main.Product.mk NilObjectID "" 30000%float "" "" "" "" 0 0 0 "" "".

(** The admin "a" is stored, and the next database call times out. *)
Definition pitipaw_lookup_down : Main.World :=
  mkWorld [] [pitipaw] [Some "context deadline exceeded"] [] 1700000000000000000
    ["salt1"; "salt2"] [] [].

(** An image host that takes every upload. *)
Definition image_host : Cloudinary :=
  fun _ => Ok (mkUploadResult "https://res.cloudinary.com/demo/kettle.jpg" "pitipaw/products/kettle").

Definition hosted_globals : Main.Globals :=
  Main.mkGlobals "5000" "static/uploads" 10485760 "12345678901234567890123456789012"
    (Some image_host).

Definition pictured : Main.Product.t :=
  Main.Product.mk NilObjectID "Kettle" 150000%float "" "" "" "" 2 0 0 ""
    "data:image/jpeg;base64,AAAA".

Definition cat_again : File := upload_of "cat.png" 9 "GIF-bytes".

Definition kettle : Main.Product.t :=
  Main.Product.mk NilObjectID "Kettle" 150000%float "" "" "" "" 2 0 0 "" "".

(** The elements of a JSON array ([null], a nil slice, has none). *)
Definition elements (j : JSON) : list JSON :=
  match j with
  | JArr items => items
  | _ => []
  end.

(** What [uploadFile] of [main.go] stores for [installer]. *)
Definition stored_picture : Main.Product.t :=
  Main.Product.mk 1%N "setup.exe" 0%float "" "" "setup.exe" "" 0 1700000000000000000
    1700000000000000001 "MZ-bytes" "".

Definition with_stored_picture : Main.World :=
  mkWorld [stored_picture] [] [] [] 1700000000000000002 [] [] [].

(** A file whose name has two dots in a row, within one path element. *)
Definition dotted : File := upload_of "holiday..png" 9 "PNG-bytes".

(** * Facts about the driver model *)

Section DriverFacts.
Context {P A D : Type} `{Document D}.

Lemma max_id_bound (docs : list D) (d : D) :
  In d docs -> (doc_id d <= fold_right N.max 0%N (map doc_id docs))%N.
Proof.
  induction docs as [|x docs IH]; simpl; [contradiction|].
  intros [->|Hin]; [lia|]. specialize (IH Hin). lia.
Qed.

(** The identifier the driver generates is not in the collection yet. *)
Lemma fresh_is_new (docs : list D) : has_id (fresh docs) docs = false.
Proof.
  unfold has_id. apply not_true_is_false. intros Hex.
  apply existsb_exists in Hex as [d [Hin Heq]].
  apply N.eqb_eq in Heq. pose proof (max_id_bound docs d Hin) as Hb.
  unfold fresh in Heq. lia.
Qed.

End DriverFacts.

(** Folding the generated identifier's membership test back, then using
    that it is new. *)
Ltac use_fresh :=
  repeat match goal with
  | |- context [existsb ?f ?l] =>
      change (existsb f l) with (has_id (fresh l) l); rewrite fresh_is_new
  end.

(** * Product creation *)

Lemma MainPure_createProduct_rejects (r : Request MainPure.ProductInput.t) input (w : MainPure.World) :
  RequestBody r = Parsed input ->
  MainPure.ProductInput.Name input = "" \/ (MainPure.ProductInput.Price input <=? 0)%float = true ->
  run (MainPure.createProduct r) w
  = (MainPure.writeError http.StatusBadRequest "Nama dan harga produk wajib diisi", w).
Proof.
  intros Hbody Hbad. unfold MainPure.createProduct. rewrite Hbody.
  destruct Hbad as [Hname | Hprice].
  - rewrite Hname. reflexivity.
  - rewrite Hprice, orb_true_r. reflexivity.
Qed.

Lemma GinApp_createProduct_rejects input (w : GinApp.World) :
  GinApp.ProductInput.Name input = "" \/ GinApp.ProductInput.Price input = 0%float ->
  run (GinApp.createProduct (Parsed input)) w
  = (gin.JSON http.StatusBadRequest (gin.H [("error", JStr "Nama dan harga produk wajib diisi")]), w).
Proof.
  intros Hbad. unfold GinApp.createProduct, ShouldBindJSON, GinApp.ProductInput.binding.
  destruct Hbad as [Hname | Hprice].
  - rewrite Hname. reflexivity.
  - rewrite Hprice. unfold required_float.
    replace (0 =? 0)%float with true by reflexivity.
    rewrite andb_false_r. reflexivity.
Qed.

Lemma Main_createProduct_inserts (L : GoLibrary) (g : Main.Globals) product (w : Main.World) :
  db_faults w = [] ->
  Main.Product.ID product = NilObjectID ->
  Main.Product.ImageBase64 product = "" ->
  let (response, w') := run (Main.createProduct g (Parsed product)) w in
  Status response = http.StatusCreated /\
  products w' = (products w ++ [Main_stored product w])%list.
Proof.
  intros Hfaults Hid Himage.
  unfold Main.createProduct, ShouldBindJSON, Main.Product_binding. rewrite Himage.
  unfold run. cbn. rewrite Hfaults, Hid. cbn. use_fresh. cbn.
  split; reflexivity.
Qed.

(** C1 (as the code has it).  A product-creation request with an empty name
    or a non-positive price is answered with BadRequest and leaves the world
    as it was in [main-pure.go]; the first gin port answers BadRequest,
    world untouched, where the name is empty or the price is zero;
    [main.go]'s [createProduct] validates neither field: a well-formed body
    without an inline image is stored as bound and answered with Created. *)
Theorem C1_createProduct_validation_by_revision :
  (forall (r : Request MainPure.ProductInput.t) input (w : MainPure.World),
      RequestBody r = Parsed input ->
      MainPure.ProductInput.Name input = "" \/ (MainPure.ProductInput.Price input <=? 0)%float = true ->
      Status (fst (run (MainPure.createProduct r) w)) = http.StatusBadRequest /\
      snd (run (MainPure.createProduct r) w) = w)
  /\
  (forall input (w : GinApp.World),
      GinApp.ProductInput.Name input = "" \/ GinApp.ProductInput.Price input = 0%float ->
      Status (fst (run (GinApp.createProduct (Parsed input)) w)) = http.StatusBadRequest /\
      snd (run (GinApp.createProduct (Parsed input)) w) = w)
  /\
  (forall (L : GoLibrary) (g : Main.Globals) product (w : Main.World),
      db_faults w = [] ->
      Main.Product.ID product = NilObjectID ->
      Main.Product.ImageBase64 product = "" ->
      Status (fst (run (Main.createProduct g (Parsed product)) w)) = http.StatusCreated /\
      products (snd (run (Main.createProduct g (Parsed product)) w))
      = (products w ++ [Main_stored product w])%list).
Proof.
  split; [|split].
  - intros r input w Hbody Hbad.
    rewrite (MainPure_createProduct_rejects r input w Hbody Hbad). split; reflexivity.
  - intros input w Hbad.
    rewrite (GinApp_createProduct_rejects input w Hbad). split; reflexivity.
  - intros L g product w Hfaults Hid Himage.
    pose proof (Main_createProduct_inserts L g product w Hfaults Hid Himage) as Hrun.
    destruct (run (Main.createProduct g (Parsed product)) w) as [response w'].
    exact Hrun.
Qed.

Lemma C1_witness :
  Status (fst (run (MainPure.createProduct widget_request) Example.empty)) = http.StatusBadRequest /\
  Status (fst (run (GinApp.createProduct (Parsed (GinApp.ProductInput.mk "Widget" 0%float "" ""))) Example.empty))
  = http.StatusBadRequest /\
  Status (fst (run (Main.createProduct (L := Example.library) some_globals (Parsed nameless)) Example.empty))
  = http.StatusCreated.
Proof.
  destruct C1_createProduct_validation_by_revision as [Hpure [Hgin Hmain]].
  split; [|split].
  - apply (Hpure widget_request (MainPure.ProductInput.mk "" 25000%float "" "") Example.empty).
    + reflexivity.
    + left. reflexivity.
  - apply (Hgin (GinApp.ProductInput.mk "Widget" 0%float "" "") Example.empty).
    right. reflexivity.
  - apply (Hmain Example.library some_globals nameless Example.empty); reflexivity.
Defined.

(** C1 as stated fails on [main.go]: a body with an empty name and price 0
    is answered with Created (201) and a document is inserted. *)
Lemma C1_counterexample :
  let (response, w') :=
    run (Main.createProduct (L := Example.library) some_globals (Parsed nameless)) Example.empty in
  Status response = 201 /\ length (products w') = 1%nat /\
  map Main.Product.Name (products w') = [""] /\ map Main.Product.Price (products w') = [0%float].
Proof. vm_compute. repeat split; reflexivity. Qed.

(** * Strings *)
Section StringFacts.

Lemma Contains_cons (c : ascii) (s substr : string) :
  strings.Contains (String c s) substr
  = strings.HasPrefix (String c s) substr || strings.Contains s substr.
Proof. reflexivity. Qed.

Lemma HasPrefix_cons (a b : ascii) (s prefix : string) :
  strings.HasPrefix (String b s) (String a prefix) = Ascii.eqb a b && strings.HasPrefix s prefix.
Proof. reflexivity. Qed.

(** A character other than the dot cannot start an occurrence of [".."]. *)
Lemma Contains_dotdot_skip (c : ascii) (s : string) :
  c <> "."%char -> strings.Contains (String c s) ".." = strings.Contains s "..".
Proof.
  intros Hc. rewrite Contains_cons, HasPrefix_cons.
  destruct (Ascii.eqb_spec "." c) as [Heq|_]; [congruence | reflexivity].
Qed.

Lemma Contains_dotdot_nonempty (s : string) :
  strings.Contains s ".." = true -> s <> "".
Proof. intros Hc ->. discriminate Hc. Qed.

(** Cutting the route prefix off a path keeps every [".."] in it. *)
Lemma TrimPrefix_static_keeps_dotdot (path : string) :
  strings.Contains path ".." = true ->
  strings.Contains (strings.TrimPrefix path "/static/") ".." = true.
Proof.
  intros Hc. unfold strings.TrimPrefix.
  destruct (strings.HasPrefix path "/static/") eqn:Hprefix; [|exact Hc].
  do 8 (destruct path as [|? path]; [discriminate Hprefix|];
        rewrite HasPrefix_cons in Hprefix;
        apply andb_prop in Hprefix as [Hchar Hprefix];
        apply Ascii.eqb_eq in Hchar; subst).
  change (strings.drop (String.length "/static/") ("/static/" ++ path)) with path.
  change (String "/" (String "s" (String "t" (String "a" (String "t" (String "i" (String "c" (String "/" path))))))))
    with ("/static/" ++ path) in Hc.
  simpl append in Hc.
  repeat (rewrite Contains_dotdot_skip in Hc by discriminate).
  exact Hc.
Qed.

Lemma Split_not_nil (s : string) (sep : ascii) : strings.Split s sep <> [].
Proof.
  destruct s as [|c s]; simpl; [discriminate|].
  destruct (Ascii.eqb c sep); [discriminate|].
  destruct (strings.Split s sep); discriminate.
Qed.

(** A name without a dot is one piece. *)
Lemma Split_without_dot (s : string) :
  strings.Contains s "." = false -> strings.Split s "." = [s].
Proof.
  induction s as [|c s IH]; [reflexivity|].
  rewrite Contains_cons, HasPrefix_cons. simpl strings.HasPrefix. rewrite andb_true_r.
  rewrite Ascii.eqb_sym. intros Hc. apply orb_false_elim in Hc as [Hdot Hrest].
  simpl. rewrite Hdot, (IH Hrest). reflexivity.
Qed.

Lemma Split_app (pre rest : string) (sep : ascii) :
  strings.Split (pre ++ String sep rest) sep
  = (strings.Split pre sep ++ strings.Split rest sep)%list.
Proof.
  induction pre as [|c pre IH]; simpl.
  - rewrite Ascii.eqb_refl. reflexivity.
  - destruct (Ascii.eqb c sep).
    + rewrite IH. reflexivity.
    + rewrite IH. pose proof (Split_not_nil pre sep) as Hne.
      destruct (strings.Split pre sep) as [|p ps]; [contradiction | reflexivity].
Qed.

(** What follows the last dot is the last piece, and there are at least
    two pieces. *)
Lemma Split_extension (pre ext : string) :
  strings.Contains ext "." = false ->
  last_part (strings.Split (pre ++ "." ++ ext) ".") = ext /\
  (length (strings.Split (pre ++ "." ++ ext) ".") <? 2)%nat = false.
Proof.
  intros Hext. change (pre ++ "." ++ ext) with (pre ++ String "." ext).
  rewrite Split_app, (Split_without_dot ext Hext).
  pose proof (Split_not_nil pre ".") as Hne. split.
  - unfold last_part. apply last_last.
  - rewrite length_app. simpl.
    destruct (strings.Split pre ".") as [|p ps]; [contradiction|].
    simpl. apply Nat.ltb_ge. lia.
Qed.

End StringFacts.

(** The stand-in keeps the library's promise. *)
Lemma HasPrefix_app (s t : string) : strings.HasPrefix (s ++ t) s = true.
Proof.
  induction s as [|c s IH]; simpl; [reflexivity|].
  rewrite Ascii.eqb_refl. exact IH.
Qed.

Lemma append_assoc (s t u : string) : (s ++ t) ++ u = s ++ t ++ u.
Proof. induction s as [|c s IH]; simpl; [reflexivity | now rewrite IH]. Qed.

Lemma compare_own_hash (salt password : string) :
  Example.compare ("$2a$" ++ password ++ "$" ++ salt) password = true.
Proof.
  unfold Example.compare.
  rewrite <- (append_assoc password "$" salt), <- (append_assoc "$2a$" (password ++ "$") salt).
  apply HasPrefix_app.
Qed.

Lemma Example_bcrypt_law : bcrypt_law Example.bcrypt.
Proof.
  intros salt password cost hash.
  change (Example.generate salt password cost = Ok hash -> Example.compare hash password = true).
  unfold Example.generate.
  destruct (72 <? String.length password)%nat; [discriminate|].
  intros Heq. injection Heq as <-. apply compare_own_hash.
Qed.


(** * Local files *)
Section FileFacts.

Lemma read_write_same (path content : string) (files : list (string * string)) :
  read_file path (write_file path content files) = Some content.
Proof.
  induction files as [|[p c] files IH]; simpl.
  - rewrite String.eqb_refl. reflexivity.
  - destruct (String.eqb p path) eqn:Heq; simpl.
    + rewrite String.eqb_refl. reflexivity.
    + rewrite Heq. exact IH.
Qed.

(** Writing a path twice keeps the second content only. *)
Lemma write_write (path c1 c2 : string) (files : list (string * string)) :
  write_file path c2 (write_file path c1 files) = write_file path c2 files.
Proof.
  induction files as [|[p c] files IH]; simpl.
  - rewrite String.eqb_refl. reflexivity.
  - destruct (String.eqb p path) eqn:Heq; simpl.
    + rewrite String.eqb_refl. reflexivity.
    + rewrite Heq, IH. reflexivity.
Qed.

End FileFacts.

(** * Static files *)

(** C7.  A GET request to the static handler whose path contains [".."] is
    answered with BadRequest: an error document, no file, and nothing in the
    world is touched. *)
Theorem C7_static_traversal_rejected (L : GoLibrary) (path : string) (w : MainPure.World) :
  strings.Contains path ".." = true ->
  run (MainPure.staticHandler "GET" path) w
  = (MainPure.writeError http.StatusBadRequest "Invalid file path", w)
  /\ serves_file (fst (run (MainPure.staticHandler "GET" path) w)) = false.
Proof.
  intros Hc.
  assert (Hrun : run (MainPure.staticHandler "GET" path) w
                 = (MainPure.writeError http.StatusBadRequest "Invalid file path", w)).
  { unfold MainPure.staticHandler. simpl negb. cbv iota.
    pose proof (TrimPrefix_static_keeps_dotdot path Hc) as Htrim.
    pose proof (Contains_dotdot_nonempty _ Htrim) as Hne.
    destruct (String.eqb_spec (strings.TrimPrefix path "/static/") ""); [contradiction|].
    rewrite Htrim. reflexivity. }
  rewrite Hrun. split; reflexivity.
Qed.

Lemma C7_witness :
  run (MainPure.staticHandler (L := Example.library) "GET" "/static/uploads/../../main-pure.go") Example.empty
  = (MainPure.writeError http.StatusBadRequest "Invalid file path", Example.empty)
  /\ serves_file (fst (run (MainPure.staticHandler (L := Example.library) "GET"
                              "/static/uploads/../../main-pure.go") Example.empty)) = false.
Proof.
  apply (C7_static_traversal_rejected Example.library "/static/uploads/../../main-pure.go" Example.empty).
  reflexivity.
Defined.

(** * Uploads *)

Lemma rejected_name_fails_a_check (L : GoLibrary) (filename : string) :
  rejected_name filename ->
  (length (strings.Split filename ".") <? 2)%nat = true \/
  MainPure.allowedExtensions (ToLower (last_part (strings.Split filename "."))) = false.
Proof.
  intros [Hnodot | [pre [ext [-> [Hext Hnot]]]]].
  - left. rewrite (Split_without_dot filename Hnodot). reflexivity.
  - right. destruct (Split_extension pre ext Hext) as [-> _]. exact Hnot.
Qed.

Lemma passes_checks_bool (L : GoLibrary) (header : FileHeader) :
  passes_checks header ->
  (Size header >? MainPure.MaxFileSize) = false /\
  (length (strings.Split (Filename header) ".") <? 2)%nat = false /\
  MainPure.allowedExtensions (ToLower (last_part (strings.Split (Filename header) "."))) = true.
Proof.
  intros [Hsize [Hparts Hext]]. repeat split.
  - rewrite Z.gtb_ltb. apply Z.ltb_ge. exact Hsize.
  - apply Nat.ltb_ge. exact Hparts.
  - exact Hext.
Qed.

Lemma MainPure_upload_rejects (L : GoLibrary) (r : MainPure.UploadRequest) (file : File) (w : MainPure.World) :
  MainPure.UploadMethod r = "POST" ->
  MainPure.FormFile r "image" = Ok file ->
  MainPure.MaxFileSize < Size (Header file) \/ rejected_name (Filename (Header file)) ->
  Status (fst (run (MainPure.uploadHandler r) w)) = http.StatusBadRequest /\
  snd (run (MainPure.uploadHandler r) w) = w.
Proof.
  intros Hmethod Hfile Hbad. unfold MainPure.uploadHandler. rewrite Hmethod. simpl negb. cbv iota.
  destruct (MainPure.ParseMultipartForm r); [split; reflexivity|].
  rewrite Hfile.
  destruct (Size (Header file) >? MainPure.MaxFileSize) eqn:Hsize; [split; reflexivity|].
  destruct Hbad as [Hbig | Hname].
  - rewrite Z.gtb_ltb in Hsize. apply Z.ltb_ge in Hsize. lia.
  - destruct (rejected_name_fails_a_check L _ Hname) as [Hparts | Hext].
    + rewrite Hparts. split; reflexivity.
    + destruct (length _ <? 2)%nat; [split; reflexivity|].
      rewrite Hext. split; reflexivity.
Qed.

Lemma Main_upload_rejects (g : Main.Globals) (FormFile : string -> result File)
      (file : File) (w : Main.World) :
  FormFile "file" = Ok file ->
  Main.maxFileSize g < Size (Header file) ->
  Status (fst (run (Main.uploadFile g FormFile) w)) = http.StatusBadRequest /\
  snd (run (Main.uploadFile g FormFile) w) = w.
Proof.
  intros Hfile Hbig. unfold Main.uploadFile. rewrite Hfile.
  replace (Size (Header file) >? Main.maxFileSize g) with true; [split; reflexivity|].
  symmetry. rewrite Z.gtb_ltb. apply Z.ltb_lt. exact Hbig.
Qed.

Lemma Main_upload_stores (g : Main.Globals) (FormFile : string -> result File)
      (file : File) (w : Main.World) :
  FormFile "file" = Ok file ->
  Size (Header file) <= Main.maxFileSize g ->
  db_faults w = [] ->
  fs_faults w = [] ->
  Status (fst (run (Main.uploadFile g FormFile) w)) = http.StatusOK /\
  products (snd (run (Main.uploadFile g FormFile) w))
  = (products w
     ++ [Main.Product.mk (fresh (products w)) (Filename (Header file)) 0%float "" ""
           (Filename (Header file)) "" 0 (clock w) (clock w + 1) (Content file) ""])%list /\
  disk (snd (run (Main.uploadFile g FormFile) w)) = disk w.
Proof.
  intros Hfile Hsize Hfaults Hfs.
  assert (Hfit : (Size (Header file) >? Main.maxFileSize g) = false)
    by (rewrite Z.gtb_ltb; apply Z.ltb_ge; exact Hsize).
  unfold Main.uploadFile. rewrite Hfile, Hfit.
  unfold run. cbn -[Hex]. rewrite Hfs. cbn -[Hex]. rewrite Hfaults. cbn -[Hex].
  use_fresh. cbn -[Hex]. repeat split; reflexivity.
Qed.

Lemma Main_default_maxFileSize (L : GoLibrary) (env : string -> string) (g : Main.Globals) :
  Main.init env = Some g ->
  env "MAX_FILE_SIZE" = "" ->
  ParseInt "10485760" = Some 10485760 ->
  Main.maxFileSize g = 10485760.
Proof.
  unfold Main.init, Main.getEnv. intros Hinit Hunset Hparse.
  rewrite Hunset in Hinit. cbn [String.eqb negb] in Hinit. rewrite Hparse in Hinit.
  destruct (negb (_ =? 32)%nat); [discriminate Hinit|].
  destruct (String.eqb _ ""); [injection Hinit as <-; reflexivity|].
  destruct (NewFromURL _); [injection Hinit as <-; reflexivity | discriminate Hinit].
Qed.




(** ** Where an accepted upload goes *)

Lemma MainPure_upload_accepts (L : GoLibrary) (r : MainPure.UploadRequest) (file : File) (w : MainPure.World) :
  MainPure.UploadMethod r = "POST" ->
  MainPure.ParseMultipartForm r = None ->
  MainPure.FormFile r "image" = Ok file ->
  passes_checks (Header file) ->
  fs_faults w = [] ->
  Status (fst (run (MainPure.uploadHandler r) w)) = http.StatusCreated /\
  disk (snd (run (MainPure.uploadHandler r) w))
  = write_file (MainPure.UploadDir ++ "/" ++ Filename (Header file)) (Content file) (disk w).
Proof.
  intros Hmethod Hparse Hfile Hchecks Hfs.
  destruct (passes_checks_bool L _ Hchecks) as [Hsize [Hparts Hext]].
  unfold MainPure.uploadHandler. rewrite Hmethod, Hparse, Hfile. simpl negb. cbv iota.
  rewrite Hsize, Hparts, Hext. simpl negb. cbv iota.
  unfold run. cbn. rewrite Hfs. cbn. split; [reflexivity|].
  apply write_write.
Qed.

Lemma MainPure_upload_accepted (L : GoLibrary) (r : MainPure.UploadRequest) (w : MainPure.World) :
  Status (fst (run (MainPure.uploadHandler r) w)) = http.StatusCreated ->
  exists file,
    MainPure.FormFile r "image" = Ok file /\
    passes_checks (Header file) /\
    disk (snd (run (MainPure.uploadHandler r) w))
    = write_file (MainPure.UploadDir ++ "/" ++ Filename (Header file)) (Content file) (disk w).
Proof.
  unfold MainPure.uploadHandler.
  destruct (negb (MainPure.UploadMethod r =? "POST")%string); [discriminate|].
  destruct (MainPure.ParseMultipartForm r); [discriminate|].
  destruct (MainPure.FormFile r "image") as [file|]; [|discriminate].
  destruct (Size (Header file) >? MainPure.MaxFileSize) eqn:Hsize; [discriminate|].
  destruct (length (strings.Split (Filename (Header file)) ".") <? 2)%nat eqn:Hparts; [discriminate|].
  destruct (MainPure.allowedExtensions (ToLower (last_part (strings.Split (Filename (Header file)) "."))))
    eqn:Hext; [|discriminate].
  simpl negb. cbv iota. unfold run. cbn.
  destruct (fs_faults w) as [|[msg|] faults]; cbn; try discriminate.
  - intros _. exists file. repeat split.
    + rewrite Z.gtb_ltb in Hsize. apply Z.ltb_ge. exact Hsize.
    + apply Nat.ltb_ge. exact Hparts.
    + exact Hext.
    + apply write_write.
  - destruct faults as [|[msg|] faults]; cbn; try discriminate.
    + intros _. exists file. repeat split.
      * rewrite Z.gtb_ltb in Hsize. apply Z.ltb_ge. exact Hsize.
      * apply Nat.ltb_ge. exact Hparts.
      * exact Hext.
      * apply write_write.
    + intros _. exists file. repeat split.
      * rewrite Z.gtb_ltb in Hsize. apply Z.ltb_ge. exact Hsize.
      * apply Nat.ltb_ge. exact Hparts.
      * exact Hext.
      * apply write_write.
Qed.

Lemma GinApp_upload_accepts (L : GoLibrary) (FormFile : string -> result File) (file : File) (w : GinApp.World) :
  FormFile "image" = Ok file ->
  passes_checks (Header file) ->
  fs_faults w = [] ->
  Status (fst (run (GinApp.uploadImage FormFile) w)) = http.StatusCreated /\
  disk (snd (run (GinApp.uploadImage FormFile) w))
  = write_file (GinApp.UploadDir ++ "/" ++ Filename (Header file)) (Content file) (disk w).
Proof.
  intros Hfile Hchecks Hfs.
  destruct (passes_checks_bool L _ Hchecks) as [Hsize [Hparts Hext]].
  unfold GinApp.uploadImage. rewrite Hfile.
  change GinApp.MaxFileSize with MainPure.MaxFileSize.
  change GinApp.allowedExtensions with MainPure.allowedExtensions.
  rewrite Hsize, Hparts, Hext. simpl negb. cbv iota.
  unfold run. cbn. rewrite Hfs. cbn. split; reflexivity.
Qed.

Lemma GinApp_upload_accepted (L : GoLibrary) (FormFile : string -> result File) (w : GinApp.World) :
  Status (fst (run (GinApp.uploadImage FormFile) w)) = http.StatusCreated ->
  exists file,
    FormFile "image" = Ok file /\
    passes_checks (Header file) /\
    disk (snd (run (GinApp.uploadImage FormFile) w))
    = write_file (GinApp.UploadDir ++ "/" ++ Filename (Header file)) (Content file) (disk w).
Proof.
  unfold GinApp.uploadImage.
  destruct (FormFile "image") as [file|]; [|discriminate].
  change GinApp.MaxFileSize with MainPure.MaxFileSize.
  change GinApp.allowedExtensions with MainPure.allowedExtensions.
  destruct (Size (Header file) >? MainPure.MaxFileSize) eqn:Hsize; [discriminate|].
  destruct (length (strings.Split (Filename (Header file)) ".") <? 2)%nat eqn:Hparts; [discriminate|].
  destruct (MainPure.allowedExtensions (ToLower (last_part (strings.Split (Filename (Header file)) "."))))
    eqn:Hext; [|discriminate].
  simpl negb. cbv iota. unfold run. cbn.
  destruct (fs_faults w) as [|[msg|] faults]; cbn; try discriminate.
  - intros _. exists file. repeat split.
    + rewrite Z.gtb_ltb in Hsize. apply Z.ltb_ge. exact Hsize.
    + apply Nat.ltb_ge. exact Hparts.
    + exact Hext.
  - intros _. exists file. repeat split.
    + rewrite Z.gtb_ltb in Hsize. apply Z.ltb_ge. exact Hsize.
    + apply Nat.ltb_ge. exact Hparts.
    + exact Hext.
Qed.

Lemma MainPure_upload_same_name (L : GoLibrary) (r1 r2 : MainPure.UploadRequest) (f1 f2 : File)
      (w : MainPure.World) :
  MainPure.FormFile r1 "image" = Ok f1 ->
  MainPure.FormFile r2 "image" = Ok f2 ->
  Filename (Header f1) = Filename (Header f2) ->
  Status (fst (run (MainPure.uploadHandler r1) w)) = http.StatusCreated ->
  Status (fst (run (MainPure.uploadHandler r2) (snd (run (MainPure.uploadHandler r1) w)))) = http.StatusCreated ->
  disk (snd (run (MainPure.uploadHandler r2) (snd (run (MainPure.uploadHandler r1) w))))
  = write_file (MainPure.UploadDir ++ "/" ++ Filename (Header f1)) (Content f2) (disk w) /\
  read_file (MainPure.UploadDir ++ "/" ++ Filename (Header f1))
    (disk (snd (run (MainPure.uploadHandler r2) (snd (run (MainPure.uploadHandler r1) w)))))
  = Some (Content f2).
Proof.
  intros Hf1 Hf2 Hname Hfirst Hsecond.
  enough (Hdisk : disk (snd (run (MainPure.uploadHandler r2) (snd (run (MainPure.uploadHandler r1) w))))
                  = write_file (MainPure.UploadDir ++ "/" ++ Filename (Header f1)) (Content f2) (disk w))
    by (split; [exact Hdisk | rewrite Hdisk; apply read_write_same]).
  destruct (MainPure_upload_accepted L r1 w Hfirst) as [f1' [Hf1' [_ Hdisk1]]].
  destruct (MainPure_upload_accepted L r2 _ Hsecond) as [f2' [Hf2' [_ Hdisk2]]].
  rewrite Hf1 in Hf1'. injection Hf1' as <-.
  rewrite Hf2 in Hf2'. injection Hf2' as <-.
  rewrite Hdisk2, Hdisk1, <- Hname. apply write_write.
Qed.

Lemma GinApp_upload_same_name (L : GoLibrary) (form1 form2 : string -> result File) (f1 f2 : File)
      (w : GinApp.World) :
  form1 "image" = Ok f1 ->
  form2 "image" = Ok f2 ->
  Filename (Header f1) = Filename (Header f2) ->
  Status (fst (run (GinApp.uploadImage form1) w)) = http.StatusCreated ->
  Status (fst (run (GinApp.uploadImage form2) (snd (run (GinApp.uploadImage form1) w)))) = http.StatusCreated ->
  disk (snd (run (GinApp.uploadImage form2) (snd (run (GinApp.uploadImage form1) w))))
  = write_file (GinApp.UploadDir ++ "/" ++ Filename (Header f1)) (Content f2) (disk w) /\
  read_file (GinApp.UploadDir ++ "/" ++ Filename (Header f1))
    (disk (snd (run (GinApp.uploadImage form2) (snd (run (GinApp.uploadImage form1) w)))))
  = Some (Content f2).
Proof.
  intros Hf1 Hf2 Hname Hfirst Hsecond.
  enough (Hdisk : disk (snd (run (GinApp.uploadImage form2) (snd (run (GinApp.uploadImage form1) w))))
                  = write_file (GinApp.UploadDir ++ "/" ++ Filename (Header f1)) (Content f2) (disk w))
    by (split; [exact Hdisk | rewrite Hdisk; apply read_write_same]).
  destruct (GinApp_upload_accepted L form1 w Hfirst) as [f1' [Hf1' [_ Hdisk1]]].
  destruct (GinApp_upload_accepted L form2 _ Hsecond) as [f2' [Hf2' [_ Hdisk2]]].
  rewrite Hf1 in Hf1'. injection Hf1' as <-.
  rewrite Hf2 in Hf2'. injection Hf2' as <-.
  rewrite Hdisk2, Hdisk1, <- Hname. apply write_write.
Qed.

(** C10.  In the two revisions that store an upload under its original name
    ([uploadHandler] of [main-pure.go], [uploadImage] of the first gin port):
    - a file that passes the size check and the extension check is accepted
      whatever else its name contains, and is written to exactly
      [UploadDir ++ "/" ++ filename];
    - every accepted upload passed those two checks and was written there;
    - a second accepted upload under the same name is written to the same
      path, where only its content remains: reading the path gives the
      second file. *)
Theorem C10_upload_destination_is_the_client_name :
  (forall (L : GoLibrary) (r : MainPure.UploadRequest) (file : File) (w : MainPure.World),
      MainPure.UploadMethod r = "POST" ->
      MainPure.ParseMultipartForm r = None ->
      MainPure.FormFile r "image" = Ok file ->
      passes_checks (Header file) ->
      fs_faults w = [] ->
      Status (fst (run (MainPure.uploadHandler r) w)) = http.StatusCreated /\
      disk (snd (run (MainPure.uploadHandler r) w))
      = write_file (MainPure.UploadDir ++ "/" ++ Filename (Header file)) (Content file) (disk w))
  /\
  (forall (L : GoLibrary) (r : MainPure.UploadRequest) (w : MainPure.World),
      Status (fst (run (MainPure.uploadHandler r) w)) = http.StatusCreated ->
      exists file,
        MainPure.FormFile r "image" = Ok file /\
        passes_checks (Header file) /\
        disk (snd (run (MainPure.uploadHandler r) w))
        = write_file (MainPure.UploadDir ++ "/" ++ Filename (Header file)) (Content file) (disk w))
  /\
  (forall (L : GoLibrary) (r1 r2 : MainPure.UploadRequest) (f1 f2 : File) (w : MainPure.World),
      MainPure.FormFile r1 "image" = Ok f1 ->
      MainPure.FormFile r2 "image" = Ok f2 ->
      Filename (Header f1) = Filename (Header f2) ->
      Status (fst (run (MainPure.uploadHandler r1) w)) = http.StatusCreated ->
      Status (fst (run (MainPure.uploadHandler r2) (snd (run (MainPure.uploadHandler r1) w))))
      = http.StatusCreated ->
      disk (snd (run (MainPure.uploadHandler r2) (snd (run (MainPure.uploadHandler r1) w))))
      = write_file (MainPure.UploadDir ++ "/" ++ Filename (Header f1)) (Content f2) (disk w) /\
      read_file (MainPure.UploadDir ++ "/" ++ Filename (Header f1))
        (disk (snd (run (MainPure.uploadHandler r2) (snd (run (MainPure.uploadHandler r1) w)))))
      = Some (Content f2))
  /\
  (forall (L : GoLibrary) (FormFile : string -> result File) (file : File) (w : GinApp.World),
      FormFile "image" = Ok file ->
      passes_checks (Header file) ->
      fs_faults w = [] ->
      Status (fst (run (GinApp.uploadImage FormFile) w)) = http.StatusCreated /\
      disk (snd (run (GinApp.uploadImage FormFile) w))
      = write_file (GinApp.UploadDir ++ "/" ++ Filename (Header file)) (Content file) (disk w))
  /\
  (forall (L : GoLibrary) (FormFile : string -> result File) (w : GinApp.World),
      Status (fst (run (GinApp.uploadImage FormFile) w)) = http.StatusCreated ->
      exists file,
        FormFile "image" = Ok file /\
        passes_checks (Header file) /\
        disk (snd (run (GinApp.uploadImage FormFile) w))
        = write_file (GinApp.UploadDir ++ "/" ++ Filename (Header file)) (Content file) (disk w))
  /\
  (forall (L : GoLibrary) (form1 form2 : string -> result File) (f1 f2 : File) (w : GinApp.World),
      form1 "image" = Ok f1 ->
      form2 "image" = Ok f2 ->
      Filename (Header f1) = Filename (Header f2) ->
      Status (fst (run (GinApp.uploadImage form1) w)) = http.StatusCreated ->
      Status (fst (run (GinApp.uploadImage form2) (snd (run (GinApp.uploadImage form1) w))))
      = http.StatusCreated ->
      disk (snd (run (GinApp.uploadImage form2) (snd (run (GinApp.uploadImage form1) w))))
      = write_file (GinApp.UploadDir ++ "/" ++ Filename (Header f1)) (Content f2) (disk w) /\
      read_file (GinApp.UploadDir ++ "/" ++ Filename (Header f1))
        (disk (snd (run (GinApp.uploadImage form2) (snd (run (GinApp.uploadImage form1) w)))))
      = Some (Content f2)).
Proof.
  split; [exact MainPure_upload_accepts|].
  split; [exact MainPure_upload_accepted|].
  split; [exact MainPure_upload_same_name|].
  split; [exact GinApp_upload_accepts|].
  split; [exact GinApp_upload_accepted | exact GinApp_upload_same_name].
Qed.

(** A name that climbs out of the upload directory is accepted as it is. *)
Lemma C10_witness :
  (Status (fst (run (MainPure.uploadHandler (L := Example.library) (post_upload climbing)) Example.empty))
   = http.StatusCreated /\
   disk (snd (run (MainPure.uploadHandler (L := Example.library) (post_upload climbing)) Example.empty))
   = [("static/uploads/../../evil.png", Content climbing)])
  /\
  (disk (snd (run (MainPure.uploadHandler (L := Example.library) (post_upload climbing_again))
                (snd (run (MainPure.uploadHandler (L := Example.library) (post_upload climbing))
                        Example.empty))))
   = [("static/uploads/../../evil.png", Content climbing_again)] /\
   read_file "static/uploads/../../evil.png"
     (disk (snd (run (MainPure.uploadHandler (L := Example.library) (post_upload climbing_again))
                   (snd (run (MainPure.uploadHandler (L := Example.library) (post_upload climbing))
                           Example.empty)))))
   = Some "GIF")
  /\
  (Status (fst (run (GinApp.uploadImage (L := Example.library) (fun _ => Ok climbing)) Example.empty))
   = http.StatusCreated /\
   disk (snd (run (GinApp.uploadImage (L := Example.library) (fun _ => Ok climbing)) Example.empty))
   = [("static/uploads/../../evil.png", Content climbing)]).
Proof.
  destruct C10_upload_destination_is_the_client_name as [Hpure [_ [Hsame [Hgin _]]]].
  split; [|split].
  - apply (Hpure Example.library (post_upload climbing) climbing Example.empty); try reflexivity.
    split; [vm_compute; discriminate | split; [vm_compute; lia | reflexivity]].
  - apply (Hsame Example.library (post_upload climbing) (post_upload climbing_again)
             climbing climbing_again Example.empty); reflexivity.
  - apply (Hgin Example.library (fun _ => Ok climbing) climbing Example.empty); try reflexivity.
    split; [vm_compute; discriminate | split; [vm_compute; lia | reflexivity]].
Defined.

(** * Admin accounts *)

Section ListFacts.
Context {T : Type}.

Lemma find_app_new (f : T -> bool) (l : list T) (x : T) :
  find f l = None -> f x = true -> find f (l ++ [x]) = Some x.
Proof.
  intros Hnone Hx. induction l as [|y l IH]; simpl in *.
  - rewrite Hx. reflexivity.
  - destruct (f y); [discriminate | exact (IH Hnone)].
Qed.

Lemma filter_none (f : T -> bool) (l : list T) :
  find f l = None -> filter f l = [].
Proof.
  induction l as [|y l IH]; simpl; [reflexivity|].
  destruct (f y); [discriminate | exact IH].
Qed.

Lemma filter_app_new (f : T -> bool) (l : list T) (x : T) :
  find f l = None -> f x = true -> filter f (l ++ [x]) = [x].
Proof.
  intros Hnone Hx. rewrite filter_app, (filter_none f l Hnone). simpl.
  rewrite Hx. reflexivity.
Qed.
End ListFacts.

(** ** Registration *)

Section Registration.
Context {B : Bcrypt}.

(** [main-pure.go]: [createAdmin], which [/api/register] is an alias of. *)
Lemma MainPure_createAdmin_new (r : Request MainPure.AdminInput.t) input (w : MainPure.World) salt rest hash :
  RequestBody r = Parsed input ->
  MainPure.AdminInput.Username input <> "" ->
  MainPure.AdminInput.Password input <> "" ->
  db_faults w = [] ->
  salts w = salt :: rest ->
  GenerateFromPassword salt (MainPure.AdminInput.Password input) DefaultCost = Ok hash ->
  find (pure_named (MainPure.AdminInput.Username input)) (admins w) = None ->
  Status (fst (run (MainPure.createAdmin r) w)) = http.StatusCreated /\
  admins (snd (run (MainPure.createAdmin r) w))
  = (admins w ++ [MainPure.Admin.mk (fresh (admins w)) (MainPure.AdminInput.Username input) hash])%list /\
  db_faults (snd (run (MainPure.createAdmin r) w)) = [].
Proof.
  intros Hbody Hu Hp Hfaults Hsalts Hhash Hnew.
  unfold MainPure.createAdmin. rewrite Hbody.
  apply String.eqb_neq in Hu, Hp. rewrite Hu, Hp. simpl orb. cbv iota.
  unfold run. cbn. rewrite Hfaults. cbn.
  change (fun a : MainPure.Admin.t => (MainPure.Admin.Username a =? MainPure.AdminInput.Username input)%string)
    with (pure_named (MainPure.AdminInput.Username input)).
  rewrite Hnew. cbn. rewrite Hsalts. cbn. rewrite Hhash. cbn. use_fresh. cbn.
  repeat split; reflexivity.
Qed.

Lemma MainPure_createAdmin_existing (r : Request MainPure.AdminInput.t) input (w : MainPure.World) a :
  RequestBody r = Parsed input ->
  MainPure.AdminInput.Username input <> "" ->
  MainPure.AdminInput.Password input <> "" ->
  db_faults w = [] ->
  find (pure_named (MainPure.AdminInput.Username input)) (admins w) = Some a ->
  Status (fst (run (MainPure.createAdmin r) w)) = http.StatusBadRequest /\
  admins (snd (run (MainPure.createAdmin r) w)) = admins w.
Proof.
  intros Hbody Hu Hp Hfaults Hfound.
  unfold MainPure.createAdmin. rewrite Hbody.
  apply String.eqb_neq in Hu, Hp. rewrite Hu, Hp. simpl orb. cbv iota.
  unfold run. cbn. rewrite Hfaults. cbn.
  change (fun a : MainPure.Admin.t => (MainPure.Admin.Username a =? MainPure.AdminInput.Username input)%string)
    with (pure_named (MainPure.AdminInput.Username input)).
  rewrite Hfound. cbn. split; reflexivity.
Qed.

(** [main.go]: [register]. *)
Lemma Main_register_new (req : models.RegisterRequest.t) (w : Main.World) salt rest hash :
  models.RegisterRequest.binding req = true ->
  db_faults w = [] ->
  salts w = salt :: rest ->
  GenerateFromPassword salt (models.RegisterRequest.Password req) DefaultCost = Ok hash ->
  find (named (models.RegisterRequest.Username req)) (admins w) = None ->
  Status (fst (run (Main.register (Parsed req)) w)) = http.StatusCreated /\
  admins (snd (run (Main.register (Parsed req)) w))
  = (admins w ++ [models.Admin.mk (fresh (admins w)) (models.RegisterRequest.Username req)
                    (models.RegisterRequest.Email req) hash (clock w)])%list /\
  db_faults (snd (run (Main.register (Parsed req)) w)) = [].
Proof.
  intros Hvalid Hfaults Hsalts Hhash Hnew.
  unfold Main.register, ShouldBindJSON. rewrite Hvalid.
  unfold run. cbn. rewrite Hfaults. cbn.
  change (fun a : models.Admin.t => (models.Admin.Username a =? models.RegisterRequest.Username req)%string)
    with (named (models.RegisterRequest.Username req)).
  rewrite Hnew. cbn. rewrite Hsalts. cbn. rewrite Hhash. cbn. use_fresh. cbn.
  repeat split; reflexivity.
Qed.

Lemma Main_register_existing (req : models.RegisterRequest.t) (w : Main.World) a :
  models.RegisterRequest.binding req = true ->
  db_faults w = [] ->
  find (named (models.RegisterRequest.Username req)) (admins w) = Some a ->
  Status (fst (run (Main.register (Parsed req)) w)) = http.StatusConflict /\
  admins (snd (run (Main.register (Parsed req)) w)) = admins w.
Proof.
  intros Hvalid Hfaults Hfound.
  unfold Main.register, ShouldBindJSON. rewrite Hvalid.
  unfold run. cbn. rewrite Hfaults. cbn.
  change (fun a : models.Admin.t => (models.Admin.Username a =? models.RegisterRequest.Username req)%string)
    with (named (models.RegisterRequest.Username req)).
  rewrite Hfound. cbn. split; reflexivity.
Qed.

(** The [controllers] package: [Register]. *)
Lemma Controllers_Register_new (req : models.RegisterRequest.t) (w : Controllers.World) salt rest hash :
  models.RegisterRequest.binding req = true ->
  db_faults w = [] ->
  salts w = salt :: rest ->
  GenerateFromPassword salt (models.RegisterRequest.Password req) DefaultCost = Ok hash ->
  find (named (models.RegisterRequest.Username req)) (admins w) = None ->
  Status (fst (run (Controllers.Register (Parsed req)) w)) = http.StatusCreated /\
  admins (snd (run (Controllers.Register (Parsed req)) w))
  = (admins w ++ [models.Admin.mk (fresh (admins w)) (models.RegisterRequest.Username req)
                    (models.RegisterRequest.Email req) hash (clock w)])%list /\
  db_faults (snd (run (Controllers.Register (Parsed req)) w)) = [].
Proof.
  intros Hvalid Hfaults Hsalts Hhash Hnew.
  unfold Controllers.Register, ShouldBindJSON. rewrite Hvalid.
  unfold run. cbn. rewrite Hfaults. cbn.
  change (fun a : models.Admin.t => (models.Admin.Username a =? models.RegisterRequest.Username req)%string)
    with (named (models.RegisterRequest.Username req)).
  rewrite Hnew. cbn. rewrite Hsalts. cbn. rewrite Hhash. cbn. use_fresh. cbn.
  repeat split; reflexivity.
Qed.

Lemma Controllers_Register_existing (req : models.RegisterRequest.t) (w : Controllers.World) a :
  models.RegisterRequest.binding req = true ->
  db_faults w = [] ->
  find (named (models.RegisterRequest.Username req)) (admins w) = Some a ->
  Status (fst (run (Controllers.Register (Parsed req)) w)) = http.StatusConflict /\
  admins (snd (run (Controllers.Register (Parsed req)) w)) = admins w.
Proof.
  intros Hvalid Hfaults Hfound.
  unfold Controllers.Register, ShouldBindJSON. rewrite Hvalid.
  unfold run. cbn. rewrite Hfaults. cbn.
  change (fun a : models.Admin.t => (models.Admin.Username a =? models.RegisterRequest.Username req)%string)
    with (named (models.RegisterRequest.Username req)).
  rewrite Hfound. cbn. split; reflexivity.
Qed.
End Registration.

(** C2 (as the code has it).  Two registrations under one username, the
    first on a collection that has no admin of that name, with well-formed
    bodies and no failure of the database or of the hashing: the first is
    answered with Created, the second leaves the admins collection as the
    first left it, and exactly one admin of that name is stored.  The second
    answer is Conflict (409) from [register] of [main.go] and from
    [Controller.Register], and BadRequest (400) from [createAdmin] of
    [main-pure.go]. *)
Theorem C2_second_registration_is_refused :
  (forall (B : Bcrypt) (req1 req2 : models.RegisterRequest.t) (w : Main.World) salt rest hash,
      models.RegisterRequest.binding req1 = true ->
      models.RegisterRequest.binding req2 = true ->
      models.RegisterRequest.Username req2 = models.RegisterRequest.Username req1 ->
      db_faults w = [] ->
      salts w = salt :: rest ->
      GenerateFromPassword salt (models.RegisterRequest.Password req1) DefaultCost = Ok hash ->
      find (named (models.RegisterRequest.Username req1)) (admins w) = None ->
      let first := run (Main.register (Parsed req1)) w in
      let second := run (Main.register (Parsed req2)) (snd first) in
      Status (fst first) = http.StatusCreated /\
      Status (fst second) = http.StatusConflict /\
      admins (snd second) = admins (snd first) /\
      length (filter (named (models.RegisterRequest.Username req1)) (admins (snd second))) = 1%nat)
  /\
  (forall (B : Bcrypt) (req1 req2 : models.RegisterRequest.t) (w : Controllers.World) salt rest hash,
      models.RegisterRequest.binding req1 = true ->
      models.RegisterRequest.binding req2 = true ->
      models.RegisterRequest.Username req2 = models.RegisterRequest.Username req1 ->
      db_faults w = [] ->
      salts w = salt :: rest ->
      GenerateFromPassword salt (models.RegisterRequest.Password req1) DefaultCost = Ok hash ->
      find (named (models.RegisterRequest.Username req1)) (admins w) = None ->
      let first := run (Controllers.Register (Parsed req1)) w in
      let second := run (Controllers.Register (Parsed req2)) (snd first) in
      Status (fst first) = http.StatusCreated /\
      Status (fst second) = http.StatusConflict /\
      admins (snd second) = admins (snd first) /\
      length (filter (named (models.RegisterRequest.Username req1)) (admins (snd second))) = 1%nat)
  /\
  (forall (B : Bcrypt) (r1 r2 : Request MainPure.AdminInput.t) in1 in2 (w : MainPure.World) salt rest hash,
      RequestBody r1 = Parsed in1 ->
      RequestBody r2 = Parsed in2 ->
      MainPure.AdminInput.Username in1 <> "" ->
      MainPure.AdminInput.Password in1 <> "" ->
      MainPure.AdminInput.Password in2 <> "" ->
      MainPure.AdminInput.Username in2 = MainPure.AdminInput.Username in1 ->
      db_faults w = [] ->
      salts w = salt :: rest ->
      GenerateFromPassword salt (MainPure.AdminInput.Password in1) DefaultCost = Ok hash ->
      find (pure_named (MainPure.AdminInput.Username in1)) (admins w) = None ->
      let first := run (MainPure.createAdmin r1) w in
      let second := run (MainPure.createAdmin r2) (snd first) in
      Status (fst first) = http.StatusCreated /\
      Status (fst second) = http.StatusBadRequest /\
      admins (snd second) = admins (snd first) /\
      length (filter (pure_named (MainPure.AdminInput.Username in1)) (admins (snd second))) = 1%nat).
Proof.
  split; [|split].
  - intros B req1 req2 w salt rest hash Hv1 Hv2 Hsame Hfaults Hsalts Hhash Hnew first second.
    destruct (Main_register_new req1 w salt rest hash Hv1 Hfaults Hsalts Hhash Hnew)
      as [Hcreated [Hadmins Hfaults1]].
    fold first in Hcreated, Hadmins, Hfaults1.
    assert (Hfound : find (named (models.RegisterRequest.Username req2)) (admins (snd first))
                     = Some (models.Admin.mk (fresh (admins w)) (models.RegisterRequest.Username req1)
                               (models.RegisterRequest.Email req1) hash (clock w))).
    { rewrite Hadmins, Hsame. apply find_app_new; [exact Hnew|].
      unfold named. simpl. apply String.eqb_refl. }
    destruct (Main_register_existing req2 (snd first) _ Hv2 Hfaults1 Hfound) as [Hconflict Hkept].
    fold second in Hconflict, Hkept.
    repeat split; try assumption.
    rewrite Hkept, Hadmins, filter_app_new; [reflexivity | exact Hnew |].
    unfold named. simpl. apply String.eqb_refl.
  - intros B req1 req2 w salt rest hash Hv1 Hv2 Hsame Hfaults Hsalts Hhash Hnew first second.
    destruct (Controllers_Register_new req1 w salt rest hash Hv1 Hfaults Hsalts Hhash Hnew)
      as [Hcreated [Hadmins Hfaults1]].
    fold first in Hcreated, Hadmins, Hfaults1.
    assert (Hfound : find (named (models.RegisterRequest.Username req2)) (admins (snd first))
                     = Some (models.Admin.mk (fresh (admins w)) (models.RegisterRequest.Username req1)
                               (models.RegisterRequest.Email req1) hash (clock w))).
    { rewrite Hadmins, Hsame. apply find_app_new; [exact Hnew|].
      unfold named. simpl. apply String.eqb_refl. }
    destruct (Controllers_Register_existing req2 (snd first) _ Hv2 Hfaults1 Hfound) as [Hconflict Hkept].
    fold second in Hconflict, Hkept.
    repeat split; try assumption.
    rewrite Hkept, Hadmins, filter_app_new; [reflexivity | exact Hnew |].
    unfold named. simpl. apply String.eqb_refl.
  - intros B r1 r2 in1 in2 w salt rest hash Hb1 Hb2 Hu1 Hp1 Hp2 Hsame Hfaults Hsalts Hhash Hnew first second.
    destruct (MainPure_createAdmin_new r1 in1 w salt rest hash Hb1 Hu1 Hp1 Hfaults Hsalts Hhash Hnew)
      as [Hcreated [Hadmins Hfaults1]].
    fold first in Hcreated, Hadmins, Hfaults1.
    assert (Hu2 : MainPure.AdminInput.Username in2 <> "") by (rewrite Hsame; exact Hu1).
    assert (Hfound : find (pure_named (MainPure.AdminInput.Username in2)) (admins (snd first))
                     = Some (MainPure.Admin.mk (fresh (admins w)) (MainPure.AdminInput.Username in1) hash)).
    { rewrite Hadmins, Hsame. apply find_app_new; [exact Hnew|].
      unfold pure_named. simpl. apply String.eqb_refl. }
    destruct (MainPure_createAdmin_existing r2 in2 (snd first) _ Hb2 Hu2 Hp2 Hfaults1 Hfound)
      as [Hrefused Hkept].
    fold second in Hrefused, Hkept.
    repeat split; try assumption.
    rewrite Hkept, Hadmins, filter_app_new; [reflexivity | exact Hnew |].
    unfold pure_named. simpl. apply String.eqb_refl.
Qed.

Lemma C2_witness :
  (let first := run (Main.register (B := Example.bcrypt) (Parsed register_a)) Example.empty in
   let second := run (Main.register (B := Example.bcrypt) (Parsed register_a_again)) (snd first) in
   Status (fst first) = http.StatusCreated /\
   Status (fst second) = http.StatusConflict /\
   admins (snd second) = admins (snd first) /\
   length (filter (named "a") (admins (snd second))) = 1%nat)
  /\
  (let first := run (MainPure.createAdmin (B := Example.bcrypt) (post_admin "a" "p")) Example.empty in
   let second := run (MainPure.createAdmin (B := Example.bcrypt) (post_admin "a" "q")) (snd first) in
   Status (fst first) = http.StatusCreated /\
   Status (fst second) = http.StatusBadRequest /\
   admins (snd second) = admins (snd first) /\
   length (filter (pure_named "a") (admins (snd second))) = 1%nat).
Proof.
  destruct C2_second_registration_is_refused as [Hmain [_ Hpure]]. split.
  - apply (Hmain Example.bcrypt register_a register_a_again Example.empty "salt1" ["salt2"] "$2a$p$salt1");
      reflexivity.
  - apply (Hpure Example.bcrypt (post_admin "a" "p") (post_admin "a" "q")
             (MainPure.AdminInput.mk "a" "p") (MainPure.AdminInput.mk "a" "q")
             Example.empty "salt1" ["salt2"] "$2a$p$salt1");
      try reflexivity; discriminate.
Defined.

(** C2 as stated fails on [main-pure.go]: the second registration of a
    username is answered with BadRequest (400), not Conflict (409). *)
Lemma C2_counterexample :
  let first := run (MainPure.registerHandler (B := Example.bcrypt) (post_admin "a" "p")) Example.empty in
  let second := run (MainPure.registerHandler (B := Example.bcrypt) (post_admin "a" "p")) (snd first) in
  Status (fst first) = 201 /\ Status (fst second) = 400 /\ Status (fst second) <> http.StatusConflict.
Proof. vm_compute. repeat split; try reflexivity. discriminate. Qed.

(** ** Login *)

Section UniqueNames.
Context {T : Type} (key : T -> string).

(** Under unique usernames the lookup by name returns the admin itself. *)
Lemma find_unique (l : list T) (a : T) :
  NoDup (map key l) -> In a l ->
  find (fun x => String.eqb (key x) (key a)) l = Some a.
Proof.
  induction l as [|x l IH]; simpl; [contradiction|].
  intros Hnodup [->|Hin].
  - rewrite String.eqb_refl. reflexivity.
  - inversion Hnodup as [|? ? Hnotin Hrest]; subst.
    destruct (String.eqb_spec (key x) (key a)) as [Heq|_].
    + exfalso. apply Hnotin. rewrite Heq. apply in_map. exact Hin.
    + exact (IH Hrest Hin).
Qed.

Lemma find_unknown (l : list T) (name : string) :
  ~ In name (map key l) -> find (fun x => String.eqb (key x) name) l = None.
Proof.
  induction l as [|x l IH]; simpl; [reflexivity|].
  intros Hnotin. destruct (String.eqb_spec (key x) name) as [Heq|_].
  - exfalso. apply Hnotin. left. exact Heq.
  - apply IH. intros Hin. apply Hnotin. right. exact Hin.
Qed.
End UniqueNames.

Lemma init_key_length (L : GoLibrary) (env : string -> string) (g : Main.Globals) :
  Main.init env = Some g -> String.length (Main.pasetoSecretKey g) = 32%nat.
Proof.
  unfold Main.init.
  destruct (String.length (Main.getEnv env "PASETO_SECRET_KEY" "") =? 32)%nat eqn:Hlen; [|discriminate].
  apply Nat.eqb_eq in Hlen. simpl negb. cbv iota.
  destruct (String.eqb _ ""); [intros Heq; injection Heq as <-; exact Hlen|].
  destruct (NewFromURL _); [|discriminate].
  intros Heq. injection Heq as <-. exact Hlen.
Qed.

Lemma Load_key_length (env : string -> option string) (cfg : config.AppConfig) :
  config.Load env = Some cfg -> String.length (config.PasetoSecretKey cfg) = 32%nat.
Proof.
  unfold config.Load.
  destruct (if String.eqb (config.getEnv env "MONGO_MODE" "local") "atlas" then _ else _); [|discriminate].
  destruct (String.length (config.getEnv env "PASETO_SECRET_KEY" "") =? 32)%nat eqn:Hlen; [|discriminate].
  apply Nat.eqb_eq in Hlen. intros Heq. injection Heq as <-. exact Hlen.
Qed.

Lemma main_controller_key (L : GoLibrary) (cfg : config.AppConfig) (ctrl : Controllers.Controller) :
  Controllers.main_controller cfg = Some ctrl ->
  Controllers.PasetoSecretKey ctrl = config.PasetoSecretKey cfg.
Proof.
  unfold Controllers.main_controller.
  destruct (negb _); [destruct (NewFromURL _); [|discriminate]|];
    intros Heq; injection Heq as <-; reflexivity.
Qed.

Section Login.
Context {B : Bcrypt}.

(** *** [main-pure.go] *)
Lemma MainPure_login_found (r : Request MainPure.LoginInput.t) input (w : MainPure.World) a :
  RequestBody r = Parsed input ->
  MainPure.LoginInput.Username input <> "" ->
  MainPure.LoginInput.Password input <> "" ->
  db_faults w = [] ->
  find (pure_named (MainPure.LoginInput.Username input)) (admins w) = Some a ->
  fst (run (MainPure.loginAdmin r) w)
  = (if CompareHashAndPassword (MainPure.Admin.Password a) (MainPure.LoginInput.Password input)
     then MainPure.writeJSON http.StatusOK
            (JObj [("admin", JObj [("username", JStr (MainPure.Admin.Username a))]);
                   ("message", JStr "Login berhasil")])
     else MainPure.writeError http.StatusUnauthorized "Username/password salah")
  /\ admins (snd (run (MainPure.loginAdmin r) w)) = admins w.
Proof.
  intros Hbody Hu Hp Hfaults Hfound.
  unfold MainPure.loginAdmin. rewrite Hbody.
  apply String.eqb_neq in Hu, Hp. rewrite Hu, Hp. simpl orb. cbv iota.
  unfold run. cbn. rewrite Hfaults. cbn.
  change (fun a : MainPure.Admin.t => (MainPure.Admin.Username a =? MainPure.LoginInput.Username input)%string)
    with (pure_named (MainPure.LoginInput.Username input)).
  rewrite Hfound. cbn.
  destruct (CompareHashAndPassword _ _); cbn; split; reflexivity.
Qed.

Lemma MainPure_login_unknown (r : Request MainPure.LoginInput.t) input (w : MainPure.World) :
  RequestBody r = Parsed input ->
  MainPure.LoginInput.Username input <> "" ->
  MainPure.LoginInput.Password input <> "" ->
  db_faults w = [] ->
  find (pure_named (MainPure.LoginInput.Username input)) (admins w) = None ->
  Status (fst (run (MainPure.loginAdmin r) w)) = http.StatusUnauthorized /\
  admins (snd (run (MainPure.loginAdmin r) w)) = admins w.
Proof.
  intros Hbody Hu Hp Hfaults Hnone.
  unfold MainPure.loginAdmin. rewrite Hbody.
  apply String.eqb_neq in Hu, Hp. rewrite Hu, Hp. simpl orb. cbv iota.
  unfold run. cbn. rewrite Hfaults. cbn.
  change (fun a : MainPure.Admin.t => (MainPure.Admin.Username a =? MainPure.LoginInput.Username input)%string)
    with (pure_named (MainPure.LoginInput.Username input)).
  rewrite Hnone. cbn. split; reflexivity.
Qed.

(** *** [main.go] *)
Lemma Main_login_found (g : Main.Globals) (req : models.LoginRequest.t) (w : Main.World) a :
  models.LoginRequest.binding req = true ->
  db_faults w = [] ->
  String.length (Main.pasetoSecretKey g) = 32%nat ->
  find (named (models.LoginRequest.Username req)) (admins w) = Some a ->
  fst (run (Main.login g (Parsed req)) w)
  = (if CompareHashAndPassword (models.Admin.Password a) (models.LoginRequest.Password req)
     then gin.JSON http.StatusOK
            (JObj [("admin", models.Admin_json (models.Admin.with_Password "" a));
                   ("message", JStr "Login successful");
                   ("token", JToken (issued_token (Main.pasetoSecretKey g) (models.Admin.ID a) (clock w)))])
     else gin.JSON http.StatusUnauthorized (gin.H [("error", JStr "Invalid credentials")]))
  /\ admins (snd (run (Main.login g (Parsed req)) w)) = admins w.
Proof.
  intros Hvalid Hfaults Hkey Hfound.
  unfold Main.login, ShouldBindJSON. rewrite Hvalid.
  unfold run. cbn. rewrite Hfaults. cbn.
  change (fun a : models.Admin.t => (models.Admin.Username a =? models.LoginRequest.Username req)%string)
    with (named (models.LoginRequest.Username req)).
  rewrite Hfound. cbn.
  destruct (CompareHashAndPassword _ _); cbn; [|split; reflexivity].
  unfold paseto.Encrypt. rewrite Hkey. cbn. split; reflexivity.
Qed.

Lemma Main_login_unknown (g : Main.Globals) (req : models.LoginRequest.t) (w : Main.World) :
  models.LoginRequest.binding req = true ->
  db_faults w = [] ->
  find (named (models.LoginRequest.Username req)) (admins w) = None ->
  Status (fst (run (Main.login g (Parsed req)) w)) = http.StatusUnauthorized /\
  admins (snd (run (Main.login g (Parsed req)) w)) = admins w.
Proof.
  intros Hvalid Hfaults Hnone.
  unfold Main.login, ShouldBindJSON. rewrite Hvalid.
  unfold run. cbn. rewrite Hfaults. cbn.
  change (fun a : models.Admin.t => (models.Admin.Username a =? models.LoginRequest.Username req)%string)
    with (named (models.LoginRequest.Username req)).
  rewrite Hnone. cbn. split; reflexivity.
Qed.

(** *** The [controllers] package *)
Lemma Controllers_Login_found (ctrl : Controllers.Controller) (req : models.LoginRequest.t)
      (w : Controllers.World) a :
  models.LoginRequest.binding req = true ->
  db_faults w = [] ->
  String.length (Controllers.PasetoSecretKey ctrl) = 32%nat ->
  find (named (models.LoginRequest.Username req)) (admins w) = Some a ->
  fst (run (Controllers.Login ctrl (Parsed req)) w)
  = (if CompareHashAndPassword (models.Admin.Password a) (models.LoginRequest.Password req)
     then gin.JSON http.StatusOK
            (JObj [("admin", models.Admin_json (models.Admin.with_Password "" a));
                   ("message", JStr "Login successful");
                   ("token", JToken (issued_token (Controllers.PasetoSecretKey ctrl)
                                       (models.Admin.ID a) (clock w)))])
     else gin.JSON http.StatusUnauthorized (gin.H [("error", JStr "Invalid credentials")]))
  /\ admins (snd (run (Controllers.Login ctrl (Parsed req)) w)) = admins w.
Proof.
  intros Hvalid Hfaults Hkey Hfound.
  unfold Controllers.Login, ShouldBindJSON. rewrite Hvalid.
  unfold run. cbn. rewrite Hfaults. cbn.
  change (fun a : models.Admin.t => (models.Admin.Username a =? models.LoginRequest.Username req)%string)
    with (named (models.LoginRequest.Username req)).
  rewrite Hfound. cbn.
  destruct (CompareHashAndPassword _ _); cbn; [|split; reflexivity].
  unfold paseto.Encrypt. rewrite Hkey. cbn. split; reflexivity.
Qed.

Lemma Controllers_Login_unknown (ctrl : Controllers.Controller) (req : models.LoginRequest.t)
      (w : Controllers.World) :
  models.LoginRequest.binding req = true ->
  db_faults w = [] ->
  find (named (models.LoginRequest.Username req)) (admins w) = None ->
  Status (fst (run (Controllers.Login ctrl (Parsed req)) w)) = http.StatusUnauthorized /\
  admins (snd (run (Controllers.Login ctrl (Parsed req)) w)) = admins w.
Proof.
  intros Hvalid Hfaults Hnone.
  unfold Controllers.Login, ShouldBindJSON. rewrite Hvalid.
  unfold run. cbn. rewrite Hfaults. cbn.
  change (fun a : models.Admin.t => (models.Admin.Username a =? models.LoginRequest.Username req)%string)
    with (named (models.LoginRequest.Username req)).
  rewrite Hnone. cbn. split; reflexivity.
Qed.
End Login.

(** Registration followed by login with the same credentials succeeds, for
    any hashing primitive that keeps [bcrypt_law]. *)
Lemma Main_register_then_login (B : Bcrypt) (g : Main.Globals) (req : models.RegisterRequest.t)
      (w : Main.World) salt rest hash :
  bcrypt_law B ->
  models.RegisterRequest.binding req = true ->
  db_faults w = [] ->
  salts w = salt :: rest ->
  GenerateFromPassword salt (models.RegisterRequest.Password req) DefaultCost = Ok hash ->
  find (named (models.RegisterRequest.Username req)) (admins w) = None ->
  String.length (Main.pasetoSecretKey g) = 32%nat ->
  Status (fst (run (Main.login g (Parsed (models.LoginRequest.mk (models.RegisterRequest.Username req)
                                            (models.RegisterRequest.Password req))))
                 (snd (run (Main.register (Parsed req)) w)))) = http.StatusOK.
Proof.
  intros Hlaw Hvalid Hfaults Hsalts Hhash Hnew Hkey.
  destruct (Main_register_new req w salt rest hash Hvalid Hfaults Hsalts Hhash Hnew)
    as [_ [Hadmins Hfaults']].
  set (a := models.Admin.mk (fresh (admins w)) (models.RegisterRequest.Username req)
              (models.RegisterRequest.Email req) hash (clock w)) in *.
  set (login_req := models.LoginRequest.mk (models.RegisterRequest.Username req)
                      (models.RegisterRequest.Password req)).
  assert (Hbind : models.LoginRequest.binding login_req = true).
  { unfold models.RegisterRequest.binding in Hvalid. unfold models.LoginRequest.binding. simpl.
    apply andb_prop in Hvalid. destruct Hvalid as [Hue Hp].
    apply andb_prop in Hue. destruct Hue as [Hu _]. rewrite Hu, Hp. reflexivity. }
  assert (Hfound : find (named (models.LoginRequest.Username login_req))
                     (admins (snd (run (Main.register (Parsed req)) w))) = Some a).
  { rewrite Hadmins. apply find_app_new; [exact Hnew|]. unfold named. simpl. apply String.eqb_refl. }
  destruct (Main_login_found g login_req _ a Hbind Hfaults' Hkey Hfound) as [Hresp _].
  rewrite Hresp. simpl models.Admin.Password. simpl models.LoginRequest.Password.
  rewrite (Hlaw salt _ DefaultCost hash Hhash). reflexivity.
Qed.

(** C4 (as the code has it).  Login looks the username up and goes by the
    first stored admin of that name.  For a request that carries both
    fields, absent database failure: where that admin's stored hash compares
    equal to the password, the answer is OK, with the admin's identifier,
    username, e-mail and creation time, an empty [password] (no [password]
    at all in [main-pure.go]) and, in the gin revisions, the token: neither
    the password nor the stored hash is in it; where no admin has the
    username, or the hash of the first one does not compare equal, the
    answer is Unauthorized.  In every case the admins collection is
    unchanged.  Where usernames are stored once, the first admin of a name
    is the only one: then this holds of every stored admin. *)
Theorem C4_login_by_credentials :
  (* login, main.go *)
  (forall (B : Bcrypt) (g : Main.Globals) (w : Main.World) (req : models.LoginRequest.t),
      models.LoginRequest.binding req = true ->
      db_faults w = [] ->
      String.length (Main.pasetoSecretKey g) = 32%nat ->
      let out := run (Main.login g (Parsed req)) w in
      admins (snd out) = admins w /\
      match find (named (models.LoginRequest.Username req)) (admins w) with
      | Some a =>
          if CompareHashAndPassword (models.Admin.Password a) (models.LoginRequest.Password req)
          then fst out
               = gin.JSON http.StatusOK
                   (login_answer (Main.pasetoSecretKey g) (models.Admin.ID a)
                      (models.Admin.Username a) (models.Admin.Email a)
                      (models.Admin.CreatedAt a) (clock w))
          else fst out
               = gin.JSON http.StatusUnauthorized (gin.H [("error", JStr "Invalid credentials")])
      | None =>
          fst out = gin.JSON http.StatusUnauthorized (gin.H [("error", JStr "Invalid credentials")])
      end)
  /\
  (* Controller.Login *)
  (forall (B : Bcrypt) (ctrl : Controllers.Controller) (w : Controllers.World)
          (req : models.LoginRequest.t),
      models.LoginRequest.binding req = true ->
      db_faults w = [] ->
      String.length (Controllers.PasetoSecretKey ctrl) = 32%nat ->
      let out := run (Controllers.Login ctrl (Parsed req)) w in
      admins (snd out) = admins w /\
      match find (named (models.LoginRequest.Username req)) (admins w) with
      | Some a =>
          if CompareHashAndPassword (models.Admin.Password a) (models.LoginRequest.Password req)
          then fst out
               = gin.JSON http.StatusOK
                   (login_answer (Controllers.PasetoSecretKey ctrl) (models.Admin.ID a)
                      (models.Admin.Username a) (models.Admin.Email a)
                      (models.Admin.CreatedAt a) (clock w))
          else fst out
               = gin.JSON http.StatusUnauthorized (gin.H [("error", JStr "Invalid credentials")])
      | None =>
          fst out = gin.JSON http.StatusUnauthorized (gin.H [("error", JStr "Invalid credentials")])
      end)
  /\
  (* loginAdmin, main-pure.go *)
  (forall (B : Bcrypt) (r : Request MainPure.LoginInput.t) (input : MainPure.LoginInput.t)
          (w : MainPure.World),
      RequestBody r = Parsed input ->
      MainPure.LoginInput.Username input <> "" ->
      MainPure.LoginInput.Password input <> "" ->
      db_faults w = [] ->
      let out := run (MainPure.loginAdmin r) w in
      admins (snd out) = admins w /\
      match find (pure_named (MainPure.LoginInput.Username input)) (admins w) with
      | Some a =>
          if CompareHashAndPassword (MainPure.Admin.Password a) (MainPure.LoginInput.Password input)
          then fst out
               = MainPure.writeJSON http.StatusOK
                   (JObj [("admin", JObj [("username", JStr (MainPure.Admin.Username a))]);
                          ("message", JStr "Login berhasil")])
          else fst out = MainPure.writeError http.StatusUnauthorized "Username/password salah"
      | None => fst out = MainPure.writeError http.StatusUnauthorized "Username/password salah"
      end)
  /\
  (* the first admin of a name, and the only one *)
  ((forall (stored : list models.Admin.t) (a : models.Admin.t),
       NoDup (map models.Admin.Username stored) -> In a stored ->
       find (named (models.Admin.Username a)) stored = Some a) /\
   (forall (stored : list MainPure.Admin.t) (a : MainPure.Admin.t),
       NoDup (map MainPure.Admin.Username stored) -> In a stored ->
       find (pure_named (MainPure.Admin.Username a)) stored = Some a) /\
   (forall (stored : list models.Admin.t) (username : string),
       ~ In username (map models.Admin.Username stored) ->
       find (named username) stored = None) /\
   (forall (stored : list MainPure.Admin.t) (username : string),
       ~ In username (map MainPure.Admin.Username stored) ->
       find (pure_named username) stored = None)).
Proof.
  split; [|split; [|split]].
  - intros B g w req Hvalid Hfaults Hkey out. subst out.
    destruct (find _ (admins w)) as [a|] eqn:Hfound.
    + destruct (Main_login_found g req w a Hvalid Hfaults Hkey Hfound) as [Hresp Hkept].
      split; [exact Hkept|]. rewrite Hresp.
      destruct (CompareHashAndPassword _ _); reflexivity.
    + unfold Main.login, ShouldBindJSON. rewrite Hvalid.
      unfold run. cbn. rewrite Hfaults. cbn.
      change (fun a : models.Admin.t =>
                (models.Admin.Username a =? models.LoginRequest.Username req)%string)
        with (named (models.LoginRequest.Username req)).
      rewrite Hfound. split; reflexivity.
  - intros B ctrl w req Hvalid Hfaults Hkey out. subst out.
    destruct (find _ (admins w)) as [a|] eqn:Hfound.
    + destruct (Controllers_Login_found ctrl req w a Hvalid Hfaults Hkey Hfound) as [Hresp Hkept].
      split; [exact Hkept|]. rewrite Hresp.
      destruct (CompareHashAndPassword _ _); reflexivity.
    + unfold Controllers.Login, ShouldBindJSON. rewrite Hvalid.
      unfold run. cbn. rewrite Hfaults. cbn.
      change (fun a : models.Admin.t =>
                (models.Admin.Username a =? models.LoginRequest.Username req)%string)
        with (named (models.LoginRequest.Username req)).
      rewrite Hfound. split; reflexivity.
  - intros B r input w Hbody Hu Hp Hfaults out. subst out.
    destruct (find _ (admins w)) as [a|] eqn:Hfound.
    + destruct (MainPure_login_found r input w a Hbody Hu Hp Hfaults Hfound) as [Hresp Hkept].
      split; [exact Hkept|]. rewrite Hresp.
      destruct (CompareHashAndPassword _ _); reflexivity.
    + unfold MainPure.loginAdmin. rewrite Hbody.
      apply String.eqb_neq in Hu, Hp. rewrite Hu, Hp. simpl orb. cbv iota.
      unfold run. cbn. rewrite Hfaults. cbn.
      change (fun a : MainPure.Admin.t =>
                (MainPure.Admin.Username a =? MainPure.LoginInput.Username input)%string)
        with (pure_named (MainPure.LoginInput.Username input)).
      rewrite Hfound. split; reflexivity.
  - split; [|split; [|split]].
    + intros stored a Hnodup Hin. exact (find_unique models.Admin.Username stored a Hnodup Hin).
    + intros stored a Hnodup Hin. exact (find_unique MainPure.Admin.Username stored a Hnodup Hin).
    + intros stored username Hnone. exact (find_unknown models.Admin.Username stored username Hnone).
    + intros stored username Hnone.
      exact (find_unknown MainPure.Admin.Username stored username Hnone).
Qed.

Lemma C4_witness :
  (admins (snd (run (Main.login some_globals (B := Example.bcrypt)
                       (Parsed (models.LoginRequest.mk "a" "p"))) with_pitipaw)) = [pitipaw] /\
   fst (run (Main.login some_globals (B := Example.bcrypt)
               (Parsed (models.LoginRequest.mk "a" "p"))) with_pitipaw)
   = gin.JSON 200
       (login_answer "12345678901234567890123456789012" 7%N "a" "a@x.com"
          1600000000000000000 1700000000000000000))
  /\
  (admins (snd (run (Main.login some_globals (B := Example.bcrypt)
                       (Parsed (models.LoginRequest.mk "a" "wrong"))) with_pitipaw)) = [pitipaw] /\
   fst (run (Main.login some_globals (B := Example.bcrypt)
               (Parsed (models.LoginRequest.mk "a" "wrong"))) with_pitipaw)
   = gin.JSON 401 (gin.H [("error", JStr "Invalid credentials")]))
  /\
  (admins (snd (run (MainPure.loginAdmin (B := Example.bcrypt) (post_login "nobody" "p"))
                  with_pure_admin)) = [pure_admin] /\
   fst (run (MainPure.loginAdmin (B := Example.bcrypt) (post_login "nobody" "p")) with_pure_admin)
   = MainPure.writeError 401 "Username/password salah").
Proof.
  destruct C4_login_by_credentials as [Hmain [_ [Hpure _]]].
  split; [|split].
  - exact (Hmain Example.bcrypt some_globals with_pitipaw (models.LoginRequest.mk "a" "p")
             eq_refl eq_refl eq_refl).
  - exact (Hmain Example.bcrypt some_globals with_pitipaw (models.LoginRequest.mk "a" "wrong")
             eq_refl eq_refl eq_refl).
  - assert (Hu : "nobody" <> "") by discriminate.
    assert (Hp : "p" <> "") by discriminate.
    exact (Hpure Example.bcrypt (post_login "nobody" "p") (MainPure.LoginInput.mk "nobody" "p")
             with_pure_admin eq_refl Hu Hp eq_refl).
Defined.

(** C4 as stated fails where a username is stored twice, which
    [Controller.CreateAdmin] (like [createAdmin] of [main.go]) allows, for
    it inserts without looking the username up.  "a" registers with the
    password "p"; POST /api/admins then stores a second "a" with the
    password "q"; both are answered with Created.  The second stored admin
    has a hash that compares equal to "q", and yet the login of "a" with
    "q" is answered with Unauthorized: it goes by the first "a". *)
Lemma C4_counterexample :
  let registered := run (Controllers.Register (B := Example.bcrypt) (Parsed register_a))
                      Example.empty in
  let created := run (Controllers.CreateAdmin (B := Example.bcrypt) (Parsed second_a))
                   (snd registered) in
  let answer := fst (run (Controllers.Login (B := Example.bcrypt) keyed
                            (Parsed (models.LoginRequest.mk "a" "q"))) (snd created)) in
  Status (fst registered) = 201 /\
  Status (fst created) = 201 /\
  db_faults (snd created) = [] /\
  map models.Admin.Username (admins (snd created)) = ["a"; "a"] /\
  map (fun a => CompareHashAndPassword (Bcrypt := Example.bcrypt) (models.Admin.Password a) "q")
    (admins (snd created)) = [false; true] /\
  Status answer = 401.
Proof. vm_compute. repeat split; reflexivity. Qed.

(** ** The token *)

Section Token.
Context {B : Bcrypt}.

Lemma Main_login_token (g : Main.Globals) (body : Decoded models.LoginRequest.t) (w : Main.World) :
  Status (fst (run (Main.login g body) w)) = http.StatusOK ->
  exists req a,
    body = Parsed req /\ In a (admins w) /\
    models.Admin.Username a = models.LoginRequest.Username req /\
    String.length (Main.pasetoSecretKey g) = 32%nat /\
    field "token" (body_json (fst (run (Main.login g body) w)))
    = Some (JToken (issued_token (Main.pasetoSecretKey g) (models.Admin.ID a) (clock w))).
Proof.
  unfold Main.login, ShouldBindJSON.
  destruct body as [|req]; [discriminate|].
  destruct (models.LoginRequest.binding req); [|discriminate].
  unfold run. cbn.
  destruct (db_faults w) as [|[msg|] faults]; cbn; try discriminate.
  - destruct (find _ (admins w)) as [a|] eqn:Hfound; cbn; [|discriminate].
    destruct (CompareHashAndPassword _ _); cbn; [|discriminate].
    unfold paseto.Encrypt.
    destruct (String.length (Main.pasetoSecretKey g) =? 32)%nat eqn:Hkey; cbn; [|discriminate].
    intros _. exists req, a. apply find_some in Hfound as [Hin Hname].
    apply String.eqb_eq in Hname. apply Nat.eqb_eq in Hkey.
    repeat split; assumption || reflexivity.
  - destruct (find _ (admins w)) as [a|] eqn:Hfound; cbn; [|discriminate].
    destruct (CompareHashAndPassword _ _); cbn; [|discriminate].
    unfold paseto.Encrypt.
    destruct (String.length (Main.pasetoSecretKey g) =? 32)%nat eqn:Hkey; cbn; [|discriminate].
    intros _. exists req, a. apply find_some in Hfound as [Hin Hname].
    apply String.eqb_eq in Hname. apply Nat.eqb_eq in Hkey.
    repeat split; assumption || reflexivity.
Qed.

Lemma Controllers_Login_token (ctrl : Controllers.Controller) (body : Decoded models.LoginRequest.t)
      (w : Controllers.World) :
  Status (fst (run (Controllers.Login ctrl body) w)) = http.StatusOK ->
  exists req a,
    body = Parsed req /\ In a (admins w) /\
    models.Admin.Username a = models.LoginRequest.Username req /\
    String.length (Controllers.PasetoSecretKey ctrl) = 32%nat /\
    field "token" (body_json (fst (run (Controllers.Login ctrl body) w)))
    = Some (JToken (issued_token (Controllers.PasetoSecretKey ctrl) (models.Admin.ID a) (clock w))).
Proof.
  unfold Controllers.Login, ShouldBindJSON.
  destruct body as [|req]; [discriminate|].
  destruct (models.LoginRequest.binding req); [|discriminate].
  unfold run. cbn.
  destruct (db_faults w) as [|[msg|] faults]; cbn; try discriminate.
  - destruct (find _ (admins w)) as [a|] eqn:Hfound; cbn; [|discriminate].
    destruct (CompareHashAndPassword _ _); cbn; [|discriminate].
    unfold paseto.Encrypt.
    destruct (String.length (Controllers.PasetoSecretKey ctrl) =? 32)%nat eqn:Hkey; cbn; [|discriminate].
    intros _. exists req, a. apply find_some in Hfound as [Hin Hname].
    apply String.eqb_eq in Hname. apply Nat.eqb_eq in Hkey.
    repeat split; assumption || reflexivity.
  - destruct (find _ (admins w)) as [a|] eqn:Hfound; cbn; [|discriminate].
    destruct (CompareHashAndPassword _ _); cbn; [|discriminate].
    unfold paseto.Encrypt.
    destruct (String.length (Controllers.PasetoSecretKey ctrl) =? 32)%nat eqn:Hkey; cbn; [|discriminate].
    intros _. exists req, a. apply find_some in Hfound as [Hin Hname].
    apply String.eqb_eq in Hname. apply Nat.eqb_eq in Hkey.
    repeat split; assumption || reflexivity.
Qed.
End Token.

(** C5 (as the code has it).  Every login answered with OK by [login] of
    [main.go] or by [Controller.Login] carries a token whose payload has the
    hexadecimal identifier of the admin found under the request's username
    as subject, the time of the login as issued-at and exactly 24 hours
    later as expiration; the token is sealed under the server's secret key,
    which is 32 bytes long (as [init] and [config.Load] insist), with the
    fixed footer ["pitipaw-admin"]. *)
Theorem C5_token_payload_key_and_footer :
  (forall (B : Bcrypt) (g : Main.Globals) (body : Decoded models.LoginRequest.t) (w : Main.World),
      Status (fst (run (Main.login g body) w)) = http.StatusOK ->
      exists req a token,
        body = Parsed req /\ In a (admins w) /\
        models.Admin.Username a = models.LoginRequest.Username req /\
        field "token" (body_json (fst (run (Main.login g body) w))) = Some (JToken token) /\
        paseto.Subject (paseto.sealed_payload token) = Hex (models.Admin.ID a) /\
        paseto.IssuedAt (paseto.sealed_payload token) = clock w /\
        paseto.Expiration (paseto.sealed_payload token)
        = paseto.IssuedAt (paseto.sealed_payload token) + 24 * Hour /\
        paseto.sealed_key token = Main.pasetoSecretKey g /\
        String.length (paseto.sealed_key token) = 32%nat /\
        paseto.sealed_footer token = "pitipaw-admin")
  /\
  (forall (B : Bcrypt) (ctrl : Controllers.Controller) (body : Decoded models.LoginRequest.t)
          (w : Controllers.World),
      Status (fst (run (Controllers.Login ctrl body) w)) = http.StatusOK ->
      exists req a token,
        body = Parsed req /\ In a (admins w) /\
        models.Admin.Username a = models.LoginRequest.Username req /\
        field "token" (body_json (fst (run (Controllers.Login ctrl body) w))) = Some (JToken token) /\
        paseto.Subject (paseto.sealed_payload token) = Hex (models.Admin.ID a) /\
        paseto.IssuedAt (paseto.sealed_payload token) = clock w /\
        paseto.Expiration (paseto.sealed_payload token)
        = paseto.IssuedAt (paseto.sealed_payload token) + 24 * Hour /\
        paseto.sealed_key token = Controllers.PasetoSecretKey ctrl /\
        String.length (paseto.sealed_key token) = 32%nat /\
        paseto.sealed_footer token = "pitipaw-admin")
  /\
  (forall (L : GoLibrary) (env : string -> string) (g : Main.Globals),
      Main.init env = Some g -> String.length (Main.pasetoSecretKey g) = 32%nat)
  /\
  (forall (L : GoLibrary) (env : string -> option string) (cfg : config.AppConfig)
          (ctrl : Controllers.Controller),
      config.Load env = Some cfg -> Controllers.main_controller cfg = Some ctrl ->
      String.length (Controllers.PasetoSecretKey ctrl) = 32%nat).
Proof.
  split; [|split; [|split]].
  - intros B g body w Hok.
    destruct (Main_login_token g body w Hok) as [req [a [Hbody [Hin [Hname [Hkey Htoken]]]]]].
    exists req, a, (issued_token (Main.pasetoSecretKey g) (models.Admin.ID a) (clock w)).
    repeat split; assumption || reflexivity.
  - intros B ctrl body w Hok.
    destruct (Controllers_Login_token ctrl body w Hok) as [req [a [Hbody [Hin [Hname [Hkey Htoken]]]]]].
    exists req, a, (issued_token (Controllers.PasetoSecretKey ctrl) (models.Admin.ID a) (clock w)).
    repeat split; assumption || reflexivity.
  - exact init_key_length.
  - intros L env cfg ctrl Hload Hctrl.
    rewrite (main_controller_key L cfg ctrl Hctrl). exact (Load_key_length env cfg Hload).
Qed.

Lemma C5_witness :
  (exists req a token,
      Parsed (models.LoginRequest.mk "a" "p") = Parsed req /\ In a (admins (with_pitipaw (P := Main.Product.t))) /\
      models.Admin.Username a = models.LoginRequest.Username req /\
      field "token" (body_json (fst (run (Main.login some_globals (B := Example.bcrypt)
                                            (Parsed (models.LoginRequest.mk "a" "p"))) with_pitipaw)))
      = Some (JToken token) /\
      paseto.Subject (paseto.sealed_payload token) = Hex (models.Admin.ID a) /\
      paseto.IssuedAt (paseto.sealed_payload token) = 1700000000000000000 /\
      paseto.Expiration (paseto.sealed_payload token)
      = paseto.IssuedAt (paseto.sealed_payload token) + 24 * Hour /\
      paseto.sealed_key token = Main.pasetoSecretKey some_globals /\
      String.length (paseto.sealed_key token) = 32%nat /\
      paseto.sealed_footer token = "pitipaw-admin")
  /\
  String.length (Main.pasetoSecretKey some_globals) = 32%nat.
Proof.
  destruct C5_token_payload_key_and_footer as [Hmain [_ [Hinit _]]]. split.
  - apply (Hmain Example.bcrypt some_globals (Parsed (models.LoginRequest.mk "a" "p")) with_pitipaw).
    reflexivity.
  - apply (Hinit Example.library some_env some_globals). reflexivity.
Defined.

(** C5 as stated fails on the constant: the footer the token is sealed with
    is ["pitipaw-admin"], not ["footer"]. *)
Lemma C5_counterexample :
  exists token,
    field "token" (body_json (fst (run (Main.login some_globals (B := Example.bcrypt)
                                          (Parsed (models.LoginRequest.mk "a" "p"))) with_pitipaw)))
    = Some (JToken token) /\
    paseto.sealed_footer token = "pitipaw-admin" /\
    paseto.sealed_footer token <> "footer".
Proof.
  eexists. split; [reflexivity|]. split; [reflexivity | discriminate].
Qed.

(** ** What [createAdmin] stores *)

Lemma Main_createAdmin_keeps_password (admin : models.Admin.t) (w : Main.World) :
  db_faults w = [] ->
  models.Admin.ID admin = NilObjectID ->
  Status (fst (run (Main.createAdmin (Parsed admin)) w)) = http.StatusCreated /\
  admins (snd (run (Main.createAdmin (Parsed admin)) w))
  = (admins w ++ [models.Admin.mk (fresh (admins w)) (models.Admin.Username admin)
                    (models.Admin.Email admin) (models.Admin.Password admin) (clock w)])%list.
Proof.
  intros Hfaults Hid. unfold Main.createAdmin, ShouldBindJSON, models.Admin_binding.
  unfold run. cbn. rewrite Hfaults, Hid. cbn. use_fresh. cbn. split; reflexivity.
Qed.

Lemma Draft_createAdmin_keeps_password (admin : models.Admin.t) (w : Draft.World) :
  db_faults w = [] ->
  models.Admin.ID admin = NilObjectID ->
  Status (fst (run (Draft.createAdmin (Parsed admin)) w)) = http.StatusCreated /\
  admins (snd (run (Draft.createAdmin (Parsed admin)) w))
  = (admins w ++ [models.Admin.mk (fresh (admins w)) (models.Admin.Username admin)
                    (models.Admin.Email admin) (models.Admin.Password admin) (clock w)])%list.
Proof.
  intros Hfaults Hid. unfold Draft.createAdmin, ShouldBindJSON, models.Admin_binding.
  unfold run. cbn. rewrite Hfaults, Hid. cbn. use_fresh. cbn. split; reflexivity.
Qed.

(** [Controller.CreateAdmin] does what the other two miss: the stored
    password is what [bcrypt.GenerateFromPassword] returned. *)
Lemma Controllers_CreateAdmin_hashes (B : Bcrypt) (admin : models.Admin.t) (w : Controllers.World)
      salt rest hash :
  db_faults w = [] ->
  models.Admin.ID admin = NilObjectID ->
  salts w = salt :: rest ->
  GenerateFromPassword salt (models.Admin.Password admin) DefaultCost = Ok hash ->
  Status (fst (run (Controllers.CreateAdmin (Parsed admin)) w)) = http.StatusCreated /\
  admins (snd (run (Controllers.CreateAdmin (Parsed admin)) w))
  = (admins w ++ [models.Admin.mk (fresh (admins w)) (models.Admin.Username admin)
                    (models.Admin.Email admin) hash (clock w)])%list.
Proof.
  intros Hfaults Hid Hsalts Hhash. unfold Controllers.CreateAdmin, ShouldBindJSON, models.Admin_binding.
  unfold run. cbn. rewrite Hsalts. cbn. rewrite Hhash, Hfaults, Hid. cbn. use_fresh. cbn.
  split; reflexivity.
Qed.

(** Reading the admins: every password is cleared before the list is written. *)
Lemma Main_getAdmins_clears_passwords (w : Main.World) :
  db_faults w = [] ->
  fst (run Main.getAdmins w)
  = gin.JSON http.StatusOK
      (JObj [("admins", models.slice_json models.Admin_json
                          (map (models.Admin.with_Password "") (admins w)))]).
Proof.
  intros Hfaults. unfold Main.getAdmins, run. cbn. rewrite Hfaults. cbn.
  rewrite map_id. reflexivity.
Qed.

(** C3, at the failing input.  POST /api/admins with username "budi" and
    password "rahasia": [createAdmin] of [main.go] (and of the draft before
    it) answers Created and the document it persists holds "rahasia" itself.
    [Controller.CreateAdmin] persists the hash for the same body, and so
    does [register] of [main.go] itself for the same credentials.  The admin
    [main.go] stored this way cannot log in: [login] compares with bcrypt. *)
Theorem C3_createAdmin_stores_the_plaintext :
  (Status (fst (run (Main.createAdmin (Parsed budi)) Example.empty)) = 201 /\
   map models.Admin.Password (admins (snd (run (Main.createAdmin (Parsed budi)) Example.empty)))
   = ["rahasia"])
  /\
  (Status (fst (run (Draft.createAdmin (Parsed budi)) Example.empty)) = 201 /\
   map models.Admin.Password (admins (snd (run (Draft.createAdmin (Parsed budi)) Example.empty)))
   = ["rahasia"])
  /\
  map models.Admin.Password
    (admins (snd (run (Controllers.CreateAdmin (B := Example.bcrypt) (Parsed budi)) Example.empty)))
  = ["$2a$rahasia$salt1"]
  /\
  map models.Admin.Password
    (admins (snd (run (Main.register (B := Example.bcrypt)
                         (Parsed (models.RegisterRequest.mk "budi" "budi@example.com" "rahasia")))
                    Example.empty)))
  = ["$2a$rahasia$salt1"]
  /\
  Status (fst (run (Main.login some_globals (B := Example.bcrypt)
                      (Parsed (models.LoginRequest.mk "budi" "rahasia")))
                 (snd (run (Main.createAdmin (Parsed budi)) Example.empty)))) = 401.
Proof. vm_compute. repeat split; reflexivity. Qed.

(** * Statistics *)

Section Totals.
Context {S : Server}.

(** Reading the aggregation's answer back gives the server's sum where there
    is a group, and 0 where the collection is empty. *)
Lemma total_of_group_total (docs : list Main.Product.t) :
  models.total_of (group_total Main_value docs) = Main_total docs.
Proof. destruct docs; reflexivity. Qed.

(** What [Render] makes of the statistics: the body where the total is a
    finite double, the bare status where it is not. *)
Lemma Render_stats (code totalProducts totalAdmins : Z) (totalValue : float64) :
  gin.Render code (JObj [("stats", models.Stats_json
                                     (models.Stats.mk totalProducts totalAdmins totalValue))])
  = if PrimFloat.is_finite totalValue
    then gin.JSON code
           (JObj [("stats", JObj [("total_products", JInt totalProducts);
                                  ("total_admins", JInt totalAdmins);
                                  ("total_value", JFloat totalValue)])])
    else mkResponse code NoBody.
Proof.
  unfold gin.Render, gin.JSON, models.Stats_json. cbn [encodable forallb snd andb].
  cbn [models.Stats.TotalProducts models.Stats.TotalAdmins models.Stats.TotalValue].
  destruct (PrimFloat.is_finite totalValue); reflexivity.
Qed.

Lemma Main_getStats_reports (w : Main.World) :
  db_faults w = [] ->
  fst (run Main.getStats w)
  = if PrimFloat.is_finite (Main_total (products w))
    then gin.JSON http.StatusOK
           (JObj [("stats", JObj [("total_products", JInt (count (products w)));
                                  ("total_admins", JInt (count (admins w)));
                                  ("total_value", JFloat (Main_total (products w)))])])
    else mkResponse http.StatusOK NoBody.
Proof.
  intros Hfaults. unfold Main.getStats, run.
  cbn -[gin.Render group_total models.total_of]. rewrite Hfaults.
  cbn -[gin.Render group_total models.total_of].
  change (fun p : Main.Product.t => (Main.Product.Price p * float_of_Z (Main.Product.Stock p))%float)
    with Main_value.
  rewrite total_of_group_total. apply Render_stats.
Qed.

Lemma Controllers_GetStats_reports (w : Controllers.World) :
  db_faults w = [] ->
  exists value,
    fst (run Controllers.GetStats w)
    = gin.JSON http.StatusOK
        (JObj [("stats", JObj [("total_products", JInt (count (products w)));
                               ("total_admins", JInt (count (admins w)));
                               ("total_value", JFloat value)])]).
Proof.
  intros Hfaults. exists 0%float. unfold Controllers.GetStats, run.
  cbn -[gin.Render group_total]. rewrite Hfaults. cbn -[gin.Render group_total].
  unfold group_total. destruct (products w); reflexivity.
Qed.

(** With the cursor as the driver documents it ([All] leaves out what [Next]
    has moved past), [Controller.GetStats] never reads the one group: the
    total value it reports is 0 whatever the products are. *)
Remark Controllers_GetStats_total_value_is_zero (w : Controllers.World) :
  Status (fst (run Controllers.GetStats w)) = http.StatusOK ->
  exists stats,
    field "stats" (body_json (fst (run Controllers.GetStats w))) = Some stats /\
    field "total_value" stats = Some (JFloat 0%float).
Proof.
  unfold Controllers.GetStats, run. cbn -[gin.Render group_total].
  destruct (db_faults w) as [|[m1|] [|[m2|] [|[m3|] [|[m4|] [|[m5|] faults]]]]];
    cbn -[gin.Render group_total];
    try discriminate;
    unfold group_total; destruct (products w); intros _; eexists; split; reflexivity.
Qed.
End Totals.

Lemma MainPure_statsHandler_reports (w : MainPure.World) :
  db_faults w = [] ->
  fst (run (MainPure.statsHandler "GET") w)
  = MainPure.writeJSON http.StatusOK
      (JObj [("status", JStr "ok");
             ("total_admins", JInt (count (admins w)));
             ("total_products", JInt (count (products w)))]).
Proof.
  intros Hfaults. unfold MainPure.statsHandler, run. cbn. rewrite Hfaults. reflexivity.
Qed.




(** ** Database failures in the statistics handlers *)

Ltac give_calls :=
  first [ refine (ex_intro _ [] (conj eq_refl _))
        | refine (ex_intro _ [_] (conj eq_refl _))
        | refine (ex_intro _ [_; _] (conj eq_refl _))
        | refine (ex_intro _ [_; _; _] (conj eq_refl _))
        | refine (ex_intro _ [_; _; _; _] (conj eq_refl _))
        | refine (ex_intro _ [_; _; _; _; _] (conj eq_refl _)) ];
  split;
  [ repeat (constructor; [simpl; intuition discriminate|]); constructor
  | repeat constructor ].

Ltac each_outcome w :=
  destruct (db_faults w) as [|[?|] [|[?|] [|[?|] [|[?|] [|[?|] ?]]]]];
  cbn -[gin.Render group_total models.total_of].

Lemma MainPure_stats_calls (w : MainPure.World) :
  issued_once_under_timeout w (snd (run (MainPure.statsHandler "GET") w)).
Proof.
  unfold issued_once_under_timeout, MainPure.statsHandler, run. cbn.
  each_outcome w; give_calls.
Qed.

Lemma MainPure_stats_surfaces (w : MainPure.World) :
  (outcome 0 w <> None \/ outcome 1 w <> None) ->
  Status (fst (run (MainPure.statsHandler "GET") w)) = http.StatusInternalServerError.
Proof.
  unfold outcome, MainPure.statsHandler, run. cbn.
  each_outcome w; intros [Hf | Hf]; try reflexivity; contradiction Hf; reflexivity.
Qed.

Section Failures.
Context {S : Server}.

Lemma Main_stats_calls (w : Main.World) :
  issued_once_under_timeout w (snd (run Main.getStats w)).
Proof.
  unfold issued_once_under_timeout, Main.getStats, run.
  cbn -[gin.Render group_total models.total_of].
  each_outcome w; give_calls.
Qed.

Lemma Controllers_stats_calls (w : Controllers.World) :
  issued_once_under_timeout w (snd (run Controllers.GetStats w)).
Proof.
  unfold issued_once_under_timeout, Controllers.GetStats, run.
  cbn -[gin.Render group_total models.total_of].
  each_outcome w; unfold group_total; destruct (products w);
    cbn -[gin.Render models.total_of]; give_calls.
Qed.

Lemma Main_stats_aggregate_failure (w : Main.World) :
  outcome 2 w <> None ->
  fst (run Main.getStats w)
  = gin.JSON http.StatusInternalServerError
      (gin.H [("error", JStr (match outcome 2 w with Some msg => msg | None => "" end))]).
Proof.
  unfold outcome, Main.getStats, run. cbn -[gin.Render group_total models.total_of].
  each_outcome w; intros Hf; try reflexivity; contradiction Hf; reflexivity.
Qed.

Lemma Controllers_stats_aggregate_failure (w : Controllers.World) :
  outcome 2 w <> None ->
  fst (run Controllers.GetStats w)
  = gin.JSON http.StatusInternalServerError
      (gin.H [("error", JStr (match outcome 2 w with Some msg => msg | None => "" end))]).
Proof.
  unfold outcome, Controllers.GetStats, run. cbn -[gin.Render group_total models.total_of].
  each_outcome w; intros Hf; try reflexivity; contradiction Hf; reflexivity.
Qed.

Lemma Main_stats_count_failure (w : Main.World) :
  outcome 2 w = None ->
  Status (fst (run Main.getStats w)) = http.StatusOK /\
  if PrimFloat.is_finite (Main_reported_total w)
  then exists stats,
      field "stats" (body_json (fst (run Main.getStats w))) = Some stats /\
      field "total_products" stats = Some (JInt (count_or_zero (outcome 0 w) (products w))) /\
      field "total_admins" stats = Some (JInt (count_or_zero (outcome 1 w) (admins w))) /\
      field "total_value" stats = Some (JFloat (Main_reported_total w))
  else Body (fst (run Main.getStats w)) = NoBody.
Proof.
  unfold Main_reported_total, outcome, Main.getStats, run.
  cbn -[gin.Render group_total models.total_of].
  each_outcome w; intros Hf; try discriminate Hf;
    rewrite ?total_of_group_total; cbn [models.total_of fst];
    rewrite Render_stats;
    match goal with
    | |- context [PrimFloat.is_finite ?t] => destruct (PrimFloat.is_finite t) eqn:Hfinite
    end;
    try discriminate Hfinite;
    first [ split; [reflexivity | eexists; repeat split; reflexivity]
          | split; reflexivity ].
Qed.

Lemma Controllers_stats_count_failure (w : Controllers.World) :
  outcome 2 w = None ->
  Status (fst (run Controllers.GetStats w)) = http.StatusOK /\
  exists stats,
    field "stats" (body_json (fst (run Controllers.GetStats w))) = Some stats /\
    field "total_products" stats = Some (JInt (count_or_zero (outcome 0 w) (products w))) /\
    field "total_admins" stats = Some (JInt (count_or_zero (outcome 1 w) (admins w))).
Proof.
  unfold outcome, Controllers.GetStats, run. cbn -[gin.Render group_total models.total_of].
  each_outcome w; intros Hf; try discriminate Hf;
    unfold group_total; destruct (products w);
    (split; [reflexivity | eexists; split; [reflexivity | split; reflexivity]]).
Qed.
End Failures.




(** * Identifiers in hexadecimal *)

Section HexFacts.

Lemma hex_value_hex_digit (d : N) : (d < 16)%N -> hex_value (hex_digit d) = Some d.
Proof.
  intros Hd.
  assert (Hcases : In d [0; 1; 2; 3; 4; 5; 6; 7; 8; 9; 10; 11; 12; 13; 14; 15]%N).
  { destruct d as [|p]; [left; reflexivity|].
    do 16 (destruct p as [p|p|]; try lia; simpl; auto 20). }
  simpl in Hcases.
  repeat (destruct Hcases as [<-|Hcases]; [reflexivity|]). contradiction.
Qed.

Lemma length_hex_digits (k : nat) (n : N) (acc : string) :
  String.length (hex_digits k n acc) = (k + String.length acc)%nat.
Proof.
  revert n acc. induction k as [|k IH]; intros n acc; simpl; [reflexivity|].
  rewrite IH. simpl. lia.
Qed.

Lemma hex_number_hex_digits (k : nat) (n : N) (acc : string) (a : N) :
  hex_number (hex_digits k n acc) a
  = hex_number acc (a * 16 ^ N.of_nat k + n mod 16 ^ N.of_nat k)%N.
Proof.
  revert n acc a. induction k as [|k IH]; intros n acc a.
  - simpl. rewrite N.mod_1_r. f_equal. lia.
  - cbn [hex_digits]. rewrite IH. cbn [hex_number].
    rewrite hex_value_hex_digit by (apply N.mod_lt; lia).
    f_equal. rewrite Nat2N.inj_succ, N.pow_succ_r'.
    rewrite (N.Div0.mod_mul_r n 16 (16 ^ N.of_nat k)). lia.
Qed.

(** [ObjectIDFromHex] reads back what [Hex] wrote. *)
Lemma ObjectIDFromHex_Hex (id : ObjectID) : twelve_bytes id -> ObjectIDFromHex (Hex id) = Ok id.
Proof.
  intros Hid. unfold ObjectIDFromHex, Hex.
  rewrite length_hex_digits. simpl negb. cbv iota.
  rewrite hex_number_hex_digits. cbn [hex_number].
  rewrite N.mod_small; [reflexivity|].
  unfold twelve_bytes in Hid. change (16 ^ N.of_nat 24)%N with (2 ^ 96)%N. exact Hid.
Qed.

End HexFacts.

(** * Documents by identifier *)

Section IdentifierFacts.
Context {D : Type} `{Document D}.

Lemma find_by_id_absent (id : ObjectID) (docs : list D) :
  has_id id docs = false -> find (fun d => N.eqb (doc_id d) id) docs = None.
Proof.
  unfold has_id. induction docs as [|d docs IH]; simpl; [reflexivity|].
  destruct (N.eqb (doc_id d) id); simpl; [discriminate | exact IH].
Qed.

Lemma find_by_id_present (id : ObjectID) (docs : list D) :
  has_id id docs = true ->
  exists d, find (fun d => N.eqb (doc_id d) id) docs = Some d /\ doc_id d = id /\ In d docs.
Proof.
  unfold has_id. induction docs as [|d docs IH]; simpl; [discriminate|].
  destruct (N.eqb (doc_id d) id) eqn:Heq; simpl.
  - intros _. exists d. apply N.eqb_eq in Heq. auto.
  - intros Hin. destruct (IH Hin) as [d' [Hfind [Hid Hd']]]. exists d'. auto.
Qed.

Lemma find_by_id_unique (docs : list D) (d : D) :
  NoDup (map doc_id docs) -> In d docs ->
  find (fun x => N.eqb (doc_id x) (doc_id d)) docs = Some d.
Proof.
  induction docs as [|x docs IH]; simpl; [contradiction|].
  intros Hnodup [->|Hin]; [rewrite N.eqb_refl; reflexivity|].
  inversion Hnodup as [|? ? Hnotin Hrest]; subst.
  destruct (N.eqb (doc_id x) (doc_id d)) eqn:Heq; [|exact (IH Hrest Hin)].
  exfalso. apply Hnotin. apply N.eqb_eq in Heq. rewrite Heq. apply in_map. exact Hin.
Qed.

Lemma has_id_In (id : ObjectID) (docs : list D) :
  has_id id docs = true <-> In id (map doc_id docs).
Proof.
  unfold has_id. rewrite existsb_exists, in_map_iff. split.
  - intros [d [Hin Heq]]. exists d. apply N.eqb_eq in Heq. auto.
  - intros [d [Heq Hin]]. exists d. split; [exact Hin | apply N.eqb_eq; exact Heq].
Qed.

Lemma has_id_app (id : ObjectID) (docs more : list D) :
  has_id id (docs ++ more) = has_id id docs || has_id id more.
Proof. unfold has_id. apply existsb_app. Qed.

Lemma remove_id_absent (id : ObjectID) (docs : list D) :
  has_id id docs = false -> remove_id id docs = docs.
Proof.
  unfold has_id. induction docs as [|d docs IH]; simpl; [reflexivity|].
  destruct (N.eqb (doc_id d) id); simpl; [discriminate|].
  intros Hrest. rewrite (IH Hrest). reflexivity.
Qed.

Lemma remove_id_app_new (id : ObjectID) (docs : list D) (d : D) :
  has_id id docs = false -> doc_id d = id -> remove_id id (docs ++ [d]) = docs.
Proof.
  unfold has_id. intros Hnew Hid. induction docs as [|x docs IH]; simpl in *.
  - rewrite Hid, N.eqb_refl. reflexivity.
  - destruct (N.eqb (doc_id x) id); simpl in *; [discriminate|].
    rewrite (IH Hnew). reflexivity.
Qed.

Lemma length_remove_id (id : ObjectID) (docs : list D) :
  has_id id docs = true -> S (length (remove_id id docs)) = length docs.
Proof.
  unfold has_id. induction docs as [|d docs IH]; simpl; [discriminate|].
  destruct (N.eqb (doc_id d) id); simpl; [reflexivity|].
  intros Hrest. rewrite (IH Hrest). reflexivity.
Qed.

(** With identifiers unique, deleting one document by identifier leaves
    exactly the documents with another identifier. *)
Lemma remove_id_filter (id : ObjectID) (docs : list D) :
  NoDup (map doc_id docs) ->
  remove_id id docs = filter (fun d => negb (N.eqb (doc_id d) id)) docs.
Proof.
  induction docs as [|d docs IH]; simpl; [reflexivity|].
  intros Hnodup. inversion Hnodup as [|? ? Hnotin Hrest]; subst.
  destruct (N.eqb (doc_id d) id) eqn:Heq; simpl.
  - apply N.eqb_eq in Heq. subst id.
    symmetry. clear IH Hnodup Hrest.
    induction docs as [|x docs IH]; simpl; [reflexivity|].
    simpl in Hnotin.
    destruct (N.eqb (doc_id x) (doc_id d)) eqn:Hx; simpl.
    + exfalso. apply Hnotin. left. apply N.eqb_eq. exact Hx.
    + rewrite IH by tauto. reflexivity.
  - rewrite (IH Hrest). reflexivity.
Qed.

Lemma has_id_filter_others (id : ObjectID) (docs : list D) :
  has_id id (filter (fun d => negb (N.eqb (doc_id d) id)) docs) = false.
Proof.
  unfold has_id. induction docs as [|d docs IH]; simpl; [reflexivity|].
  destruct (N.eqb (doc_id d) id) eqn:Heq; simpl; [exact IH|].
  rewrite Heq. exact IH.
Qed.

Lemma filter_others_absent (id : ObjectID) (docs : list D) :
  has_id id docs = false -> filter (fun d => negb (N.eqb (doc_id d) id)) docs = docs.
Proof.
  unfold has_id. induction docs as [|d docs IH]; simpl; [reflexivity|].
  destruct (N.eqb (doc_id d) id); simpl; [discriminate|].
  intros Hrest. rewrite (IH Hrest). reflexivity.
Qed.

End IdentifierFacts.

(** The lemmas on documents, read on the fields of the structs. *)
Ltac in_fields H :=
  cbn [doc_id with_id MainPure.Product_Document MainPure.Admin_Document models.Admin_Document
       Main.Product_Document Controllers.Product_Document] in H.

(** * [main-pure.go]: products by identifier *)

Lemma Hex_not_empty (id : ObjectID) : String.eqb (Hex id) "" = false.
Proof.
  apply String.eqb_neq. intros Heq.
  pose proof (length_hex_digits 24 id "") as Hlen. fold (Hex id) in Hlen.
  rewrite Heq in Hlen. discriminate Hlen.
Qed.


(** X1.  A product created through POST /api/products can be fetched under the
    identifier the answer carries: GET /api/products/<_id> answers OK with
    the name, price, description and image URL that were sent. *)
Theorem MainPure_created_product_is_fetched_by_its_id
    (update : string -> MainPure.Handler)
    (r : Request MainPure.ProductInput.t) (input : MainPure.ProductInput.t) (w : MainPure.World) :
  Method r = "POST" ->
  RequestBody r = Parsed input ->
  MainPure.ProductInput.Name input <> "" ->
  (MainPure.ProductInput.Price input <=? 0)%float = false ->
  db_faults w = [] ->
  twelve_bytes (fresh (products w)) ->
  let created := run (MainPure.productsHandler r) w in
  exists id,
    Status (fst created) = http.StatusCreated /\
    field "_id" (body_json (fst created)) = Some (JStr id) /\
    fst (run (MainPure.productHandler update "GET" ("/api/products/" ++ id)) (snd created))
    = MainPure.writeJSON http.StatusOK
        (JObj [("_id", JStr id);
               ("name", JStr (MainPure.ProductInput.Name input));
               ("price", JFloat (MainPure.ProductInput.Price input));
               ("description", JStr (MainPure.ProductInput.Description input));
               ("image_url", JStr (MainPure.ProductInput.ImageURL input))]).
Proof.
  intros Hmethod Hbody Hname Hprice Hfaults Hfits created. subst created.
  exists (Hex (fresh (products w))).
  unfold MainPure.productsHandler. rewrite Hmethod. simpl String.eqb. cbv iota.
  unfold MainPure.createProduct. rewrite Hbody.
  apply String.eqb_neq in Hname. rewrite Hname, Hprice. simpl orb. cbv iota.
  unfold run. cbn -[Hex]. rewrite Hfaults. cbn -[Hex]. use_fresh. cbn -[Hex].
  split; [reflexivity|]. split; [reflexivity|].
  unfold MainPure.productHandler.
  unfold strings.TrimPrefix. cbn -[Hex].
  rewrite Hex_not_empty. cbv iota.
  unfold MainPure.getProduct. rewrite (ObjectIDFromHex_Hex _ Hfits). cbn -[Hex].
  rewrite find_app_new; [reflexivity | | apply N.eqb_refl].
  exact (find_by_id_absent (fresh (products w)) (products w) (fresh_is_new (products w))).
Qed.

Lemma MainPure_created_product_is_fetched_by_its_id_witness :
  exists id,
    Status (fst (run (MainPure.productsHandler gadget_request) Example.empty)) = 201 /\
    field "_id" (body_json (fst (run (MainPure.productsHandler gadget_request) Example.empty)))
    = Some (JStr id) /\
    fst (run (MainPure.productHandler MainPure.getProduct "GET" ("/api/products/" ++ id))
           (snd (run (MainPure.productsHandler gadget_request) Example.empty)))
    = MainPure.writeJSON 200
        (JObj [("_id", JStr id); ("name", JStr "Gadget"); ("price", JFloat 1.5%float);
               ("description", JStr "a gadget"); ("image_url", JStr "")]).
Proof.
  exact (MainPure_created_product_is_fetched_by_its_id MainPure.getProduct gadget_request gadget
           Example.empty eq_refl eq_refl ltac:(discriminate) eq_refl eq_refl ltac:(reflexivity)).
Defined.

(** X2.  DELETE /api/products/<id>, identifiers being unique: the answer is OK if
    a product has the identifier and NotFound if none has; afterwards the
    collection holds exactly the products with another identifier, in their
    order, the admins are as before, and GET /api/products/<id> answers
    NotFound. *)
Theorem MainPure_deleteProduct_removes_that_product_only
    (update : string -> MainPure.Handler) (id : string) (objID : ObjectID) (w : MainPure.World) :
  ObjectIDFromHex id = Ok objID ->
  db_faults w = [] ->
  NoDup (map MainPure.Product.ID (products w)) ->
  let out := run (MainPure.productHandler update "DELETE" ("/api/products/" ++ id)) w in
  Status (fst out) = (if has_id objID (products w) then http.StatusOK else http.StatusNotFound) /\
  products (snd out) = filter (fun p => negb (N.eqb (MainPure.Product.ID p) objID)) (products w) /\
  admins (snd out) = admins w /\
  Status (fst (run (MainPure.productHandler update "GET" ("/api/products/" ++ id)) (snd out)))
  = http.StatusNotFound.
Proof.
  intros Hid Hfaults Hnodup out. subst out.
  pose proof (@remove_id_filter _ MainPure.Product_Document objID (products w) Hnodup) as Hrest.
  pose proof (@has_id_filter_others _ MainPure.Product_Document objID (products w)) as Hgone.
  apply find_by_id_absent in Hgone. in_fields Hrest. in_fields Hgone.
  assert (Hnonempty : String.eqb id "" = false).
  { destruct id; [discriminate Hid | reflexivity]. }
  unfold MainPure.productHandler.
  change (strings.TrimPrefix ("/api/products/" ++ id) "/api/products/") with id.
  rewrite Hnonempty. simpl String.eqb. cbv iota.
  unfold MainPure.deleteProduct. rewrite Hid.
  unfold run. cbn -[has_id remove_id]. rewrite Hfaults. cbn -[has_id remove_id].
  destruct (has_id objID (products w)) eqn:Hhas; cbn -[has_id remove_id].
  - split; [reflexivity|]. split; [exact Hrest|].
    split; [reflexivity|].
    unfold MainPure.getProduct. rewrite Hid. cbn -[has_id remove_id].
    rewrite Hrest, Hgone. reflexivity.
  - split; [reflexivity|].
    split; [symmetry; exact (filter_others_absent objID (products w) Hhas)|].
    split; [reflexivity|].
    unfold MainPure.getProduct. rewrite Hid. cbn -[has_id remove_id].
    apply find_by_id_absent in Hhas. in_fields Hhas. rewrite Hhas. reflexivity.
Qed.

Lemma MainPure_deleteProduct_removes_that_product_only_witness :
  let out := run (MainPure.productHandler MainPure.getProduct "DELETE"
                    "/api/products/000000000000000000000001") pure_shop in
  Status (fst out) = 200 /\
  products (snd out) = [] /\
  admins (snd out) = [pure_admin] /\
  Status (fst (run (MainPure.productHandler MainPure.getProduct "GET"
                      "/api/products/000000000000000000000001") (snd out))) = 404.
Proof.
  assert (Hnodup : NoDup (map MainPure.Product.ID (products pure_shop)))
    by (constructor; [intros [] | constructor]).
  exact (MainPure_deleteProduct_removes_that_product_only MainPure.getProduct
           "000000000000000000000001" 1%N pure_shop eq_refl eq_refl Hnodup).
Defined.


(** * [main-pure.go]: the life of an admin account *)

(** X3.  An admin registered through POST /api/register and then deleted through
    DELETE /api/admins/<_id>, with the identifier the registration answered:
    the deletion answers OK, the admins collection is what it was before the
    registration, and the account can no longer log in. *)
Theorem MainPure_deleted_admin_cannot_log_in
    (B : Bcrypt) (input : MainPure.AdminInput.t) (w : MainPure.World) (salt : string)
    (rest : list string) (hash : string) :
  MainPure.AdminInput.Username input <> "" ->
  MainPure.AdminInput.Password input <> "" ->
  db_faults w = [] ->
  salts w = salt :: rest ->
  GenerateFromPassword salt (MainPure.AdminInput.Password input) DefaultCost = Ok hash ->
  find (pure_named (MainPure.AdminInput.Username input)) (admins w) = None ->
  twelve_bytes (fresh (admins w)) ->
  let registered :=
    run (MainPure.registerHandler (mkRequest "POST" "/api/register" (Parsed input))) w in
  exists id,
    Status (fst registered) = http.StatusCreated /\
    field "_id" (body_json (fst registered)) = Some (JStr id) /\
    let deleted := run (MainPure.adminHandler "DELETE" ("/api/admins/" ++ id)) (snd registered) in
    Status (fst deleted) = http.StatusOK /\
    admins (snd deleted) = admins w /\
    Status (fst (run (MainPure.loginAdmin
                        (mkRequest "POST" "/api/login"
                           (Parsed (MainPure.LoginInput.mk (MainPure.AdminInput.Username input)
                                      (MainPure.AdminInput.Password input)))))
                   (snd deleted)))
    = http.StatusUnauthorized.
Proof.
  intros Hu Hp Hfaults Hsalts Hhash Hnew Hfits registered. subst registered.
  exists (Hex (fresh (admins w))).
  pose proof (@remove_id_app_new _ MainPure.Admin_Document (fresh (admins w)) (admins w)
                (MainPure.Admin.mk (fresh (admins w)) (MainPure.AdminInput.Username input) hash)
                (fresh_is_new (admins w)) eq_refl) as Hback.
  assert (Hpresent : has_id (fresh (admins w))
                       (admins w ++ [MainPure.Admin.mk (fresh (admins w))
                                       (MainPure.AdminInput.Username input) hash]) = true).
  { rewrite has_id_app. unfold has_id at 2. simpl existsb. rewrite N.eqb_refl.
    apply orb_true_r. }
  unfold MainPure.registerHandler, MainPure.createAdmin. cbn [Method RequestBody].
  apply String.eqb_neq in Hu, Hp. rewrite Hu, Hp. simpl orb. simpl negb. cbv iota.
  unfold run. cbn -[Hex has_id remove_id]. rewrite Hfaults. cbn -[Hex has_id remove_id].
  change (fun a : MainPure.Admin.t =>
            (MainPure.Admin.Username a =? MainPure.AdminInput.Username input)%string)
    with (pure_named (MainPure.AdminInput.Username input)).
  rewrite Hnew. cbn -[Hex has_id remove_id]. rewrite Hsalts. cbn -[Hex has_id remove_id].
  rewrite Hhash. cbn -[Hex has_id remove_id].
  rewrite (fresh_is_new (admins w)). cbn -[Hex has_id remove_id].
  split; [reflexivity|]. split; [reflexivity|].
  unfold MainPure.adminHandler. simpl negb. cbv iota.
  unfold strings.TrimPrefix. cbn -[Hex has_id remove_id].
  rewrite Hex_not_empty. cbv iota.
  unfold MainPure.deleteAdmin. rewrite (ObjectIDFromHex_Hex _ Hfits).
  cbn -[Hex has_id remove_id].
  rewrite Hpresent. cbn -[Hex has_id remove_id]. rewrite Hback.
  split; [reflexivity|]. split; [reflexivity|].
  unfold MainPure.loginAdmin. cbn [RequestBody MainPure.LoginInput.Username MainPure.LoginInput.Password].
  rewrite Hu, Hp. simpl orb. cbv iota. cbn -[Hex has_id remove_id].
  change (fun a : MainPure.Admin.t =>
            (MainPure.Admin.Username a =? MainPure.AdminInput.Username input)%string)
    with (pure_named (MainPure.AdminInput.Username input)).
  rewrite Hnew. reflexivity.
Qed.

Lemma MainPure_deleted_admin_cannot_log_in_witness :
  let registered :=
    run (MainPure.registerHandler (B := Example.bcrypt)
           (mkRequest "POST" "/api/register" (Parsed (MainPure.AdminInput.mk "a" "p"))))
      Example.empty in
  exists id,
    Status (fst registered) = 201 /\
    field "_id" (body_json (fst registered)) = Some (JStr id) /\
    let deleted := run (MainPure.adminHandler "DELETE" ("/api/admins/" ++ id)) (snd registered) in
    Status (fst deleted) = 200 /\
    admins (snd deleted) = [] /\
    Status (fst (run (MainPure.loginAdmin (B := Example.bcrypt)
                        (mkRequest "POST" "/api/login" (Parsed (MainPure.LoginInput.mk "a" "p"))))
                   (snd deleted))) = 401.
Proof.
  exact (MainPure_deleted_admin_cannot_log_in Example.bcrypt (MainPure.AdminInput.mk "a" "p")
           Example.empty "salt1" ["salt2"] "$2a$p$salt1"
           ltac:(discriminate) ltac:(discriminate) eq_refl eq_refl eq_refl eq_refl
           ltac:(reflexivity)).
Defined.

(** * [main-pure.go]: listing the products *)

(** X4.  GET /api/products answers OK with the stored products in the order of
    the collection, and with [null] for an empty collection.  After a
    product is created, the list is the one from before followed by the
    answer of the creation. *)
Theorem MainPure_products_are_listed_in_insertion_order
    (r : Request MainPure.ProductInput.t) (input : MainPure.ProductInput.t) (w : MainPure.World) :
  Method r = "POST" ->
  RequestBody r = Parsed input ->
  MainPure.ProductInput.Name input <> "" ->
  (MainPure.ProductInput.Price input <=? 0)%float = false ->
  db_faults w = [] ->
  let list := mkRequest "GET" "/api/products" Malformed in
  let created := run (MainPure.productsHandler r) w in
  run (MainPure.productsHandler list) w
  = (MainPure.writeJSON http.StatusOK
       (match products w with
        | [] => JNull
        | _ :: _ => JArr (map MainPure.Product_json (products w))
        end),
     set_db [] (mkCall OpCursorAll "products" (WithTimeout 10)
                :: mkCall OpFind "products" (WithTimeout 10) :: db_calls w) w) /\
  fst (run (MainPure.productsHandler list) (snd created))
  = MainPure.writeJSON http.StatusOK
      (JArr (map MainPure.Product_json (products w) ++ [body_json (fst created)])).
Proof.
  intros Hmethod Hbody Hname Hprice Hfaults list created. subst list created.
  split.
  - unfold MainPure.productsHandler, MainPure.getProducts, run. cbn. rewrite Hfaults. cbn.
    rewrite map_id. destruct (products w); reflexivity.
  - unfold MainPure.productsHandler. cbn [Method]. rewrite Hmethod. simpl String.eqb. cbv iota.
    unfold MainPure.createProduct. rewrite Hbody.
    apply String.eqb_neq in Hname. rewrite Hname, Hprice. simpl orb. cbv iota.
    unfold run. cbn -[Hex]. rewrite Hfaults. cbn -[Hex]. use_fresh. cbn -[Hex].
    rewrite map_id. unfold MainPure.slice_json.
    destruct (products w) as [|p rest]; [reflexivity|].
    simpl app. cbv iota. rewrite !map_cons, map_app. reflexivity.
Qed.

Lemma MainPure_products_are_listed_in_insertion_order_witness :
  fst (run (MainPure.productsHandler (mkRequest "GET" "/api/products" Malformed)) Example.empty)
  = MainPure.writeJSON 200 JNull /\
  exists created,
    fst (run (MainPure.productsHandler (mkRequest "GET" "/api/products" Malformed))
           (snd (run (MainPure.productsHandler gadget_request) Example.empty)))
    = MainPure.writeJSON 200 (JArr [created]) /\
    field "name" created = Some (JStr "Gadget").
Proof.
  destruct (MainPure_products_are_listed_in_insertion_order gadget_request gadget Example.empty
              eq_refl eq_refl ltac:(discriminate) eq_refl eq_refl) as [Hbefore Hafter].
  split.
  - rewrite Hbefore. reflexivity.
  - eexists. split; [exact Hafter | reflexivity].
Defined.

(** * [main-pure.go]: methods a handler does not serve *)

(** X5.  Every handler of [main-pure.go], called with a method it does not
    serve, answers MethodNotAllowed and leaves the database, the disk and
    the clock alone.  The handler of one product checks the identifier
    first: without one it answers BadRequest whatever the method. *)
Theorem MainPure_unserved_methods_change_nothing (B : Bcrypt) (L : GoLibrary) (w : MainPure.World) :
  let refused := (MainPure.writeError http.StatusMethodNotAllowed "Method not allowed", w) in
  (forall method, method <> "GET" ->
     run (MainPure.healthCheck method) w = refused /\
     run (MainPure.statsHandler method) w = refused /\
     (forall path, run (MainPure.staticHandler method path) w = refused)) /\
  (forall r, Method r <> "GET" -> Method r <> "POST" ->
     run (MainPure.productsHandler r) w = refused) /\
  (forall r, Method r <> "GET" -> Method r <> "POST" ->
     run (MainPure.adminsHandler r) w = refused /\
     run (MainPure.loginHandler (mkRequest (Method r) (URLPath r) Malformed)) w = refused) /\
  (forall r, Method r <> "POST" -> run (MainPure.registerHandler r) w = refused) /\
  (forall r, MainPure.UploadMethod r <> "POST" -> run (MainPure.uploadHandler r) w = refused) /\
  (forall method path, method <> "DELETE" -> run (MainPure.adminHandler method path) w = refused) /\
  (forall update method id, id <> "" ->
     method <> "GET" -> method <> "PUT" -> method <> "DELETE" ->
     run (MainPure.productHandler update method ("/api/products/" ++ id)) w = refused) /\
  (forall update method,
     run (MainPure.productHandler update method "/api/products/") w
     = (MainPure.writeError http.StatusBadRequest "Product ID required", w)).
Proof.
  intros refused. subst refused.
  repeat match goal with |- _ /\ _ => split end.
  - intros method Hget. apply String.eqb_neq in Hget.
    unfold MainPure.healthCheck, MainPure.statsHandler, MainPure.staticHandler.
    rewrite Hget. repeat split; reflexivity.
  - intros r Hget Hpost. apply String.eqb_neq in Hget, Hpost.
    unfold MainPure.productsHandler. rewrite Hget, Hpost. reflexivity.
  - intros r Hget Hpost. apply String.eqb_neq in Hget, Hpost.
    unfold MainPure.adminsHandler, MainPure.loginHandler. cbn [Method].
    rewrite Hget, Hpost. split; reflexivity.
  - intros r Hpost. apply String.eqb_neq in Hpost.
    unfold MainPure.registerHandler. rewrite Hpost. reflexivity.
  - intros r Hpost. apply String.eqb_neq in Hpost.
    unfold MainPure.uploadHandler. rewrite Hpost. reflexivity.
  - intros method path Hdelete. apply String.eqb_neq in Hdelete.
    unfold MainPure.adminHandler. rewrite Hdelete. reflexivity.
  - intros update method id Hid Hget Hput Hdelete.
    apply String.eqb_neq in Hid, Hget, Hput, Hdelete.
    unfold MainPure.productHandler.
    change (strings.TrimPrefix ("/api/products/" ++ id) "/api/products/") with id.
    rewrite Hid, Hget, Hput, Hdelete. reflexivity.
  - intros update method. reflexivity.
Qed.

Lemma MainPure_unserved_methods_change_nothing_witness :
  run (MainPure.healthCheck "POST") pure_shop
  = (MainPure.writeError 405 "Method not allowed", pure_shop) /\
  run (MainPure.adminHandler "GET" "/api/admins/000000000000000000000007") pure_shop
  = (MainPure.writeError 405 "Method not allowed", pure_shop) /\
  run (MainPure.productHandler MainPure.deleteProduct "PATCH"
         "/api/products/000000000000000000000001") pure_shop
  = (MainPure.writeError 405 "Method not allowed", pure_shop) /\
  run (MainPure.productHandler MainPure.deleteProduct "PATCH" "/api/products/") pure_shop
  = (MainPure.writeError 400 "Product ID required", pure_shop).
Proof.
  destruct (MainPure_unserved_methods_change_nothing Example.bcrypt Example.library pure_shop)
    as [Hget [_ [_ [_ [_ [Hadmin [Hproduct Hnoid]]]]]]].
  split; [|split; [|split]].
  - apply (Hget "POST"). discriminate.
  - apply (Hadmin "GET"). discriminate.
  - apply (Hproduct MainPure.deleteProduct "PATCH" "000000000000000000000001"); discriminate.
  - apply (Hnoid MainPure.deleteProduct "PATCH").
Defined.

(** * [main-pure.go]: from the upload to the static route *)

Lemma Contains_dotdot_uploads (name : string) :
  strings.Contains ("uploads/" ++ name) ".." = strings.Contains name "..".
Proof.
  cbn [append]. rewrite !Contains_dotdot_skip by discriminate. reflexivity.
Qed.

(** X6.  A file accepted by POST /api/upload (it passes the size and the
    extension check, and the file system does not fail) is written under
    static/uploads/ with its name, whatever the name.  GET on the
    [image_url] of the answer then serves that file, provided its name has
    no [".."] and [filepath.Join] of "static" and the rest of the URL is
    the path written (there is nothing in it for [Join] to clean); where
    the name has [".."], the static route refuses the URL the upload gave
    out. *)
Theorem MainPure_uploaded_file_is_served_unless_its_name_has_two_dots
    (L : GoLibrary) (r : MainPure.UploadRequest) (file : File) (w : MainPure.World) :
  MainPure.UploadMethod r = "POST" ->
  MainPure.ParseMultipartForm r = None ->
  MainPure.FormFile r "image" = Ok file ->
  passes_checks (Header file) ->
  fs_faults w = [] ->
  Join "static" ("uploads/" ++ Filename (Header file)) = "static/uploads/" ++ Filename (Header file) ->
  let uploaded := run (MainPure.uploadHandler r) w in
  exists url,
    Status (fst uploaded) = http.StatusCreated /\
    field "image_url" (body_json (fst uploaded)) = Some (JStr url) /\
    read_file ("static/uploads/" ++ Filename (Header file)) (disk (snd uploaded))
    = Some (Content file) /\
    let served := fst (run (MainPure.staticHandler "GET" url) (snd uploaded)) in
    if strings.Contains (Filename (Header file)) ".."
    then served = MainPure.writeError http.StatusBadRequest "Invalid file path"
    else served = mkResponse http.StatusOK (FileBody ("static/uploads/" ++ Filename (Header file))).
Proof.
  intros Hmethod Hparse Hfile Hchecks Hfs Hjoin uploaded. subst uploaded.
  destruct (passes_checks_bool L _ Hchecks) as [Hsize [Hparts Hext]].
  exists ("/static/uploads/" ++ Filename (Header file)).
  unfold MainPure.uploadHandler. rewrite Hmethod, Hparse, Hfile. simpl negb. cbv iota.
  rewrite Hsize, Hparts, Hext. simpl negb. cbv iota.
  unfold run. cbn -[append]. rewrite Hfs. cbn -[append].
  split; [reflexivity|]. split; [reflexivity|].
  change MainPure.UploadDir with "static/uploads".
  change ("static/uploads" ++ "/" ++ Filename (Header file))
    with ("static/uploads/" ++ Filename (Header file)).
  assert (Hwritten : read_file ("static/uploads/" ++ Filename (Header file))
                       (write_file ("static/uploads/" ++ Filename (Header file)) (Content file)
                          (write_file ("static/uploads/" ++ Filename (Header file)) ""
                             (disk w)))
                     = Some (Content file))
    by (rewrite write_write; apply read_write_same).
  split; [cbn -[append write_file read_file]; exact Hwritten|].
  unfold MainPure.staticHandler. simpl negb. cbv iota.
  change (strings.TrimPrefix ("/static/uploads/" ++ Filename (Header file)) "/static/")
    with ("uploads/" ++ Filename (Header file)).
  change (String.eqb ("uploads/" ++ Filename (Header file)) "") with false. cbv iota.
  rewrite Contains_dotdot_uploads.
  destruct (strings.Contains (Filename (Header file)) "..") eqn:Hdots; [reflexivity|].
  rewrite Hjoin.
  cbn -[append write_file read_file].
  rewrite Hwritten. reflexivity.
Qed.

Lemma MainPure_uploaded_file_is_served_unless_its_name_has_two_dots_witness :
  (exists url,
     Status (fst (run (MainPure.uploadHandler (L := Example.library) (post_upload cat_picture))
                    Example.empty)) = 201 /\
     field "image_url" (body_json (fst (run (MainPure.uploadHandler (L := Example.library)
                                               (post_upload cat_picture)) Example.empty)))
     = Some (JStr url) /\
     read_file "static/uploads/cat.png"
       (disk (snd (run (MainPure.uploadHandler (L := Example.library) (post_upload cat_picture))
                     Example.empty)))
     = Some "PNG-bytes" /\
     fst (run (MainPure.staticHandler (L := Example.library) "GET" url)
            (snd (run (MainPure.uploadHandler (L := Example.library) (post_upload cat_picture))
                    Example.empty)))
     = mkResponse 200 (FileBody "static/uploads/cat.png"))
  /\
  (exists url,
     Status (fst (run (MainPure.uploadHandler (L := Example.library) (post_upload dotted))
                    Example.empty)) = 201 /\
     field "image_url" (body_json (fst (run (MainPure.uploadHandler (L := Example.library)
                                               (post_upload dotted)) Example.empty)))
     = Some (JStr url) /\
     read_file "static/uploads/holiday..png"
       (disk (snd (run (MainPure.uploadHandler (L := Example.library) (post_upload dotted))
                     Example.empty)))
     = Some "PNG-bytes" /\
     fst (run (MainPure.staticHandler (L := Example.library) "GET" url)
            (snd (run (MainPure.uploadHandler (L := Example.library) (post_upload dotted))
                    Example.empty)))
     = MainPure.writeError 400 "Invalid file path").
Proof.
  assert (Hcat : passes_checks (L := Example.library) (Header cat_picture))
    by (split; [vm_compute; discriminate | split; [vm_compute; lia | reflexivity]]).
  assert (Hdotted : passes_checks (L := Example.library) (Header dotted))
    by (split; [vm_compute; discriminate | split; [vm_compute; lia | reflexivity]]).
  split.
  - exact (MainPure_uploaded_file_is_served_unless_its_name_has_two_dots Example.library
             (post_upload cat_picture) cat_picture Example.empty eq_refl eq_refl eq_refl
             Hcat eq_refl eq_refl).
  - exact (MainPure_uploaded_file_is_served_unless_its_name_has_two_dots Example.library
             (post_upload dotted) dotted Example.empty eq_refl eq_refl eq_refl
             Hdotted eq_refl eq_refl).
Defined.

(** * Health checks *)

(** X7.  What the health checks answer when the ping fails.  [healthCheck] of
    [main.go] and [Controller.HealthCheck] answer OK all the same, with the
    failure in the body only ([database] is "disconnected"; [status] is
    "error" in [main.go] and stays "ok" in the controller);
    [healthCheck] of [main-pure.go] answers InternalServerError.  Each
    issues the one ping, under a five-second timeout, and leaves the
    collections alone. *)
Theorem health_checks_when_the_ping_fails :
  (forall w : Main.World,
      let out := run Main.healthCheck w in
      Status (fst out) = http.StatusOK /\
      field "status" (body_json (fst out))
      = Some (JStr (match outcome 0 w with Some _ => "error" | None => "ok" end)) /\
      field "database" (body_json (fst out))
      = Some (JStr (match outcome 0 w with Some _ => "disconnected" | None => "connected" end)) /\
      field "timestamp" (body_json (fst out)) = Some (JInt (Unix (clock w))) /\
      db_calls (snd out) = mkCall OpPing "" (WithTimeout 5) :: db_calls w /\
      products (snd out) = products w /\ admins (snd out) = admins w)
  /\
  (forall w : Controllers.World,
      let out := run Controllers.HealthCheck w in
      Status (fst out) = http.StatusOK /\
      field "status" (body_json (fst out)) = Some (JStr "ok") /\
      field "database" (body_json (fst out))
      = Some (JStr (match outcome 0 w with Some _ => "disconnected" | None => "connected" end)) /\
      db_calls (snd out) = mkCall OpPing "" (WithTimeout 5) :: db_calls w /\
      products (snd out) = products w /\ admins (snd out) = admins w)
  /\
  (forall w : MainPure.World,
      let out := run (MainPure.healthCheck "GET") w in
      Status (fst out)
      = match outcome 0 w with
        | Some _ => http.StatusInternalServerError
        | None => http.StatusOK
        end /\
      field "status" (body_json (fst out))
      = Some (JStr (match outcome 0 w with Some _ => "error" | None => "ok" end)) /\
      db_calls (snd out) = mkCall OpPing "" (WithTimeout 5) :: db_calls w /\
      products (snd out) = products w /\ admins (snd out) = admins w).
Proof.
  split; [|split]; intros w out; subst out.
  - unfold Main.healthCheck, outcome, run. cbn.
    destruct (db_faults w) as [|[msg|] faults]; cbn; repeat split; reflexivity.
  - unfold Controllers.HealthCheck, outcome, run. cbn.
    destruct (db_faults w) as [|[msg|] faults]; cbn; repeat split; reflexivity.
  - unfold MainPure.healthCheck, outcome, run. cbn.
    destruct (db_faults w) as [|[msg|] faults]; cbn; repeat split; reflexivity.
Qed.

(** * [main.go]: uploads kept in the database *)

(** X8.  A file stored by POST /api/upload comes back from GET /api/image/<id>,
    with the identifier the upload answered: the very bytes, under the
    content type image/jpeg whatever the file was; an empty file is stored
    too and then answered with NotFound. *)
Theorem Main_uploaded_bytes_come_back_as_a_jpeg
    (g : Main.Globals) (FormFile : string -> result File) (file : File) (w : Main.World) :
  FormFile "file" = Ok file ->
  Size (Header file) <= Main.maxFileSize g ->
  db_faults w = [] ->
  fs_faults w = [] ->
  twelve_bytes (fresh (products w)) ->
  let uploaded := run (Main.uploadFile g FormFile) w in
  exists id,
    Status (fst uploaded) = http.StatusOK /\
    field "id" (body_json (fst uploaded)) = Some (JStr id) /\
    fst (run (Main.getImageFromDB id) (snd uploaded))
    = if String.eqb (Content file) ""
      then Main.ImageJSON (gin.JSON http.StatusNotFound (gin.H [("error", JStr "No image data found")]))
      else Main.ImageBytes "image/jpeg" (Content file).
Proof.
  intros Hfile Hsize Hfaults Hfs Hfits uploaded. subst uploaded.
  exists (Hex (fresh (products w))).
  assert (Hfit : (Size (Header file) >? Main.maxFileSize g) = false)
    by (rewrite Z.gtb_ltb; apply Z.ltb_ge; exact Hsize).
  unfold Main.uploadFile. rewrite Hfile, Hfit.
  unfold run. cbn -[Hex]. rewrite Hfs. cbn -[Hex]. rewrite Hfaults. cbn -[Hex].
  use_fresh. cbn -[Hex].
  split; [reflexivity|]. split; [reflexivity|].
  unfold Main.getImageFromDB. rewrite (ObjectIDFromHex_Hex _ Hfits). cbn -[Hex].
  rewrite find_app_new;
    [| exact (find_by_id_absent (fresh (products w)) (products w) (fresh_is_new (products w)))
     | apply N.eqb_refl].
  cbn -[Hex]. destruct (Content file); reflexivity.
Qed.

Lemma Main_uploaded_bytes_come_back_as_a_jpeg_witness :
  exists id,
    Status (fst (run (Main.uploadFile some_globals (fun _ => Ok installer)) shop)) = 200 /\
    field "id" (body_json (fst (run (Main.uploadFile some_globals (fun _ => Ok installer)) shop)))
    = Some (JStr id) /\
    fst (run (Main.getImageFromDB id)
           (snd (run (Main.uploadFile some_globals (fun _ => Ok installer)) shop)))
    = Main.ImageBytes "image/jpeg" "MZ-bytes".
Proof.
  exact (Main_uploaded_bytes_come_back_as_a_jpeg some_globals (fun _ => Ok installer) installer shop
           eq_refl ltac:(vm_compute; discriminate) eq_refl eq_refl ltac:(reflexivity)).
Defined.

(** * Updating a product *)

Section UpdateFacts.
Context {D : Type} `{Document D}.

(** With identifiers unique, an update by identifier changes the one
    document that has it. *)
Lemma update_id_map (set : D -> D) (docs : list D) (d : D) :
  NoDup (map doc_id docs) -> In d docs ->
  update_id (doc_id d) set docs
  = map (fun x => if N.eqb (doc_id x) (doc_id d) then set d else x) docs.
Proof.
  induction docs as [|x docs IH]; simpl; [contradiction|].
  intros Hnodup Hin. inversion Hnodup as [|? ? Hnotin Hrest]; subst.
  destruct (N.eqb (doc_id x) (doc_id d)) eqn:Heq.
  - apply N.eqb_eq in Heq.
    assert (Hx : x = d).
    { destruct Hin as [Hx|Hin]; [exact Hx|].
      exfalso. apply Hnotin. rewrite Heq. apply in_map. exact Hin. }
    subst x. f_equal.
    clear IH Hin Hnodup Heq. induction docs as [|y docs IH]; simpl; [reflexivity|].
    simpl in Hnotin. inversion Hrest as [|? ? Hy Hrest']; subst.
    destruct (N.eqb (doc_id y) (doc_id d)) eqn:Hy'.
    + exfalso. apply Hnotin. left. apply N.eqb_eq. exact Hy'.
    + rewrite <- IH by tauto. reflexivity.
  - destruct Hin as [Hx|Hin]; [subst x; rewrite N.eqb_refl in Heq; discriminate|].
    rewrite (IH Hrest Hin). reflexivity.
Qed.

Lemma update_id_absent (id : ObjectID) (set : D -> D) (docs : list D) :
  has_id id docs = false -> update_id id set docs = docs.
Proof.
  unfold has_id. induction docs as [|x docs IH]; simpl; [reflexivity|].
  destruct (N.eqb (doc_id x) id); simpl; [discriminate|].
  intros Hrest. rewrite (IH Hrest). reflexivity.
Qed.

End UpdateFacts.

(** X9.  PUT /api/products/<id> in [main.go] and in the [controllers] package,
    for a body without identifier and without inline image, identifiers
    being unique.  The stored product gets the body's name, price,
    description, category, image, stock and creation time, whether the body
    named them or left them at their zero value; it keeps its image URL
    only where the body has none, and its image bytes; the update time is
    the time of the request.  No other product changes.  Where no product
    has the identifier the answer is NotFound and nothing changes. *)
Theorem updateProduct_replaces_what_the_body_leaves_out :
  (forall (g : Main.Globals) (id : string) (updateData stored : Main.Product.t) (w : Main.World),
      ObjectIDFromHex id = Ok (Main.Product.ID stored) ->
      db_faults w = [] ->
      NoDup (map Main.Product.ID (products w)) ->
      In stored (products w) ->
      Main.Product.ID updateData = NilObjectID ->
      Main.Product.ImageBase64 updateData = "" ->
      let out := run (Main.updateProduct g id (Parsed updateData)) w in
      let updated :=
        Main.Product.mk (Main.Product.ID stored)
          (Main.Product.Name updateData) (Main.Product.Price updateData)
          (Main.Product.Description updateData) (Main.Product.Category updateData)
          (Main.Product.Image updateData)
          (if String.eqb (Main.Product.ImageURL updateData) "" then Main.Product.ImageURL stored
           else Main.Product.ImageURL updateData)
          (Main.Product.Stock updateData) (Main.Product.CreatedAt updateData) (clock w)
          (Main.Product.ImageData stored) (Main.Product.ImageBase64 stored) in
      fst out = gin.JSON http.StatusOK (gin.H [("message", JStr "Product updated successfully")]) /\
      products (snd out)
      = map (fun p => if N.eqb (Main.Product.ID p) (Main.Product.ID stored) then updated else p)
          (products w))
  /\
  (forall (g : Main.Globals) (id : string) (objectID : ObjectID) (updateData : Main.Product.t)
          (w : Main.World),
      ObjectIDFromHex id = Ok objectID ->
      db_faults w = [] ->
      has_id objectID (products w) = false ->
      Main.Product.ImageBase64 updateData = "" ->
      let out := run (Main.updateProduct g id (Parsed updateData)) w in
      fst out = gin.JSON http.StatusNotFound (gin.H [("error", JStr "Product not found")]) /\
      products (snd out) = products w)
  /\
  (forall (ctrl : Controllers.Controller) (id : string) (updateData stored : Controllers.Product.t)
          (w : Controllers.World),
      ObjectIDFromHex id = Ok (Controllers.Product.ID stored) ->
      db_faults w = [] ->
      NoDup (map Controllers.Product.ID (products w)) ->
      In stored (products w) ->
      Controllers.Product.ID updateData = NilObjectID ->
      Controllers.Product.ImageBase64 updateData = "" ->
      let out := run (Controllers.UpdateProduct ctrl id (Parsed updateData)) w in
      let updated :=
        Controllers.Product.mk (Controllers.Product.ID stored)
          (Controllers.Product.Name updateData) (Controllers.Product.Price updateData)
          (Controllers.Product.Description updateData) (Controllers.Product.Category updateData)
          (Controllers.Product.Image updateData)
          (if String.eqb (Controllers.Product.ImageURL updateData) ""
           then Controllers.Product.ImageURL stored
           else Controllers.Product.ImageURL updateData)
          (Controllers.Product.Stock updateData) (Controllers.Product.CreatedAt updateData) (clock w)
          (Controllers.Product.ImageBase64 stored) in
      fst out = gin.JSON http.StatusOK (gin.H [("message", JStr "Product updated successfully")]) /\
      products (snd out)
      = map (fun p => if N.eqb (Controllers.Product.ID p) (Controllers.Product.ID stored)
                      then updated else p)
          (products w))
  /\
  (forall (ctrl : Controllers.Controller) (id : string) (objectID : ObjectID)
          (updateData : Controllers.Product.t) (w : Controllers.World),
      ObjectIDFromHex id = Ok objectID ->
      db_faults w = [] ->
      has_id objectID (products w) = false ->
      Controllers.Product.ImageBase64 updateData = "" ->
      let out := run (Controllers.UpdateProduct ctrl id (Parsed updateData)) w in
      fst out = gin.JSON http.StatusNotFound (gin.H [("error", JStr "Product not found")]) /\
      products (snd out) = products w).
Proof.
  split; [|split; [|split]].
  - intros g id updateData stored w Hid Hfaults Hnodup Hin Hnoid Himage out updated.
    subst out updated.
    pose proof (@find_by_id_unique _ Main.Product_Document (products w) stored Hnodup Hin) as Hfound.
    pose proof (@update_id_map _ Main.Product_Document) as Hmap. in_fields Hfound. in_fields Hmap.
    unfold Main.updateProduct, ShouldBindJSON, Main.Product_binding. rewrite Hid, Himage.
    unfold run. cbn -[update_id]. rewrite Hfaults. cbn -[update_id]. rewrite Hfound.
    cbn -[update_id]. rewrite Hnoid. cbn -[update_id]. rewrite N.eqb_refl. cbn -[update_id].
    split; [reflexivity|].
    rewrite (Hmap _ (products w) stored Hnodup Hin). cbn. rewrite ?Hnoid. reflexivity.
  - intros g id objectID updateData w Hid Hfaults Hnone Himage out. subst out.
    apply find_by_id_absent in Hnone. in_fields Hnone.
    unfold Main.updateProduct, ShouldBindJSON, Main.Product_binding. rewrite Hid, Himage.
    unfold run. cbn -[update_id]. rewrite Hfaults. cbn -[update_id]. rewrite Hnone.
    split; reflexivity.
  - intros ctrl id updateData stored w Hid Hfaults Hnodup Hin Hnoid Himage out updated.
    subst out updated.
    pose proof (@find_by_id_unique _ Controllers.Product_Document (products w) stored Hnodup Hin)
      as Hfound.
    pose proof (@update_id_map _ Controllers.Product_Document) as Hmap.
    in_fields Hfound. in_fields Hmap.
    unfold Controllers.UpdateProduct, ShouldBindJSON, Controllers.Product_binding.
    rewrite Hid, Himage.
    unfold run. cbn -[update_id]. rewrite Hfaults. cbn -[update_id]. rewrite Hfound.
    cbn -[update_id]. rewrite Hnoid. cbn -[update_id]. rewrite N.eqb_refl. cbn -[update_id].
    split; [reflexivity|].
    rewrite (Hmap _ (products w) stored Hnodup Hin). cbn. rewrite ?Hnoid. reflexivity.
  - intros ctrl id objectID updateData w Hid Hfaults Hnone Himage out. subst out.
    apply find_by_id_absent in Hnone. in_fields Hnone.
    unfold Controllers.UpdateProduct, ShouldBindJSON, Controllers.Product_binding.
    rewrite Hid, Himage.
    unfold run. cbn -[update_id]. rewrite Hfaults. cbn -[update_id]. rewrite Hnone.
    split; reflexivity.
Qed.

Lemma updateProduct_replaces_what_the_body_leaves_out_witness :
  let out := run (Main.updateProduct some_globals "000000000000000000000001" (Parsed price_only))
               shop in
  fst out = gin.JSON 200 (gin.H [("message", JStr "Product updated successfully")]) /\
  map Main.Product.Name (products (snd out)) = [""; "Gadget"] /\
  map Main.Product.Stock (products (snd out)) = [0; 4] /\
  map Main.Product.UpdatedAt (products (snd out)) = [1700000000000000000; 0].
Proof.
  destruct updateProduct_replaces_what_the_body_leaves_out as [Hfound _].
  assert (Hnodup : NoDup (map Main.Product.ID (products shop))).
  { constructor; [intros [Heq|[]]; discriminate Heq|]. constructor; [intros []|constructor]. }
  destruct (Hfound some_globals "000000000000000000000001" price_only
              (Main.Product.mk 1%N "Widget" 25000%float "" "" "" "" 3 0 0 "" "") shop
              eq_refl eq_refl Hnodup ltac:(left; reflexivity) eq_refl eq_refl) as [Hanswer Hstored].
  split; [exact Hanswer|]. cbv zeta. rewrite Hstored. repeat split.
Defined.

(** * Registration when the database misbehaves *)

(** X10.  The check for an existing username takes any error of the lookup for
    "no such admin".  When the lookup fails (a timeout, say) and the insert
    that follows succeeds, the registration goes through whatever admins are
    stored: an admin of that username may then exist twice. *)
Theorem registration_goes_ahead_when_the_lookup_fails :
  (forall (B : Bcrypt) (req : models.RegisterRequest.t) (w : Main.World)
          (msg salt : string) (rest : list string) (hash : string),
      models.RegisterRequest.binding req = true ->
      db_faults w = [Some msg] ->
      salts w = salt :: rest ->
      GenerateFromPassword salt (models.RegisterRequest.Password req) DefaultCost = Ok hash ->
      let out := run (Main.register (Parsed req)) w in
      Status (fst out) = http.StatusCreated /\
      admins (snd out)
      = (admins w ++ [models.Admin.mk (fresh (admins w)) (models.RegisterRequest.Username req)
                        (models.RegisterRequest.Email req) hash (clock w)])%list)
  /\
  (forall (B : Bcrypt) (req : models.RegisterRequest.t) (w : Controllers.World)
          (msg salt : string) (rest : list string) (hash : string),
      models.RegisterRequest.binding req = true ->
      db_faults w = [Some msg] ->
      salts w = salt :: rest ->
      GenerateFromPassword salt (models.RegisterRequest.Password req) DefaultCost = Ok hash ->
      let out := run (Controllers.Register (Parsed req)) w in
      Status (fst out) = http.StatusCreated /\
      admins (snd out)
      = (admins w ++ [models.Admin.mk (fresh (admins w)) (models.RegisterRequest.Username req)
                        (models.RegisterRequest.Email req) hash (clock w)])%list)
  /\
  (forall (B : Bcrypt) (r : Request MainPure.AdminInput.t) (input : MainPure.AdminInput.t)
          (w : MainPure.World) (msg salt : string) (rest : list string) (hash : string),
      RequestBody r = Parsed input ->
      MainPure.AdminInput.Username input <> "" ->
      MainPure.AdminInput.Password input <> "" ->
      db_faults w = [Some msg] ->
      salts w = salt :: rest ->
      GenerateFromPassword salt (MainPure.AdminInput.Password input) DefaultCost = Ok hash ->
      let out := run (MainPure.createAdmin r) w in
      Status (fst out) = http.StatusCreated /\
      admins (snd out)
      = (admins w ++ [MainPure.Admin.mk (fresh (admins w)) (MainPure.AdminInput.Username input)
                        hash])%list)
  /\
  (forall (req : models.RegisterRequest.t) (w : Draft.World) (msg : string),
      models.RegisterRequest.binding req = true ->
      db_faults w = [Some msg] ->
      let out := run (Draft.register (Parsed req)) w in
      Status (fst out) = http.StatusCreated /\
      admins (snd out)
      = (admins w ++ [models.Admin.mk (fresh (admins w)) (models.RegisterRequest.Username req)
                        (models.RegisterRequest.Email req) (models.RegisterRequest.Password req)
                        (clock w)])%list).
Proof.
  split; [|split; [|split]].
  - intros B req w msg salt rest hash Hvalid Hfaults Hsalts Hhash out. subst out.
    unfold Main.register, ShouldBindJSON. rewrite Hvalid.
    unfold run. cbn. rewrite Hfaults. cbn. rewrite Hsalts. cbn. rewrite Hhash. cbn.
    use_fresh. cbn. split; reflexivity.
  - intros B req w msg salt rest hash Hvalid Hfaults Hsalts Hhash out. subst out.
    unfold Controllers.Register, ShouldBindJSON. rewrite Hvalid.
    unfold run. cbn. rewrite Hfaults. cbn. rewrite Hsalts. cbn. rewrite Hhash. cbn.
    use_fresh. cbn. split; reflexivity.
  - intros B r input w msg salt rest hash Hbody Hu Hp Hfaults Hsalts Hhash out. subst out.
    unfold MainPure.createAdmin. rewrite Hbody.
    apply String.eqb_neq in Hu, Hp. rewrite Hu, Hp. simpl orb. cbv iota.
    unfold run. cbn. rewrite Hfaults. cbn. rewrite Hsalts. cbn. rewrite Hhash. cbn.
    use_fresh. cbn. split; reflexivity.
  - intros req w msg Hvalid Hfaults out. subst out.
    unfold Draft.register, ShouldBindJSON. rewrite Hvalid.
    unfold run. cbn. rewrite Hfaults. cbn. use_fresh. cbn. split; reflexivity.
Qed.

Lemma registration_goes_ahead_when_the_lookup_fails_witness :
  let out := run (Main.register (B := Example.bcrypt) (Parsed register_a_again))
               pitipaw_lookup_down in
  Status (fst out) = 201 /\
  map models.Admin.Username (admins (snd out)) = ["a"; "a"].
Proof.
  destruct registration_goes_ahead_when_the_lookup_fails as [Hmain _].
  destruct (Hmain Example.bcrypt register_a_again pitipaw_lookup_down "context deadline exceeded"
              "salt1" ["salt2"] "$2a$q$salt1" eq_refl eq_refl eq_refl eq_refl) as [Hstatus Hadmins].
  split; [exact Hstatus|]. cbv zeta. rewrite Hadmins. reflexivity.
Defined.

(** * The inline image of a product *)

Lemma substring_is_prefix (p s : string) :
  String.eqb (substring 0 (String.length p) s) p = true -> strings.HasPrefix s p = true.
Proof.
  revert s. induction p as [|c p IH]; intros s; simpl; [reflexivity|].
  destruct s as [|d s]; simpl; [discriminate|].
  destruct (Ascii.eqb_spec d c) as [->|Hne].
  - rewrite Ascii.eqb_refl. simpl. apply IH.
  - discriminate.
Qed.

(** X11.  POST /api/products with an inline image, the image host being
    configured.  [createProduct] of [main.go] hands the host a data URI with
    exactly one JPEG prefix where the body had the prefix and more, or had
    none; a body that is the bare prefix is sent with the prefix twice.
    [Controller.CreateProduct] hands over the field as it came.  Where the
    host fails the answer is InternalServerError and nothing is stored or
    asked of the database; where it succeeds the stored product carries the
    host's URL and public id, and no inline data. *)
Theorem inline_image_goes_to_the_host_and_is_never_stored :
  (forall (L : GoLibrary) (g : Main.Globals) (upload : Cloudinary) (product : Main.Product.t)
          (w : Main.World),
      Main.cld g = Some upload ->
      let data := Main.Product.ImageBase64 product in
      let out := run (Main.createProduct g (Parsed product)) w in
      let handed (sent : string) : Prop :=
        match upload sent with
        | Err _ =>
            out = (gin.JSON http.StatusInternalServerError
                     (gin.H [("error", JStr "Gagal upload gambar ke Cloudinary")]), w)
        | Ok hosted =>
            db_faults w = [] -> Main.Product.ID product = NilObjectID ->
            Status (fst out) = http.StatusCreated /\
            products (snd out)
            = (products w ++
               [Main.Product.mk (fresh (products w)) (Main.Product.Name product)
                  (Main.Product.Price product) (Main.Product.Description product)
                  (Main.Product.Category product) (PublicID hosted) (SecureURL hosted)
                  (Main.Product.Stock product) (clock w) (clock w + 1) "" ""])%list
        end in
      (forall rest, rest <> "" -> data = Main.jpeg_prefix ++ rest -> handed data) /\
      (data = Main.jpeg_prefix -> handed (Main.jpeg_prefix ++ Main.jpeg_prefix)) /\
      (data <> "" -> strings.HasPrefix data Main.jpeg_prefix = false ->
       handed (Main.jpeg_prefix ++ data)))
  /\
  (forall (ctrl : Controllers.Controller) (upload : Cloudinary) (product : Controllers.Product.t)
          (w : Controllers.World),
      Controllers.Cld ctrl = Some upload ->
      Controllers.Product.ImageBase64 product <> "" ->
      let out := run (Controllers.CreateProduct ctrl (Parsed product)) w in
      match upload (Controllers.Product.ImageBase64 product) with
      | Err _ =>
          out = (gin.JSON http.StatusInternalServerError
                   (gin.H [("error", JStr "Failed to upload image")]), w)
      | Ok hosted =>
          db_faults w = [] -> Controllers.Product.ID product = NilObjectID ->
          Status (fst out) = http.StatusCreated /\
          products (snd out)
          = (products w ++
             [Controllers.Product.mk (fresh (products w)) (Controllers.Product.Name product)
                (Controllers.Product.Price product) (Controllers.Product.Description product)
                (Controllers.Product.Category product) (PublicID hosted) (SecureURL hosted)
                (Controllers.Product.Stock product) (clock w) (clock w + 1) ""])%list
      end).
Proof.
  split.
  - intros L g upload product w Hcld data out handed. subst data out handed.
    unfold Main.createProduct, ShouldBindJSON, Main.Product_binding. rewrite Hcld.
    split; [|split].
    + intros rest Hrest Hdata. rewrite Hdata.
      assert (Hstrip : (String.length Main.jpeg_prefix <? String.length (Main.jpeg_prefix ++ rest))%nat
                       && String.eqb (substring 0 (String.length Main.jpeg_prefix)
                                        (Main.jpeg_prefix ++ rest)) Main.jpeg_prefix = true).
      { destruct rest; [congruence | reflexivity]. }
      rewrite Hstrip.
      change (strings.drop (String.length Main.jpeg_prefix) (Main.jpeg_prefix ++ rest)) with rest.
      change (negb (String.eqb (Main.jpeg_prefix ++ rest) "")) with true. cbv iota.
      destruct (upload (Main.jpeg_prefix ++ rest)) as [hosted|e]; [|reflexivity].
      intros Hfaults Hid. unfold run. cbn. rewrite Hfaults, Hid. cbn. use_fresh. cbn.
      split; reflexivity.
    + intros Hdata. rewrite Hdata. simpl negb. cbv iota.
      change ((String.length Main.jpeg_prefix <? String.length Main.jpeg_prefix)%nat
              && String.eqb (substring 0 (String.length Main.jpeg_prefix) Main.jpeg_prefix)
                   Main.jpeg_prefix) with false. cbv iota.
      destruct (upload (Main.jpeg_prefix ++ Main.jpeg_prefix)) as [hosted|e]; [|reflexivity].
      intros Hfaults Hid. unfold run. cbn. rewrite Hfaults, Hid. cbn. use_fresh. cbn.
      split; reflexivity.
    + intros Hdata Hprefix. apply String.eqb_neq in Hdata. rewrite Hdata. simpl negb. cbv iota.
      assert (Hkeep : (String.length Main.jpeg_prefix <? String.length (Main.Product.ImageBase64 product))%nat
                      && String.eqb (substring 0 (String.length Main.jpeg_prefix)
                                       (Main.Product.ImageBase64 product)) Main.jpeg_prefix = false).
      { apply not_true_is_false. intros Hboth. apply andb_prop in Hboth as [_ Heq].
        apply substring_is_prefix in Heq. congruence. }
      rewrite Hkeep.
      destruct (upload (Main.jpeg_prefix ++ Main.Product.ImageBase64 product)) as [hosted|e];
        [|reflexivity].
      intros Hfaults Hid. unfold run. cbn. rewrite Hfaults, Hid. cbn. use_fresh. cbn.
      split; reflexivity.
  - intros ctrl upload product w Hcld Hdata out. subst out.
    unfold Controllers.CreateProduct, ShouldBindJSON, Controllers.Product_binding. rewrite Hcld.
    apply String.eqb_neq in Hdata. rewrite Hdata. simpl negb. cbv iota.
    destruct (upload (Controllers.Product.ImageBase64 product)) as [hosted|e]; [|reflexivity].
    intros Hfaults Hid. unfold run. cbn. rewrite Hfaults, Hid. cbn. use_fresh. cbn.
    split; reflexivity.
Qed.

Lemma inline_image_goes_to_the_host_and_is_never_stored_witness :
  let out := run (Main.createProduct (L := Example.library) hosted_globals (Parsed pictured))
               Example.empty in
  Status (fst out) = 201 /\
  map Main.Product.ImageURL (products (snd out)) = ["https://res.cloudinary.com/demo/kettle.jpg"] /\
  map Main.Product.Image (products (snd out)) = ["pitipaw/products/kettle"] /\
  map Main.Product.ImageBase64 (products (snd out)) = [""].
Proof.
  destruct inline_image_goes_to_the_host_and_is_never_stored as [Hmain _].
  destruct (Hmain Example.library hosted_globals image_host pictured Example.empty eq_refl)
    as [Hprefixed _].
  specialize (Hprefixed "AAAA" ltac:(discriminate) eq_refl).
  destruct (Hprefixed eq_refl eq_refl) as [Hstatus Hstored].
  split; [exact Hstatus|]. cbv zeta. rewrite Hstored. repeat split.
Defined.

(** * Uploads under unique names *)

Section DecimalFacts.

(** The digits of a number end where the underscore stands. *)
Lemma digits_then_underscore (d1 d2 : Decimal.uint) (f1 f2 : string) :
  NilEmpty.string_of_uint d1 ++ "_" ++ f1 = NilEmpty.string_of_uint d2 ++ "_" ++ f2 ->
  d1 = d2 /\ f1 = f2.
Proof.
  revert d2. induction d1 as [|d1 IH|d1 IH|d1 IH|d1 IH|d1 IH|d1 IH|d1 IH|d1 IH|d1 IH|d1 IH];
    intros [|d2|d2|d2|d2|d2|d2|d2|d2|d2|d2]; simpl; intros Heq;
    try discriminate Heq;
    try (injection Heq as Heq; destruct (IH d2 Heq) as [-> ->]; split; reflexivity).
  injection Heq as ->. split; reflexivity.
Qed.

Lemma digits_not_nil (d : Decimal.uint) :
  d <> Decimal.Nil -> NilZero.string_of_uint d = NilEmpty.string_of_uint d.
Proof. destruct d; [congruence | reflexivity ..]. Qed.

Lemma digits_start_with_a_digit (d : Decimal.uint) (rest other : string) :
  d <> Decimal.Nil -> NilEmpty.string_of_uint d ++ rest <> String "-" other.
Proof. destruct d; [congruence | simpl; discriminate ..]. Qed.

Lemma to_int_digits (n : Z) :
  exists d, d <> Decimal.Nil /\
            (Z.to_int n = Decimal.Pos d \/ Z.to_int n = Decimal.Neg d).
Proof.
  destruct n as [|p|p]; simpl.
  - exists Decimal.zero. split; [discriminate | left; reflexivity].
  - exists (Pos.to_uint p). split; [apply DecimalPos.Unsigned.to_uint_nonnil | left; reflexivity].
  - exists (Pos.to_uint p). split; [apply DecimalPos.Unsigned.to_uint_nonnil | right; reflexivity].
Qed.

Lemma Sprintf_d_then_underscore (a b : Z) (f1 f2 : string) :
  Sprintf_d a ++ "_" ++ f1 = Sprintf_d b ++ "_" ++ f2 -> a = b /\ f1 = f2.
Proof.
  unfold Sprintf_d. intros Heq.
  destruct (to_int_digits a) as [da [Hda Ha]], (to_int_digits b) as [db [Hdb Hb]].
  assert (Hsame : Z.to_int a = Z.to_int b /\ f1 = f2).
  { destruct Ha as [Ha|Ha], Hb as [Hb|Hb]; rewrite Ha, Hb in *; simpl in Heq;
      rewrite ?(digits_not_nil da Hda), ?(digits_not_nil db Hdb) in Heq.
    - destruct (digits_then_underscore da db f1 f2 Heq) as [-> ->]. split; reflexivity.
    - exfalso. exact (digits_start_with_a_digit da _ _ Hda Heq).
    - exfalso. symmetry in Heq. exact (digits_start_with_a_digit db _ _ Hdb Heq).
    - injection Heq as Heq.
      destruct (digits_then_underscore da db f1 f2 Heq) as [-> ->]. split; reflexivity. }
  destruct Hsame as [Hint ->]. split; [apply DecimalZ.to_int_inj; exact Hint | reflexivity].
Qed.

End DecimalFacts.

Lemma read_other_file (path other content : string) (files : list (string * string)) :
  other <> path ->
  read_file other (write_file path content files) = read_file other files.
Proof.
  intros Hne. induction files as [|[p c] files IH]; simpl.
  - destruct (String.eqb_spec path other); [congruence | reflexivity].
  - destruct (String.eqb_spec p path) as [->|Hp]; simpl.
    + destruct (String.eqb_spec path other); [congruence | reflexivity].
    + destruct (String.eqb p other); [reflexivity | exact IH].
Qed.

(** X12.  [uploadImage] of the later gin server stores an accepted file under
    [UploadDir], named by the second of the upload, an underscore and the
    client's file name.  Two such names are equal exactly when the seconds
    and the file names are.  So of two accepted uploads the earlier file is
    still there after the later one unless both came within one second under
    one name: then the later content has replaced it. *)
Theorem SimpleGin_upload_names_are_unique_up_to_the_second (L : GoLibrary) :
  (forall t1 t2 f1 f2,
      SimpleGin.uniqueFilename t1 f1 = SimpleGin.uniqueFilename t2 f2
      <-> Unix t1 = Unix t2 /\ f1 = f2)
  /\
  (forall (FormFile : string -> result File) (file : File) (w : SimpleGin.World),
      FormFile "image" = Ok file ->
      passes_checks (Header file) ->
      fs_faults w = [] ->
      let out := run (SimpleGin.uploadImage FormFile) w in
      Status (fst out) = http.StatusCreated /\
      disk (snd out)
      = write_file (SimpleGin.UploadDir ++ "/"
                    ++ SimpleGin.uniqueFilename (clock w) (Filename (Header file)))
          (Content file) (disk w))
  /\
  (forall (form1 form2 : string -> result File) (file1 file2 : File) (w1 w2 : SimpleGin.World),
      form1 "image" = Ok file1 ->
      form2 "image" = Ok file2 ->
      passes_checks (Header file1) ->
      passes_checks (Header file2) ->
      fs_faults w1 = [] ->
      fs_faults w2 = [] ->
      disk w2 = disk (snd (run (SimpleGin.uploadImage form1) w1)) ->
      let first := SimpleGin.UploadDir ++ "/"
                   ++ SimpleGin.uniqueFilename (clock w1) (Filename (Header file1)) in
      let after := disk (snd (run (SimpleGin.uploadImage form2) w2)) in
      read_file first after
      = Some (if (Unix (clock w1) =? Unix (clock w2))
                 && String.eqb (Filename (Header file1)) (Filename (Header file2))
              then Content file2 else Content file1)).
Proof.
  assert (Hnames : forall t1 t2 f1 f2,
             SimpleGin.uniqueFilename t1 f1 = SimpleGin.uniqueFilename t2 f2
             <-> Unix t1 = Unix t2 /\ f1 = f2).
  { intros t1 t2 f1 f2. unfold SimpleGin.uniqueFilename. split.
    - apply Sprintf_d_then_underscore.
    - intros [-> ->]. reflexivity. }
  assert (Hone : forall (FormFile : string -> result File) (file : File) (w : SimpleGin.World),
             FormFile "image" = Ok file ->
             passes_checks (Header file) ->
             fs_faults w = [] ->
             Status (fst (run (SimpleGin.uploadImage FormFile) w)) = http.StatusCreated /\
             disk (snd (run (SimpleGin.uploadImage FormFile) w))
             = write_file (SimpleGin.UploadDir ++ "/"
                           ++ SimpleGin.uniqueFilename (clock w) (Filename (Header file)))
                 (Content file) (disk w)).
  { intros FormFile file w Hfile Hchecks Hfs.
    destruct (passes_checks_bool L _ Hchecks) as [Hsize [Hparts Hext]].
    unfold SimpleGin.uploadImage. rewrite Hfile.
    change SimpleGin.MaxFileSize with MainPure.MaxFileSize.
    change SimpleGin.allowedExtensions with MainPure.allowedExtensions.
    rewrite Hsize, Hparts, Hext. simpl negb. cbv iota.
    unfold run. cbn -[SimpleGin.uniqueFilename append]. rewrite Hfs.
    cbn -[SimpleGin.uniqueFilename append]. split; reflexivity. }
  split; [exact Hnames|]. split; [exact Hone|].
  intros form1 form2 file1 file2 w1 w2 Hfile1 Hfile2 Hchecks1 Hchecks2 Hfs1 Hfs2 Hdisk first after.
  subst first after.
  destruct (Hone form1 file1 w1 Hfile1 Hchecks1 Hfs1) as [_ Hdisk1].
  destruct (Hone form2 file2 w2 Hfile2 Hchecks2 Hfs2) as [_ Hdisk2].
  rewrite Hdisk2, Hdisk, Hdisk1.
  destruct (Z.eqb_spec (Unix (clock w1)) (Unix (clock w2))) as [Hsecond|Hsecond];
    [destruct (String.eqb_spec (Filename (Header file1)) (Filename (Header file2))) as [Hname|Hname]|];
    simpl andb; cbv iota.
  - replace (SimpleGin.uniqueFilename (clock w2) (Filename (Header file2)))
      with (SimpleGin.uniqueFilename (clock w1) (Filename (Header file1)))
      by (apply Hnames; split; assumption).
    apply read_write_same.
  - rewrite read_other_file; [apply read_write_same|].
    intros Heq. apply Hname.
    change SimpleGin.UploadDir with "static/uploads" in Heq. cbn [append] in Heq.
    injection Heq as Heq. apply Hnames in Heq. tauto.
  - rewrite read_other_file; [apply read_write_same|].
    intros Heq. apply Hsecond.
    change SimpleGin.UploadDir with "static/uploads" in Heq. cbn [append] in Heq.
    injection Heq as Heq. apply Hnames in Heq. tauto.
Qed.

Lemma SimpleGin_upload_names_are_unique_up_to_the_second_witness :
  read_file "static/uploads/1700000000_cat.png"
    (disk (snd (run (SimpleGin.uploadImage (L := Example.library) (fun _ => Ok cat_again))
                  (snd (run (SimpleGin.uploadImage (L := Example.library) (fun _ => Ok cat_picture))
                          Example.empty)))))
  = Some "GIF-bytes".
Proof.
  assert (Hcat : passes_checks (L := Example.library) (Header cat_picture))
    by (split; [vm_compute; discriminate | split; [vm_compute; lia | reflexivity]]).
  assert (Hagain : passes_checks (L := Example.library) (Header cat_again))
    by (split; [vm_compute; discriminate | split; [vm_compute; lia | reflexivity]]).
  destruct (SimpleGin_upload_names_are_unique_up_to_the_second Example.library) as [_ [_ Htwo]].
  exact (Htwo (fun _ => Ok cat_picture) (fun _ => Ok cat_again) cat_picture cat_again
           Example.empty
           (snd (run (SimpleGin.uploadImage (L := Example.library) (fun _ => Ok cat_picture))
                   Example.empty))
           eq_refl eq_refl Hcat Hagain eq_refl eq_refl eq_refl).
Defined.

(** * The draft: passwords as they are *)

(** X13.  [login] of the draft looks the admin up by username and password
    together: it answers OK exactly when a stored admin has that username
    and, character for character, that password, and Unauthorized
    otherwise; the token is the same constant for every admin; nothing is
    written. *)
Theorem Draft_login_matches_the_stored_password_itself
    (req : models.LoginRequest.t) (w : Draft.World) :
  models.LoginRequest.binding req = true ->
  db_faults w = [] ->
  let out := run (Draft.login (Parsed req)) w in
  (Status (fst out) = http.StatusOK <->
   exists a, In a (admins w) /\
             models.Admin.Username a = models.LoginRequest.Username req /\
             models.Admin.Password a = models.LoginRequest.Password req) /\
  (Status (fst out) = http.StatusOK \/ Status (fst out) = http.StatusUnauthorized) /\
  (Status (fst out) = http.StatusOK ->
   field "token" (body_json (fst out)) = Some (JStr "dummy_token") /\
   exists admin, field "admin" (body_json (fst out)) = Some admin /\
                 field "password" admin = Some (JStr "")) /\
  admins (snd out) = admins w.
Proof.
  intros Hvalid Hfaults out. subst out.
  unfold Draft.login, ShouldBindJSON. rewrite Hvalid.
  unfold run. cbn. rewrite Hfaults. cbn.
  destruct (find _ (admins w)) as [a|] eqn:Hfind; cbn.
  - apply find_some in Hfind as [Hin Hmatch].
    apply andb_prop in Hmatch as [Hu Hp]. apply String.eqb_eq in Hu, Hp.
    split; [|split; [|split]].
    + split; [intros _; exists a; auto | reflexivity].
    + left. reflexivity.
    + intros _. split; [reflexivity|]. eexists. split; reflexivity.
    + reflexivity.
  - split; [|split; [|split]].
    + split; [discriminate|].
      intros [a [Hin [Hu Hp]]].
      pose proof (find_none _ _ Hfind a Hin) as Hno. cbn in Hno.
      rewrite Hu, Hp, !String.eqb_refl in Hno. discriminate Hno.
    + right. reflexivity.
    + discriminate.
    + reflexivity.
Qed.

Lemma Draft_login_matches_the_stored_password_itself_witness :
  Status (fst (run (Draft.login (Parsed (models.LoginRequest.mk "a" "$2a$p$salt0"))) with_pitipaw))
  = 200 /\
  Status (fst (run (Draft.login (Parsed (models.LoginRequest.mk "a" "p"))) with_pitipaw)) = 401.
Proof.
  destruct (Draft_login_matches_the_stored_password_itself
              (models.LoginRequest.mk "a" "$2a$p$salt0") with_pitipaw eq_refl eq_refl)
    as [[_ Hok] _].
  destruct (Draft_login_matches_the_stored_password_itself
              (models.LoginRequest.mk "a" "p") with_pitipaw eq_refl eq_refl)
    as [[Hwrong _] [[Hstatus|Hstatus] _]].
  - split; [apply Hok; exists pitipaw; repeat split; left; reflexivity|].
    exfalso. destruct (Hwrong Hstatus) as [a [[<-|[]] [_ Hp]]]. discriminate Hp.
  - split; [apply Hok; exists pitipaw; repeat split; left; reflexivity | exact Hstatus].
Defined.

(** * From the environment to the first login *)

Lemma init_key (L : GoLibrary) (env : string -> string) (g : Main.Globals) :
  Main.init env = Some g -> Main.pasetoSecretKey g = Main.getEnv env "PASETO_SECRET_KEY" "".
Proof.
  unfold Main.init.
  destruct (negb _); [discriminate|].
  destruct (String.eqb _ ""); [intros Heq; injection Heq as <-; reflexivity|].
  destruct (NewFromURL _); [|discriminate].
  intros Heq. injection Heq as <-. reflexivity.
Qed.

Lemma Load_key (env : string -> option string) (cfg : config.AppConfig) :
  config.Load env = Some cfg ->
  config.PasetoSecretKey cfg = config.getEnv env "PASETO_SECRET_KEY" "".
Proof.
  unfold config.Load.
  destruct (if String.eqb (config.getEnv env "MONGO_MODE" "local") "atlas" then _ else _);
    [|discriminate].
  destruct (negb _); [discriminate|].
  intros Heq. injection Heq as <-. reflexivity.
Qed.

Lemma register_binds_login (req : models.RegisterRequest.t) :
  models.RegisterRequest.binding req = true ->
  models.LoginRequest.binding
    (models.LoginRequest.mk (models.RegisterRequest.Username req)
       (models.RegisterRequest.Password req)) = true.
Proof.
  unfold models.RegisterRequest.binding, models.LoginRequest.binding. simpl.
  intros Hvalid. apply andb_prop in Hvalid as [Hue Hp].
  apply andb_prop in Hue as [Hu _]. rewrite Hu, Hp. reflexivity.
Qed.

(** X14.  On a server that came up (the start-up code returned), with a hashing
    primitive that keeps its promise: an admin who registers under a new
    username can log in at once with the same password.  In the revisions
    that issue tokens the answer carries a token for the new admin's
    identifier, sealed under the PASETO_SECRET_KEY of the environment. *)
Theorem registered_admin_logs_in_on_a_started_server :
  (forall (L : GoLibrary) (B : Bcrypt) (env : string -> string) (g : Main.Globals)
          (req : models.RegisterRequest.t) (w : Main.World) (salt : string) (rest : list string)
          (hash : string),
      bcrypt_law B ->
      Main.init env = Some g ->
      models.RegisterRequest.binding req = true ->
      db_faults w = [] ->
      salts w = salt :: rest ->
      GenerateFromPassword salt (models.RegisterRequest.Password req) DefaultCost = Ok hash ->
      find (named (models.RegisterRequest.Username req)) (admins w) = None ->
      let registered := run (Main.register (Parsed req)) w in
      let answer :=
        fst (run (Main.login g (Parsed (models.LoginRequest.mk (models.RegisterRequest.Username req)
                                          (models.RegisterRequest.Password req))))
               (snd registered)) in
      Status (fst registered) = http.StatusCreated /\
      Status answer = http.StatusOK /\
      field "token" (body_json answer)
      = Some (JToken (issued_token (Main.getEnv env "PASETO_SECRET_KEY" "")
                        (fresh (admins w)) (clock w + 1))))
  /\
  (forall (L : GoLibrary) (B : Bcrypt) (env : string -> option string) (cfg : config.AppConfig)
          (ctrl : Controllers.Controller) (req : models.RegisterRequest.t) (w : Controllers.World)
          (salt : string) (rest : list string) (hash : string),
      bcrypt_law B ->
      config.Load env = Some cfg ->
      Controllers.main_controller cfg = Some ctrl ->
      models.RegisterRequest.binding req = true ->
      db_faults w = [] ->
      salts w = salt :: rest ->
      GenerateFromPassword salt (models.RegisterRequest.Password req) DefaultCost = Ok hash ->
      find (named (models.RegisterRequest.Username req)) (admins w) = None ->
      let registered := run (Controllers.Register (Parsed req)) w in
      let answer :=
        fst (run (Controllers.Login ctrl
                    (Parsed (models.LoginRequest.mk (models.RegisterRequest.Username req)
                               (models.RegisterRequest.Password req))))
               (snd registered)) in
      Status (fst registered) = http.StatusCreated /\
      Status answer = http.StatusOK /\
      field "token" (body_json answer)
      = Some (JToken (issued_token (config.getEnv env "PASETO_SECRET_KEY" "")
                        (fresh (admins w)) (clock w + 1))))
  /\
  (forall (B : Bcrypt) (input : MainPure.AdminInput.t) (w : MainPure.World) (salt : string)
          (rest : list string) (hash : string),
      bcrypt_law B ->
      MainPure.AdminInput.Username input <> "" ->
      MainPure.AdminInput.Password input <> "" ->
      db_faults w = [] ->
      salts w = salt :: rest ->
      GenerateFromPassword salt (MainPure.AdminInput.Password input) DefaultCost = Ok hash ->
      find (pure_named (MainPure.AdminInput.Username input)) (admins w) = None ->
      let registered :=
        run (MainPure.registerHandler (mkRequest "POST" "/api/register" (Parsed input))) w in
      let answer :=
        fst (run (MainPure.loginHandler
                    (mkRequest "POST" "/api/login"
                       (Parsed (MainPure.LoginInput.mk (MainPure.AdminInput.Username input)
                                  (MainPure.AdminInput.Password input)))))
               (snd registered)) in
      Status (fst registered) = http.StatusCreated /\
      answer = MainPure.writeJSON http.StatusOK
                 (JObj [("admin", JObj [("username", JStr (MainPure.AdminInput.Username input))]);
                        ("message", JStr "Login berhasil")])).
Proof.
  split; [|split].
  - intros L B env g req w salt rest hash Hlaw Hinit Hvalid Hfaults Hsalts Hhash Hnew
      registered answer. subst registered answer.
    pose proof (init_key_length L env g Hinit) as Hlen.
    rewrite <- (init_key L env g Hinit).
    pose proof (register_binds_login req Hvalid) as Hbind.
    unfold Main.register, Main.login, ShouldBindJSON. rewrite Hvalid, Hbind.
    unfold run. cbn -[Hex]. rewrite Hfaults. cbn -[Hex].
    change (fun a : models.Admin.t =>
              (models.Admin.Username a =? models.RegisterRequest.Username req)%string)
      with (named (models.RegisterRequest.Username req)).
    rewrite Hnew. cbn -[Hex]. rewrite Hsalts. cbn -[Hex]. rewrite Hhash. cbn -[Hex].
    use_fresh. cbn -[Hex].
    rewrite (find_app_new _ _ _ Hnew) by (unfold named; simpl; apply String.eqb_refl).
    cbn -[Hex]. rewrite (Hlaw salt _ DefaultCost hash Hhash). cbn -[Hex].
    unfold paseto.Encrypt. rewrite Hlen. cbn -[Hex]. repeat split.
  - intros L B env cfg ctrl req w salt rest hash Hlaw Hload Hctrl Hvalid Hfaults Hsalts Hhash Hnew
      registered answer. subst registered answer.
    pose proof (Load_key_length env cfg Hload) as Hlen.
    rewrite <- (Load_key env cfg Hload).
    rewrite <- (main_controller_key L cfg ctrl Hctrl) in *.
    pose proof (register_binds_login req Hvalid) as Hbind.
    unfold Controllers.Register, Controllers.Login, ShouldBindJSON. rewrite Hvalid, Hbind.
    unfold run. cbn -[Hex]. rewrite Hfaults. cbn -[Hex].
    change (fun a : models.Admin.t =>
              (models.Admin.Username a =? models.RegisterRequest.Username req)%string)
      with (named (models.RegisterRequest.Username req)).
    rewrite Hnew. cbn -[Hex]. rewrite Hsalts. cbn -[Hex]. rewrite Hhash. cbn -[Hex].
    use_fresh. cbn -[Hex].
    rewrite (find_app_new _ _ _ Hnew) by (unfold named; simpl; apply String.eqb_refl).
    cbn -[Hex]. rewrite (Hlaw salt _ DefaultCost hash Hhash). cbn -[Hex].
    unfold paseto.Encrypt. rewrite Hlen. cbn -[Hex]. repeat split.
  - intros B input w salt rest hash Hlaw Hu Hp Hfaults Hsalts Hhash Hnew registered answer.
    subst registered answer.
    unfold MainPure.registerHandler, MainPure.loginHandler, MainPure.createAdmin, MainPure.loginAdmin.
    cbn [Method RequestBody MainPure.LoginInput.Username MainPure.LoginInput.Password].
    apply String.eqb_neq in Hu, Hp. rewrite Hu, Hp. simpl orb. simpl negb. simpl String.eqb.
    cbv iota.
    unfold run. cbn -[Hex]. rewrite Hfaults. cbn -[Hex].
    change (fun a : MainPure.Admin.t =>
              (MainPure.Admin.Username a =? MainPure.AdminInput.Username input)%string)
      with (pure_named (MainPure.AdminInput.Username input)).
    rewrite Hnew. cbn -[Hex]. rewrite Hsalts. cbn -[Hex]. rewrite Hhash. cbn -[Hex].
    use_fresh. cbn -[Hex].
    rewrite (find_app_new _ _ _ Hnew) by (unfold pure_named; simpl; apply String.eqb_refl).
    cbn -[Hex]. rewrite (Hlaw salt _ DefaultCost hash Hhash). cbn -[Hex].
    split; reflexivity.
Qed.

Lemma registered_admin_logs_in_on_a_started_server_witness :
  let registered := run (Main.register (B := Example.bcrypt) (Parsed register_a)) Example.empty in
  let answer := fst (run (Main.login some_globals (B := Example.bcrypt)
                            (Parsed (models.LoginRequest.mk "a" "p"))) (snd registered)) in
  Status (fst registered) = 201 /\
  Status answer = 200 /\
  field "token" (body_json answer)
  = Some (JToken (issued_token "12345678901234567890123456789012" 1%N 1700000000000000001)).
Proof.
  destruct registered_admin_logs_in_on_a_started_server as [Hmain _].
  exact (Hmain Example.library Example.bcrypt some_env some_globals register_a Example.empty
           "salt1" ["salt2"] "$2a$p$salt1" Example_bcrypt_law eq_refl eq_refl eq_refl eq_refl
           eq_refl eq_refl).
Defined.

(** * [main.go]: the life of a product *)

(** X15.  A product created by POST /api/products (no inline image, no identifier
    in the body) is answered by GET /api/products/<id>, with the identifier
    the creation answered, under that identifier and with the name and the
    price of the body; DELETE /api/products/<id> then answers OK and leaves
    the collection as it was before the creation, and a further GET answers
    NotFound. *)
Theorem Main_product_is_created_fetched_and_deleted
    (L : GoLibrary) (g : Main.Globals) (product : Main.Product.t) (w : Main.World) :
  db_faults w = [] ->
  Main.Product.ID product = NilObjectID ->
  Main.Product.ImageBase64 product = "" ->
  twelve_bytes (fresh (products w)) ->
  let created := run (Main.createProduct g (Parsed product)) w in
  exists id answered,
    Status (fst created) = http.StatusCreated /\
    field "product" (body_json (fst created)) = Some answered /\
    field "id" answered = Some (JStr id) /\
    field "name" answered = Some (JStr (Main.Product.Name product)) /\
    field "price" answered = Some (JFloat (Main.Product.Price product)) /\
    let fetched := run (Main.getProduct id) (snd created) in
    Status (fst fetched) = http.StatusOK /\
    (exists shown,
        field "product" (body_json (fst fetched)) = Some shown /\
        field "id" shown = Some (JStr id) /\
        field "name" shown = Some (JStr (Main.Product.Name product)) /\
        field "price" shown = Some (JFloat (Main.Product.Price product))) /\
    let deleted := run (Main.deleteProduct id) (snd fetched) in
    Status (fst deleted) = http.StatusOK /\
    products (snd deleted) = products w /\
    Status (fst (run (Main.getProduct id) (snd deleted))) = http.StatusNotFound.
Proof.
  intros Hfaults Hid Himage Hfits created. subst created.
  pose proof (@remove_id_app_new _ Main.Product_Document (fresh (products w)) (products w)
                (Main.Product.mk (fresh (products w)) (Main.Product.Name product)
                   (Main.Product.Price product) (Main.Product.Description product)
                   (Main.Product.Category product) (Main.Product.Image product)
                   (Main.Product.ImageURL product) (Main.Product.Stock product)
                   (clock w) (clock w + 1) "" "")
                (fresh_is_new (products w)) eq_refl) as Hback.
  pose proof (find_by_id_absent (fresh (products w)) (products w) (fresh_is_new (products w)))
    as Hnew. in_fields Hnew.
  exists (Hex (fresh (products w))).
  unfold Main.createProduct, ShouldBindJSON, Main.Product_binding. rewrite Himage.
  unfold run. cbn -[Hex has_id remove_id]. rewrite Hfaults, Hid. cbn -[Hex has_id remove_id].
  rewrite (fresh_is_new (products w)). cbn -[Hex has_id remove_id].
  eexists. split; [reflexivity|]. split; [reflexivity|].
  split; [reflexivity|]. split; [reflexivity|]. split; [reflexivity|].
  unfold Main.getProduct, Main.deleteProduct. rewrite (ObjectIDFromHex_Hex _ Hfits).
  cbn -[Hex has_id remove_id].
  rewrite (find_app_new _ _ _ Hnew) by apply N.eqb_refl. cbn -[Hex has_id remove_id].
  split; [reflexivity|].
  split; [eexists; split; [reflexivity|]; split; [reflexivity|]; split; reflexivity|].
  rewrite has_id_app, (fresh_is_new (products w)).
  change (has_id (fresh (products w)) [?p]) with (N.eqb (fresh (products w)) (fresh (products w)) || false).
  rewrite N.eqb_refl. cbn -[Hex has_id remove_id]. rewrite Hback.
  rewrite Hnew. repeat split.
Qed.

Lemma Main_product_is_created_fetched_and_deleted_witness :
  let created := run (Main.createProduct (L := Example.library) some_globals (Parsed kettle))
                   Example.empty in
  exists id answered,
    Status (fst created) = 201 /\
    field "product" (body_json (fst created)) = Some answered /\
    field "id" answered = Some (JStr id) /\
    field "name" answered = Some (JStr "Kettle") /\
    field "price" answered = Some (JFloat 150000%float) /\
    let fetched := run (Main.getProduct (L := Example.library) id) (snd created) in
    Status (fst fetched) = 200 /\
    (exists shown,
        field "product" (body_json (fst fetched)) = Some shown /\
        field "id" shown = Some (JStr id) /\
        field "name" shown = Some (JStr "Kettle") /\
        field "price" shown = Some (JFloat 150000%float)) /\
    let deleted := run (Main.deleteProduct id) (snd fetched) in
    Status (fst deleted) = 200 /\
    products (snd deleted) = [] /\
    Status (fst (run (Main.getProduct (L := Example.library) id) (snd deleted))) = 404.
Proof.
  exact (Main_product_is_created_fetched_and_deleted Example.library some_globals kettle
           Example.empty eq_refl eq_refl eq_refl ltac:(reflexivity)).
Defined.

(** * Listing the admins *)

Lemma elements_slice_json {T} (f : T -> JSON) (l : list T) :
  elements (models.slice_json f l) = map f l.
Proof. destruct l; reflexivity. Qed.

Lemma elements_pure_slice_json {T} (f : T -> JSON) (l : list T) :
  elements (MainPure.slice_json f l) = map f l.
Proof. destruct l; reflexivity. Qed.

Lemma cleared_admins_listing (l : list models.Admin.t) :
  map (field "username") (map models.Admin_json (map (models.Admin.with_Password "") l))
  = map (fun a => Some (JStr (models.Admin.Username a))) l /\
  Forall (fun item => field "password" item = Some (JStr ""))
    (map models.Admin_json (map (models.Admin.with_Password "") l)).
Proof.
  induction l as [|a l [IHnames IHpasswords]]; simpl; [split; [reflexivity | constructor]|].
  split; [rewrite IHnames; reflexivity | constructor; [reflexivity | exact IHpasswords]].
Qed.

(** X16.  GET /api/admins, absent database failure, lists every stored admin by
    username, in the order of the collection, and no stored password: the
    [password] field is absent in [main-pure.go] and the empty string in the
    gin revisions.  The stored admins are as before: the passwords are
    cleared in the answer only. *)
Theorem admin_listings_show_no_password :
  (forall w : MainPure.World,
      db_faults w = [] ->
      let listing := elements (body_json (fst (run MainPure.getAdmins w))) in
      Status (fst (run MainPure.getAdmins w)) = http.StatusOK /\
      map (field "username") listing
      = map (fun a => Some (JStr (MainPure.Admin.Username a))) (admins w) /\
      Forall (fun item => field "password" item = None) listing /\
      admins (snd (run MainPure.getAdmins w)) = admins w)
  /\
  (forall w : Main.World,
      db_faults w = [] ->
      exists listed,
        Status (fst (run Main.getAdmins w)) = http.StatusOK /\
        field "admins" (body_json (fst (run Main.getAdmins w))) = Some listed /\
        map (field "username") (elements listed)
        = map (fun a => Some (JStr (models.Admin.Username a))) (admins w) /\
        Forall (fun item => field "password" item = Some (JStr "")) (elements listed) /\
        admins (snd (run Main.getAdmins w)) = admins w)
  /\
  (forall w : Controllers.World,
      db_faults w = [] ->
      exists listed,
        Status (fst (run Controllers.GetAdmins w)) = http.StatusOK /\
        field "admins" (body_json (fst (run Controllers.GetAdmins w))) = Some listed /\
        map (field "username") (elements listed)
        = map (fun a => Some (JStr (models.Admin.Username a))) (admins w) /\
        Forall (fun item => field "password" item = Some (JStr "")) (elements listed) /\
        admins (snd (run Controllers.GetAdmins w)) = admins w)
  /\
  (forall w : Draft.World,
      db_faults w = [] ->
      exists listed,
        Status (fst (run Draft.getAdmins w)) = http.StatusOK /\
        field "admins" (body_json (fst (run Draft.getAdmins w))) = Some listed /\
        map (field "username") (elements listed)
        = map (fun a => Some (JStr (models.Admin.Username a))) (admins w) /\
        Forall (fun item => field "password" item = Some (JStr "")) (elements listed) /\
        admins (snd (run Draft.getAdmins w)) = admins w).
Proof.
  split; [|split; [|split]].
  - intros w Hfaults listing. subst listing.
    unfold MainPure.getAdmins, run. cbn -[MainPure.slice_json]. rewrite Hfaults.
    cbn -[MainPure.slice_json]. rewrite elements_pure_slice_json.
    split; [reflexivity|].
    assert (Hlisting :
              map (field "username")
                (map MainPure.Admin_json
                   (map (fun a => MainPure.Admin.mk (MainPure.Admin.ID a)
                                    (MainPure.Admin.Username a) "") (admins w)))
              = map (fun a => Some (JStr (MainPure.Admin.Username a))) (admins w) /\
              Forall (fun item => field "password" item = None)
                (map MainPure.Admin_json
                   (map (fun a => MainPure.Admin.mk (MainPure.Admin.ID a)
                                    (MainPure.Admin.Username a) "") (admins w)))).
    { induction (admins w) as [|a l [IHnames IHpasswords]]; simpl;
        [split; [reflexivity | constructor]|].
      split; [rewrite IHnames; reflexivity | constructor; [reflexivity | exact IHpasswords]]. }
    destruct Hlisting as [Hnames Hpasswords].
    split; [exact Hnames|]. split; [exact Hpasswords | reflexivity].
  - intros w Hfaults. unfold Main.getAdmins, run. cbn -[models.slice_json]. rewrite Hfaults.
    cbn -[models.slice_json]. eexists. split; [reflexivity|]. split; [reflexivity|].
    rewrite elements_slice_json, map_id.
    destruct (cleared_admins_listing (admins w)) as [Hnames Hpasswords].
    split; [exact Hnames|]. split; [exact Hpasswords | reflexivity].
  - intros w Hfaults. unfold Controllers.GetAdmins, run. cbn -[models.slice_json]. rewrite Hfaults.
    cbn -[models.slice_json]. eexists. split; [reflexivity|]. split; [reflexivity|].
    rewrite elements_slice_json, map_id.
    destruct (cleared_admins_listing (admins w)) as [Hnames Hpasswords].
    split; [exact Hnames|]. split; [exact Hpasswords | reflexivity].
  - intros w Hfaults. unfold Draft.getAdmins, run. cbn -[models.slice_json]. rewrite Hfaults.
    cbn -[models.slice_json]. eexists. split; [reflexivity|]. split; [reflexivity|].
    rewrite elements_slice_json, map_id.
    destruct (cleared_admins_listing (admins w)) as [Hnames Hpasswords].
    split; [exact Hnames|]. split; [exact Hpasswords | reflexivity].
Qed.

Lemma admin_listings_show_no_password_witness :
  map (field "username") (elements (body_json (fst (run MainPure.getAdmins with_pure_admin))))
  = [Some (JStr "a")] /\
  Forall (fun item => field "password" item = None)
    (elements (body_json (fst (run MainPure.getAdmins with_pure_admin)))) /\
  admins (snd (run MainPure.getAdmins with_pure_admin)) = [pure_admin].
Proof.
  destruct admin_listings_show_no_password as [Hpure _].
  destruct (Hpure with_pure_admin eq_refl) as [_ Hlisting]. exact Hlisting.
Defined.

(** * [main.go]: listing the products *)

Lemma displayed_fields (L : GoLibrary) (p : Main.Product.t) :
  let item := Main.Product_json (Main.for_display (Main.Product_decoded p)) in
  field "id" item = Some (JStr (Hex (Main.Product.ID p))) /\
  field "name" item = Some (JStr (Main.Product.Name p)) /\
  field "image_data" item = None /\
  field "image_base64" item
  = (if String.eqb (Main.Product.ImageData p) "" then None
     else Some (JStr (Main.jpeg_prefix ++ EncodeToString (Main.Product.ImageData p)))) /\
  field "image_url" item
  = (if negb (String.eqb (Main.Product.ImageURL p) "") then Some (JStr (Main.Product.ImageURL p))
     else if negb (String.eqb (Main.Product.Image p) "") then Some (JStr (Main.Product.Image p))
     else None).
Proof.
  unfold Main.Product_json, Main.for_display, Main.Product_decoded, Main.encodeToBase64, omitempty.
  cbn -[Hex].
  destruct (String.eqb (Main.Product.ImageURL p) "") eqn:Hurl,
           (String.eqb (Main.Product.Image p) "") eqn:Himage,
           (Main.Product.ImageData p) as [|c data]; cbn -[Hex];
    rewrite ?Hurl, ?Himage; cbn -[Hex]; repeat split; reflexivity.
Qed.

(** X17.  GET /api/products of [main.go], absent database failure, lists every
    stored product, in the order of the collection.  No listed product
    carries [image_data]: stored bytes are shown as [image_base64], a JPEG
    data URI of them; [image_url] is the stored URL, or the stored [image]
    where there is no URL, or absent where there is neither.  What is
    stored does not change. *)
Theorem Main_getProducts_shows_stored_images_as_data_URIs (L : GoLibrary) (w : Main.World) :
  db_faults w = [] ->
  let out := run Main.getProducts w in
  exists listed,
    Status (fst out) = http.StatusOK /\
    field "products" (body_json (fst out)) = Some listed /\
    length (elements listed) = length (products w) /\
    products (snd out) = products w /\
    forall n p,
      nth_error (products w) n = Some p ->
      exists item,
        nth_error (elements listed) n = Some item /\
        field "id" item = Some (JStr (Hex (Main.Product.ID p))) /\
        field "name" item = Some (JStr (Main.Product.Name p)) /\
        field "image_data" item = None /\
        field "image_base64" item
        = (if String.eqb (Main.Product.ImageData p) "" then None
           else Some (JStr (Main.jpeg_prefix ++ EncodeToString (Main.Product.ImageData p)))) /\
        field "image_url" item
        = (if negb (String.eqb (Main.Product.ImageURL p) "")
           then Some (JStr (Main.Product.ImageURL p))
           else if negb (String.eqb (Main.Product.Image p) "")
                then Some (JStr (Main.Product.Image p))
                else None).
Proof.
  intros Hfaults out. subst out.
  unfold Main.getProducts, run.
  cbn -[models.slice_json Main.Product_json Main.for_display Main.Product_decoded].
  rewrite Hfaults.
  cbn -[models.slice_json Main.Product_json Main.for_display Main.Product_decoded].
  eexists. split; [reflexivity|]. split; [reflexivity|].
  rewrite elements_slice_json, !map_map.
  split; [apply length_map|]. split; [reflexivity|].
  intros n p Hnth.
  exists (Main.Product_json (Main.for_display (Main.Product_decoded p))).
  split; [|exact (displayed_fields L p)].
  rewrite nth_error_map, Hnth. reflexivity.
Qed.

Lemma Main_getProducts_shows_stored_images_as_data_URIs_witness :
  exists listed item,
    field "products" (body_json (fst (run (Main.getProducts (L := Example.library))
                                        with_stored_picture))) = Some listed /\
    nth_error (elements listed) 0 = Some item /\
    field "image_data" item = None /\
    field "image_base64" item = Some (JStr "data:image/jpeg;base64,MZ-bytes") /\
    field "image_url" item = Some (JStr "setup.exe").
Proof.
  destruct (Main_getProducts_shows_stored_images_as_data_URIs Example.library with_stored_picture
              eq_refl) as [listed [_ [Hlisted [_ [_ Hitems]]]]].
  destruct (Hitems 0%nat stored_picture eq_refl) as [item [Hitem [_ [_ [Hdata [Hbase64 Hurl]]]]]].
  exists listed, item. repeat split; assumption.
Defined.

(** * [main.go]: deleting an admin *)

(** X18.  DELETE /api/admins/<id> of [main.go].  An [id] that is not an object
    identifier in hexadecimal is answered with BadRequest before any
    database call.  Otherwise, absent database failure and identifiers
    being unique, the answer is OK if an admin has the identifier and
    NotFound if none has; afterwards the collection holds exactly the admins
    with another identifier, in their order, and the products are as
    before. *)
Theorem Main_deleteAdmin_removes_that_admin_only (id : string) (w : Main.World) :
  db_faults w = [] ->
  NoDup (map models.Admin.ID (admins w)) ->
  let out := run (Main.deleteAdmin id) w in
  match ObjectIDFromHex id with
  | Err _ => Status (fst out) = http.StatusBadRequest /\ snd out = w
  | Ok objID =>
      Status (fst out) = (if has_id objID (admins w) then http.StatusOK else http.StatusNotFound) /\
      admins (snd out) = filter (fun a => negb (N.eqb (models.Admin.ID a) objID)) (admins w) /\
      products (snd out) = products w
  end.
Proof.
  intros Hfaults Hnodup out. subst out.
  unfold Main.deleteAdmin.
  destruct (ObjectIDFromHex id) as [objID|err]; [|split; reflexivity].
  pose proof (@remove_id_filter _ models.Admin_Document objID (admins w) Hnodup) as Hrest.
  in_fields Hrest.
  unfold run. cbn -[has_id remove_id]. rewrite Hfaults. cbn -[has_id remove_id].
  destruct (has_id objID (admins w)) eqn:Hhas; cbn -[has_id remove_id].
  - split; [reflexivity|]. split; [exact Hrest | reflexivity].
  - split; [reflexivity|].
    split; [symmetry; exact (filter_others_absent objID (admins w) Hhas) | reflexivity].
Qed.

Lemma Main_deleteAdmin_removes_that_admin_only_witness :
  (Status (fst (run (Main.deleteAdmin "000000000000000000000007") shop)) = 200 /\
   admins (snd (run (Main.deleteAdmin "000000000000000000000007") shop)) = [] /\
   products (snd (run (Main.deleteAdmin "000000000000000000000007") shop)) = two_products)
  /\
  (Status (fst (run (Main.deleteAdmin "pitipaw") shop)) = 400 /\
   snd (run (Main.deleteAdmin "pitipaw") shop) = shop).
Proof.
  assert (Hnodup : NoDup (map models.Admin.ID (admins shop)))
    by (constructor; [intros [] | constructor]).
  split.
  - exact (Main_deleteAdmin_removes_that_admin_only "000000000000000000000007" shop
             eq_refl Hnodup).
  - exact (Main_deleteAdmin_removes_that_admin_only "pitipaw" shop eq_refl Hnodup).
Defined.

(** * The draft: uploads *)

(** X19.  [uploadFile] of the draft checks the size only.  A file larger than
    [maxFileSize] is answered with BadRequest and nothing is written.  Any
    other file, whatever its name, is written under [uploadDir], named by
    the second of the upload, an underscore and the client's file name; the
    answer is OK with the URL of that name under /static/uploads/, and the
    collections are as before. *)
Theorem Draft_uploadFile_checks_the_size_only
    (L : GoLibrary) (uploadDir : string) (maxFileSize : Z)
    (FormFile : string -> result File) (file : File) (w : Draft.World) :
  FormFile "file" = Ok file ->
  fs_faults w = [] ->
  let out := run (Draft.uploadFile uploadDir maxFileSize FormFile) w in
  let filename := (Sprintf_d (Unix (clock w)) ++ "_" ++ Filename (Header file))%string in
  if Size (Header file) >? maxFileSize then
    Status (fst out) = http.StatusBadRequest /\ snd out = w
  else
    Status (fst out) = http.StatusOK /\
    field "url" (body_json (fst out)) = Some (JStr ("/static/uploads/" ++ filename)) /\
    disk (snd out) = write_file (Join uploadDir filename) (Content file) (disk w) /\
    read_file (Join uploadDir filename) (disk (snd out)) = Some (Content file) /\
    products (snd out) = products w /\ admins (snd out) = admins w.
Proof.
  intros Hfile Hfs out filename. subst out filename.
  unfold Draft.uploadFile. rewrite Hfile.
  destruct (Size (Header file) >? maxFileSize); [split; reflexivity|].
  unfold run. cbn -[append Sprintf_d Unix write_file read_file]. rewrite Hfs.
  cbn -[append Sprintf_d Unix write_file read_file].
  split; [reflexivity|]. split; [reflexivity|]. split; [reflexivity|].
  split; [apply read_write_same|]. split; reflexivity.
Qed.

Lemma Draft_uploadFile_checks_the_size_only_witness :
  let out := run (Draft.uploadFile (L := Example.library) "static/uploads" 10485760
                    (fun _ => Ok installer)) Example.empty in
  Status (fst out) = 200 /\
  field "url" (body_json (fst out)) = Some (JStr "/static/uploads/1700000000_setup.exe") /\
  read_file "static/uploads/1700000000_setup.exe" (disk (snd out)) = Some "MZ-bytes".
Proof.
  destruct (Draft_uploadFile_checks_the_size_only Example.library "static/uploads" 10485760
              (fun _ => Ok installer) installer Example.empty eq_refl eq_refl)
    as [Hstatus [Hurl [_ [Hread _]]]].
  split; [exact Hstatus|]. split; [exact Hurl | exact Hread].
Defined.
